(** * Document-processing pipeline of ragflow: task partitioning, claim-and-fetch,
  chunking, embedding, RAPTOR emission and indexing.

  Shallow embedding of
    - [api/db/services/task_service.py] ([TaskService.get_tasks], [queue_tasks]);
    - [rag/svr/task_executor.py] ([set_progress], [collect], [build],
      [embedding], [run_raptor], [init_kb], [main] and the consumer loop);
    - [rag/llm/embedding_model.py] ([DefaultEmbedding.encode],
      [QWenEmbed.encode], [OllamaEmbed.encode]).

  External collaborators (queue, blob storage, search index, chunkers, models,
  clock, hash) appear as oracles: parameters whose answers the code consumes. *)

From Stdlib Require Import ZArith List Bool Ascii Floats Uint63.
From stdpp Require Import base gmap strings list pretty.
Import ListNotations.

Set Warnings "-inexact-float".

(** ** Python built-ins used by the code *)
Module Py.
Local Open Scope Z_scope.

(** [range(start, stop, step)] for a positive step: [p], [p+step], ... while
    [p < stop].  The fuel is the distance to [stop], which no ascending walk
    with a step of at least one exceeds. *)
Fixpoint range_up (fuel : nat) (p stop step : Z) : list Z :=
  match fuel with
  | O => []
  | S f => if p <? stop then p :: range_up f (p + step) stop step else []
  end.

(** The same for a negative step: while [p > stop]. *)
Fixpoint range_down (fuel : nat) (p stop step : Z) : list Z :=
  match fuel with
  | O => []
  | S f => if stop <? p then p :: range_down f (p + step) stop step else []
  end.

(** [range] raises [ValueError] on a zero step: [None]. *)
Definition range (start stop step : Z) : option (list Z) :=
  if step =? 0 then None
  else if 0 <? step
       then Some (range_up (Z.to_nat (stop - start)) start stop step)
       else Some (range_down (Z.to_nat (start - stop)) start stop step).

(** [ceil(n / s)] on integers, for a positive [s]. *)
Definition ceil_div (n s : Z) : Z := (n + s - 1) / s.
End Py.

(** ** [api/db/services/task_service.py]: the partitioner *)
Module Partition.
Local Open Scope Z_scope.

(** [api.db.FileType]: only [PDF] is tested by the partitioner. *)
Inductive FileType := PDF | DOC | VISUAL | AURAL | VIRTUAL | FOLDER | OTHER.

Definition FileType_eqb (a b : FileType) : bool :=
  match a, b with
  | PDF, PDF | DOC, DOC | VISUAL, VISUAL | AURAL, AURAL
  | VIRTUAL, VIRTUAL | FOLDER, FOLDER | OTHER, OTHER => true
  | _, _ => false
  end.

(** The keys of [doc["parser_config"]] the partitioner reads; [None] is an
    absent key. *)
Record parser_config := {
  layout_recognize : option bool;
  task_page_size : option Z;
  pages : option (list (Z * Z));
}.

Record doc := {
  doc_id : string;
  doc_type : FileType;
  doc_name : string;
  parser_id : string;
  doc_parser_config : parser_config;
}.

(** A task dictionary: [from_page]/[to_page] are absent for the single task of
    a document that is neither a PDF nor a table. *)
Record task := {
  id : string;
  task_doc_id : string;
  from_page : option Z;
  to_page : option Z;
}.

(** [dict.get(key, default)] *)
Definition get {A} (o : option A) (default : A) : A :=
  match o with Some v => v | None => default end.

(** Lines 215-223: the page size of a PDF document. *)
Definition page_size_of (d : doc) : Z :=
  let cfg := doc_parser_config d in
  let do_layout := get (layout_recognize cfg) true in
  let page_size := get (task_page_size cfg) 12 in
  let page_size :=
    if String.eqb (parser_id d) "paper" then get (task_page_size cfg) 22
    else page_size in
  if (String.eqb (parser_id d) "one" || String.eqb (parser_id d) "knowledge_graph")
     || negb do_layout
  then 10 ^ 9 else page_size.

(** Line 226: [parser_config.get("pages") or [(1, 10**5)]]; an empty list is
    falsy. *)
Definition page_ranges_of (d : doc) : list (Z * Z) :=
  match pages (doc_parser_config d) with
  | None | Some [] => [(1, 10 ^ 5)]
  | Some rs => rs
  end.

(** Lines 228-236, the body of the loop over page ranges for one [(s, e)]:
    the [(from_page, to_page)] windows it appends. *)
Definition windows (total_pages page_size : Z) (r : Z * Z) : option (list (Z * Z)) :=
  let '(s, e) := r in
  let s := s - 1 in
  let s := Z.max 0 s in
  let e := Z.min (e - 1) total_pages in
  ps ← Py.range s e page_size;
  Some (map (fun p => (p, Z.min (p + page_size) e)) ps).

(** The loop over all page ranges; an exception in one iteration ends it. *)
Fixpoint all_windows (total_pages page_size : Z) (rs : list (Z * Z))
  : option (list (Z * Z)) :=
  match rs with
  | [] => Some []
  | r :: rs' =>
      w ← windows total_pages page_size r;
      ws ← all_windows total_pages page_size rs';
      Some (w ++ ws)
  end.

(** Lines 242-246: windows of 3000 rows. *)
Definition row_windows (rn : Z) : option (list (Z * Z)) :=
  rows ← Py.range 0 rn 3000;
  Some (map (fun i => (i, Z.min (i + 3000) rn)) rows).

Section queue_tasks.
(** [get_uuid()]: the k-th identifier drawn. *)
Variable get_uuid : nat -> string.
(** [PdfParser.total_page_number(doc["name"], file_bin)] and
    [RAGFlowExcelParser.row_number(doc["name"], file_bin)] on the stored
    bytes. *)
Variable total_page_number : Z.
Variable row_number : Z.

Definition new_task (d : doc) (k : nat) : task :=
  {| id := get_uuid k; task_doc_id := doc_id d;
     from_page := None; to_page := None |}.

Definition ranged_task (d : doc) (k : nat) (w : Z * Z) : task :=
  {| id := get_uuid k; task_doc_id := doc_id d;
     from_page := Some (fst w); to_page := Some (snd w) |}.

(** [queue_tasks]: the list [tsks] that is bulk-inserted and then published,
    one message per task; [None] when building it raises. *)
Definition queue_tasks (d : doc) : option (list task) :=
  if FileType_eqb (doc_type d) PDF then
    ws ← all_windows total_page_number (page_size_of d) (page_ranges_of d);
    Some (imap (ranged_task d) ws)
  else if String.eqb (parser_id d) "table" then
    ws ← row_windows row_number;
    Some (imap (ranged_task d) ws)
  else Some [new_task d 0%nat].
End queue_tasks.

(** The [[from_page, to_page)] range of a task that has one. *)
Definition task_range (t : task) : option (Z * Z) :=
  f ← from_page t; e ← to_page t; Some (f, e).

Definition task_ranges (ts : list task) : list (option (Z * Z)) :=
  map task_range ts.

(** [tiles a b l]: the half-open ranges of [l] are non-empty, each starts
    where the previous one ended, the first starts at [a] and the last ends
    at [b]: contiguous, non-overlapping and jointly covering [[a, b)]. *)
Inductive tiles : Z -> Z -> list (Z * Z) -> Prop :=
| tiles_nil a : tiles a a []
| tiles_cons a m b l : a < m -> tiles m b l -> tiles a b ((a, m) :: l).

(** A 0-based page index lies in some range of the list. *)
Definition covers (l : list (Z * Z)) (p : Z) : Prop :=
  exists r, In r l /\ fst r <= p < snd r.
End Partition.

(** Concrete documents used in the examples below. *)
Module PartitionExamples.
Import Partition.
Local Open Scope Z_scope.

Definition no_config : parser_config :=
  {| layout_recognize := None; task_page_size := None; pages := None |}.

(** A PDF under the generic parser with an empty parser-config. *)
Definition plain_pdf : doc :=
  {| doc_id := "d1"; doc_type := PDF; doc_name := "a.pdf";
     parser_id := "naive"; doc_parser_config := no_config |}.

(** The same with [task_page_size = 100000]. *)
Definition wide_pdf : doc :=
  {| doc_id := "d2"; doc_type := PDF; doc_name := "big.pdf"; parser_id := "naive";
     doc_parser_config :=
       {| layout_recognize := None; task_page_size := Some 100000; pages := None |} |}.

(** A PDF with the explicit page range 1..5. *)
Definition pages_1_5 : doc :=
  {| doc_id := "d3"; doc_type := PDF; doc_name := "c.pdf"; parser_id := "naive";
     doc_parser_config :=
       {| layout_recognize := None; task_page_size := None; pages := Some [(1, 5)] |} |}.

(** A PDF with the explicit page range 3..3: one page. *)
Definition pages_3_3 : doc :=
  {| doc_id := "d3b"; doc_type := PDF; doc_name := "c.pdf"; parser_id := "naive";
     doc_parser_config :=
       {| layout_recognize := None; task_page_size := None; pages := Some [(3, 3)] |} |}.

Definition uuid0 : nat -> string := fun _ => "".
End PartitionExamples.

(** ** The relational store: [api/db/db_models.py] tables as the code reads them *)
Module DB.
(** [api.db.TaskStatus], the values of [Document.run]. *)
Inductive TaskStatus := UNSTART | RUNNING | CANCEL | DONE | FAIL.

(** A row of [Task], keyed by its id. *)
Record Task := {
  doc_id : string;
  from_page : Z;
  to_page : Z;
  retry_count : Z;
  progress : float;
  progress_msg : string;
  update_time : Z;
}.

(** [parser_config["raptor"]] *)
Record raptor_config := {
  max_cluster : option Z;
  prompt : string;
  max_token : Z;
  threshold : float;
  random_seed : Z;
}.

(** The keys of [Document.parser_config] the worker reads. *)
Record parser_config := {
  auto_keywords : option Z;
  auto_questions : option Z;
  filename_embd_weight : option float;
  raptor : option raptor_config;
}.

Record Document := {
  kb_id : string;
  parser_id : string;
  doc_parser_config : parser_config;
  name : string;
  type : string;
  location : string;
  size : Z;
  run : TaskStatus;
  doc_progress : float;
}.

Record Knowledgebase := {
  tenant_id : string;
  language : string;
  embd_id : string;
}.

Record Tenant := {
  img2txt_id : string;
  asr_id : string;
  llm_id : string;
}.

Record t := {
  tasks : gmap string Task;
  documents : gmap string Document;
  knowledgebases : gmap string Knowledgebase;
  tenants : gmap string Tenant;
}.

Definition set_tasks (db : t) (ts : gmap string Task) : t :=
  {| tasks := ts; documents := documents db;
     knowledgebases := knowledgebases db; tenants := tenants db |}.
End DB.

(** ** [api/db/services/task_service.py]: [TaskService] *)
Module TaskService.
Local Open Scope Z_scope.

(** One dictionary of [docs.dicts()]: the fields selected by [get_tasks]. *)
Record row := {
  id : string;
  doc_id : string;
  from_page : Z;
  to_page : Z;
  retry_count : Z;
  kb_id : string;
  parser_id : string;
  parser_config : DB.parser_config;
  name : string;
  type : string;
  location : string;
  size : Z;
  tenant_id : string;
  language : string;
  embd_id : string;
  img2txt_id : string;
  asr_id : string;
  llm_id : string;
  update_time : Z;
}.

Definition NL : string := "
".

(** Lines 77-86: [Task] joined with [Document], [Knowledgebase] and [Tenant]
    where [Task.id == task_id]; ids are primary keys, so at most one row. *)
Definition select_join (db : DB.t) (task_id : string) : option row :=
  t ← DB.tasks db !! task_id;
  d ← DB.documents db !! DB.doc_id t;
  k ← DB.knowledgebases db !! DB.kb_id d;
  n ← DB.tenants db !! DB.tenant_id k;
  Some {| id := task_id; doc_id := DB.doc_id t;
          from_page := DB.from_page t; to_page := DB.to_page t;
          retry_count := DB.retry_count t;
          kb_id := DB.kb_id d; parser_id := DB.parser_id d;
          parser_config := DB.doc_parser_config d; name := DB.name d;
          type := DB.type d; location := DB.location d; size := DB.size d;
          tenant_id := DB.tenant_id k; language := DB.language k;
          embd_id := DB.embd_id k;
          img2txt_id := DB.img2txt_id n; asr_id := DB.asr_id n;
          llm_id := DB.llm_id n; update_time := DB.update_time t |}.

(** Lines 100-104: [Task.update(progress_msg=Task.progress_msg + msg,
    progress=prog, retry_count=rc).where(Task.id == id)]. *)
Definition update_claim (msg : string) (prog : float) (rc : Z) (t : DB.Task) : DB.Task :=
  {| DB.doc_id := DB.doc_id t; DB.from_page := DB.from_page t;
     DB.to_page := DB.to_page t; DB.retry_count := rc;
     DB.progress := prog; DB.progress_msg := DB.progress_msg t +:+ msg;
     DB.update_time := DB.update_time t |}.

Definition msg_received : string := NL +:+ "Task has been received.".
Definition msg_abandoned : string :=
  NL +:+ "ERROR: Task is abandoned after 3 times attempts.".

(** [get_tasks(task_id)]; [random] is the value of [random.random()].
    Returns the list handed to the consumer and the store after the update. *)
Definition get_tasks (random : float) (db : DB.t) (task_id : string)
  : list row * DB.t :=
  match select_join db task_id with
  | None => ([], db)
  | Some d0 =>
      let msg := msg_received in
      let prog := (random / 10)%float in
      let '(msg, prog) :=
        if 3 <=? retry_count d0 then (msg_abandoned, (-1)%float) else (msg, prog) in
      let db' :=
        DB.set_tasks db (alter (update_claim msg prog (retry_count d0 + 1))
                               (id d0) (DB.tasks db)) in
      if 3 <=? retry_count d0 then ([], db') else ([d0], db')
  end.

(** Lines 157-164: [do_cancel(id)]; any exception (a missing task or
    document) is swallowed and answers [False]. *)
Definition do_cancel (db : DB.t) (id : string) : bool :=
  match DB.tasks db !! id with
  | None => false
  | Some task =>
      match DB.documents db !! DB.doc_id task with
      | None => false
      | Some doc =>
          match DB.run doc with DB.CANCEL => true | _ => false end
          || (DB.doc_progress doc <? 0)%float
      end
  end.

(** The [info] dictionary of [update_progress]: [progress] may be absent. *)
Record info := {
  info_progress_msg : string;
  info_progress : option float;
}.

Definition append_msg (m : string) (t : DB.Task) : DB.Task :=
  {| DB.doc_id := DB.doc_id t; DB.from_page := DB.from_page t;
     DB.to_page := DB.to_page t; DB.retry_count := DB.retry_count t;
     DB.progress := DB.progress t;
     DB.progress_msg := DB.progress_msg t +:+ NL +:+ m;
     DB.update_time := DB.update_time t |}.

Definition set_prog (p : float) (t : DB.Task) : DB.Task :=
  {| DB.doc_id := DB.doc_id t; DB.from_page := DB.from_page t;
     DB.to_page := DB.to_page t; DB.retry_count := DB.retry_count t;
     DB.progress := p; DB.progress_msg := DB.progress_msg t;
     DB.update_time := DB.update_time t |}.

(** Lines 168-188: [update_progress(id, info)], on the [Task] table; both
    branches (with and without the lock) issue the same two updates. *)
Definition update_tasks (ts : gmap string DB.Task) (id : string) (i : info)
  : gmap string DB.Task :=
  let ts :=
    if String.eqb (info_progress_msg i) "" then ts
    else alter (append_msg (info_progress_msg i)) id ts in
  match info_progress i with
  | Some p => alter (set_prog p) id ts
  | None => ts
  end.

Definition update_progress (db : DB.t) (id : string) (i : info) : DB.t :=
  DB.set_tasks db (update_tasks (DB.tasks db) id i).

(** [n] successive claims of the same task: the lists returned, in order, and
    the store at the end. *)
Fixpoint claims (random : nat -> float) (n : nat) (db : DB.t) (task_id : string)
  : list (list row) * DB.t :=
  match n with
  | O => ([], db)
  | S k =>
      let '(r, db1) := get_tasks (random 0%nat) db task_id in
      let '(rs, db2) := claims (fun i => random (S i)) k db1 task_id in
      (r :: rs, db2)
  end.
End TaskService.

Module TaskServiceExamples.
Import TaskService.
Local Open Scope Z_scope.

Definition cfg0 : DB.parser_config :=
  {| DB.auto_keywords := None; DB.auto_questions := None;
     DB.filename_embd_weight := None; DB.raptor := None |}.

Definition task_at (rc : Z) : DB.Task :=
  {| DB.doc_id := "doc1"; DB.from_page := 0; DB.to_page := 12;
     DB.retry_count := rc; DB.progress := 0%float; DB.progress_msg := "";
     DB.update_time := 0 |}.

Definition doc1 : DB.Document :=
  {| DB.kb_id := "kb1"; DB.parser_id := "naive"; DB.doc_parser_config := cfg0;
     DB.name := "a.pdf"; DB.type := "pdf"; DB.location := "a.pdf";
     DB.size := 1000; DB.run := DB.RUNNING; DB.doc_progress := 0%float |}.

Definition kb1 : DB.Knowledgebase :=
  {| DB.tenant_id := "tenant1"; DB.language := "English"; DB.embd_id := "bge" |}.

Definition tenant1 : DB.Tenant :=
  {| DB.img2txt_id := "i2t"; DB.asr_id := "asr"; DB.llm_id := "chat" |}.

(** A store holding one task, with the given retry-count, and its context. *)
Definition db_at (rc : Z) : DB.t :=
  {| DB.tasks := {[ "t1" := task_at rc ]};
     DB.documents := {[ "doc1" := doc1 ]};
     DB.knowledgebases := {[ "kb1" := kb1 ]};
     DB.tenants := {[ "tenant1" := tenant1 ]} |}.

(** A store whose only task points to a document that is gone. *)
Definition orphan_db (rc : Z) : DB.t :=
  {| DB.tasks := {[ "t1" := task_at rc ]};
     DB.documents := ∅;
     DB.knowledgebases := {[ "kb1" := kb1 ]};
     DB.tenants := {[ "tenant1" := tenant1 ]} |}.
End TaskServiceExamples.

(** ** Python strings *)
Module PyStr.
(** [s.startswith(p)] *)
Fixpoint startswith (p s : string) : bool :=
  match p, s with
  | EmptyString, _ => true
  | String a p', String b s' => Ascii.eqb a b && startswith p' s'
  | String _ _, EmptyString => false
  end.

(** [p in s]: what [re.search] answers for a pattern without operators. *)
Fixpoint contains (p s : string) : bool :=
  startswith p s ||
  match s with
  | EmptyString => false
  | String _ s' => contains p s'
  end.

(** [s.replace(c, "")] for a one-character [c]. *)
Fixpoint remove_char (c : ascii) (s : string) : string :=
  match s with
  | EmptyString => EmptyString
  | String a s' => if Ascii.eqb a c then remove_char c s' else String a (remove_char c s')
  end.

(** [s.split(c)] for a one-character separator. *)
Fixpoint split_on (c : ascii) (s : string) : list string :=
  match s with
  | EmptyString => [EmptyString]
  | String a s' =>
      if Ascii.eqb a c then EmptyString :: split_on c s'
      else match split_on c s' with
           | [] => [String a EmptyString]
           | w :: ws => String a w :: ws
           end
  end.

(** [sep.join(l)] *)
Fixpoint join (sep : string) (l : list string) : string :=
  match l with
  | [] => ""
  | [x] => x
  | x :: l' => x +:+ sep +:+ join sep l'
  end.

(** [s.lower()] on ASCII letters. *)
Definition lower_ascii (a : ascii) : ascii :=
  let n := Ascii.nat_of_ascii a in
  if (65 <=? n)%nat && (n <=? 90)%nat then Ascii.ascii_of_nat (n + 32) else a.

Fixpoint lower (s : string) : string :=
  match s with
  | EmptyString => EmptyString
  | String a s' => String (lower_ascii a) (lower s')
  end.

(** [float(n)] for an integer of moderate size. *)
Definition float_of_Z (z : Z) : float :=
  if (z <? 0)%Z then (- PrimFloat.of_uint63 (Uint63.of_Z (- z)))%float
  else PrimFloat.of_uint63 (Uint63.of_Z z).
End PyStr.

(** ** [rag/svr/task_executor.py]: the worker's world *)
Module World.
(** The values held by a chunk dictionary. *)
Inductive value :=
| VStr (s : string)
| VInt (z : Z)
| VFloat (x : float)
| VStrs (l : list string)
| VVec (v : list float)
| VBytes (b : string)
| VPicture (jpeg : string).

(** A chunk is a Python [dict] with string keys. *)
Abbreviation chunk := (gmap string value).

(** Truthiness, as [not d.get(k)] and [if d.get(k)] test it.  An image object
    is always truthy; [jpeg] is what its [save(..., format="JPEG")] writes. *)
Definition truthy (v : value) : bool :=
  match v with
  | VStr s | VBytes s => negb (String.eqb s "")
  | VInt z => negb (z =? 0)%Z
  | VFloat x => negb (x =? 0)%float
  | VStrs l => match l with [] => false | _ => true end
  | VVec l => match l with [] => false | _ => true end
  | VPicture _ => true
  end.

(** Exceptions: [except TimeoutError] is told apart from [except Exception];
    the string is [str(e)]. *)
Inductive exn :=
| TimeoutError (str : string)
| Exception (str : string).

Definition exn_str (e : exn) : string :=
  match e with TimeoutError s | Exception s => s end.

(** The answer of an external call. *)
Inductive result (A : Type) :=
| Ok (a : A)
| Err (e : exn).
Arguments Ok {A} a.
Arguments Err {A} e.

(** How a piece of the worker ends: it returns, an exception escapes it, or
    the process is gone ([os._exit(0)]). *)
Inductive outcome (A : Type) :=
| Ret (a : A)
| Raise (e : exn)
| Exit.
Arguments Ret {A} a.
Arguments Raise {A} e.
Arguments Exit {A}.

(** A queue message [{id: task-id, type?: "raptor"}] and the [Payload] that
    carries it. *)
Record Msg := { msg_id : string; msg_type : option string }.
Record Payload := { get_message : option Msg }.

Inductive LLMType := CHAT | EMBEDDING.

(** External calls and process-level effects, in the order they happen. *)
Inductive event :=
| EvGetUnacked
| EvQueueConsumer
| EvSleep
| EvDoCancel (task_id : string) (answer : bool)
| EvGetTasks (task_id : string)
| EvUpdateProgress (task_id : string) (i : TaskService.info)
| EvAck
| EvExit
| EvLLMBundle (ty : LLMType) (llm_name : string)
| EvGetStorageAddress (doc_id : string)
| EvStorageGet (bucket name : string)
| EvChunk (name : string)
| EvStoragePut (bucket name : string)
| EvKeywordExtraction
| EvQuestionProposal
| EvEncode (texts : list string)
| EvChunkList (doc_id : string)
| EvRaptor
| EvIndexExist (idxnm : string)
| EvCreateIdx (idxnm : string)
| EvBulk (idxnm : string) (ids : list string) (es_r : list string)
| EvDeleteByQuery (idxnm : string) (doc_id : string)
| EvIncrementChunkNum (doc_id kb_id : string) (tk_count : Z) (chunk_count : nat).

(** The state the worker reads and writes. *)
Record world := {
  tasks : gmap string DB.Task;            (** the [Task] table *)
  reads : nat;                            (** reads of the shared store so far *)
  PAYLOAD : option Payload;               (** the global [PAYLOAD] *)
  es : gmap string (list (string * chunk)); (** search index name -> id -> chunk *)
  bulks : nat;                            (** [ELASTICSEARCH.bulk] calls so far *)
  nows : nat;                             (** [datetime.now()] calls so far *)
  trace : list event;
}.

(** A progress callback call made by external code: [callback(prog, msg)]. *)
Record callback_call := { cb_prog : option float; cb_msg : string }.

(** The external collaborators, as the answers they give. *)
Record oracle := {
  (** queue *)
  get_unacked_for : result (option Payload);
  queue_consumer : result (option Payload);
  (** store: rows owned by other actors, as seen at the k-th read *)
  documents_at : nat -> gmap string DB.Document;
  knowledgebases : gmap string DB.Knowledgebase;
  tenants : gmap string DB.Tenant;
  random : nat -> float;
  (** [rag.settings.DOC_MAXIMUM_SIZE] *)
  DOC_MAXIMUM_SIZE : Z;
  (** models *)
  LLMBundle : LLMType -> string -> string -> option exn;
  encode : list string -> result (list (list float) * Z);
  keyword_extraction : string -> Z -> result string;
  question_proposal : string -> Z -> result string;
  (** blob storage *)
  get_storage_address : string -> result (string * string);
  storage_get : string -> string -> result string;
  storage_put : string -> string -> string -> option exn;
  (** the chunker registered for a parser id: its progress callbacks, then
      its fragments or its exception *)
  FACTORY : string -> option (TaskService.row -> string ->
                              list callback_call * result (list chunk));
  (** text utilities *)
  tokenize : string -> string;
  fine_grained_tokenize : string -> string;
  rmSpace : string -> string;
  strip_table_tags : string -> string;
  num_tokens_from_string : string -> Z;
  md5_hexdigest : string -> string;
  str_other : value -> string;
  (** clock *)
  now_str : nat -> string;
  now_timestamp : nat -> float;
  elapsed : string;
  (** search index *)
  index_name : string -> string;
  (** [json.load(open(".../conf/mapping.json"))]: the exception it raises,
      if any *)
  load_mapping : option exn;
  bulk_error : nat -> chunk -> option string;
  (** RAPTOR *)
  chunk_list : string -> string -> string -> result (list chunk);
  raptor_call : DB.raptor_config -> list (string * list float) ->
                list callback_call * result (list (string * list float));
}.

(** The worker monad. *)
Definition M (A : Type) : Type := world -> outcome A * world.

Definition ret {A} (a : A) : M A := fun w => (Ret a, w).

Definition bind {A B} (m : M A) (f : A -> M B) : M B :=
  fun w =>
    match m w with
    | (Ret a, w') => f a w'
    | (Raise e, w') => (Raise e, w')
    | (Exit, w') => (Exit, w')
    end.

Definition raise {A} (e : exn) : M A := fun w => (Raise e, w).

(** [try: m except Exception as e: h(e)]; leaving the process is not caught. *)
Definition try_except {A} (m : M A) (h : exn -> M A) : M A :=
  fun w =>
    match m w with
    | (Raise e, w') => h e w'
    | r => r
    end.

#[global] Instance M_ret : MRet M := @ret.
#[global] Instance M_bind : MBind M := fun A B f m => bind m f.

Definition set_trace (w : world) (t : list event) : world :=
  {| tasks := tasks w; reads := reads w; PAYLOAD := PAYLOAD w; es := es w;
     bulks := bulks w; nows := nows w; trace := t |}.

Definition set_tasks (w : world) (ts : gmap string DB.Task) : world :=
  {| tasks := ts; reads := reads w; PAYLOAD := PAYLOAD w; es := es w;
     bulks := bulks w; nows := nows w; trace := trace w |}.

Definition set_reads (w : world) (n : nat) : world :=
  {| tasks := tasks w; reads := n; PAYLOAD := PAYLOAD w; es := es w;
     bulks := bulks w; nows := nows w; trace := trace w |}.

Definition set_PAYLOAD (w : world) (p : option Payload) : world :=
  {| tasks := tasks w; reads := reads w; PAYLOAD := p; es := es w;
     bulks := bulks w; nows := nows w; trace := trace w |}.

Definition set_es (w : world) (e : gmap string (list (string * chunk))) : world :=
  {| tasks := tasks w; reads := reads w; PAYLOAD := PAYLOAD w; es := e;
     bulks := bulks w; nows := nows w; trace := trace w |}.

Definition set_bulks (w : world) (n : nat) : world :=
  {| tasks := tasks w; reads := reads w; PAYLOAD := PAYLOAD w; es := es w;
     bulks := n; nows := nows w; trace := trace w |}.

Definition set_nows (w : world) (n : nat) : world :=
  {| tasks := tasks w; reads := reads w; PAYLOAD := PAYLOAD w; es := es w;
     bulks := bulks w; nows := n; trace := trace w |}.

(** Primitive steps. *)
Definition emit (e : event) : M unit :=
  fun w => (Ret tt, set_trace w (trace w ++ [e])).

(** [os._exit(0)] *)
Definition os_exit {A} : M A := fun w => (Exit, set_trace w (trace w ++ [EvExit])).

Definition get_world : M world := fun w => (Ret w, w).

Definition put_PAYLOAD (p : option Payload) : M unit :=
  fun w => (Ret tt, set_PAYLOAD w p).

Definition put_tasks (ts : gmap string DB.Task) : M unit :=
  fun w => (Ret tt, set_tasks w ts).

Definition put_es (e : gmap string (list (string * chunk))) : M unit :=
  fun w => (Ret tt, set_es w e).

Definition next_read : M nat := fun w => (Ret (reads w), set_reads w (S (reads w))).
Definition next_bulk : M nat := fun w => (Ret (bulks w), set_bulks w (S (bulks w))).
Definition next_now : M nat := fun w => (Ret (nows w), set_nows w (S (nows w))).

(** An external call that may raise. *)
Definition call {A} (r : result A) : M A :=
  match r with Ok a => ret a | Err e => raise e end.

Definition call_unit (r : option exn) : M unit :=
  match r with None => ret tt | Some e => raise e end.

(** [for x in l: body(x)] *)
Fixpoint for_each {A} (l : list A) (body : A -> M unit) : M unit :=
  match l with
  | [] => ret tt
  | x :: l' => body x;; for_each l' body
  end.

(** [[f(x) for x in l]] with an effectful [f]. *)
Fixpoint map_M {A B} (f : A -> M B) (l : list A) : M (list B) :=
  match l with
  | [] => ret []
  | x :: l' => y ← f x; ys ← map_M f l'; ret (y :: ys)
  end.
End World.

(** ** [rag/svr/task_executor.py]: the worker *)
Module Executor.
Import World.
Local Open Scope Z_scope.

(** [BATCH_SIZE]-like constants of the module. *)
Definition batch_size : Z := 32.
Definition es_bulk_size : Z := 4.

Definition chunk_id (c : chunk) : string :=
  match c !! "_id" with Some (VStr s) => s | _ => "" end.

Definition chunk_doc_id (c : chunk) : option value := c !! "doc_id".

(** Modelled from the spec: the search index adapter ([rag/utils/es_conn.py]
    is not part of the sources).  "bulk upsert": a written chunk replaces the
    entry holding its id, or is added when there is none. *)
Fixpoint upsert (idx : list (string * chunk)) (c : chunk) : list (string * chunk) :=
  match idx with
  | [] => [(chunk_id c, c)]
  | (k, v) :: idx' =>
      if String.eqb k (chunk_id c) then (k, c) :: idx' else (k, v) :: upsert idx' c
  end.

(** Modelled from the spec: "delete-by-query on document id" removes every
    entry whose [doc_id] is the given one. *)
Definition delete_doc (doc_id : string) (idx : list (string * chunk))
  : list (string * chunk) :=
  List.filter (fun kv => match chunk_doc_id (snd kv) with
                         | Some (VStr s) => negb (String.eqb s doc_id)
                         | _ => true
                         end) idx.

(** The chunks of a document that a query on the index still finds. *)
Definition queryable (w : world) (idxnm doc_id : string) : list (string * chunk) :=
  List.filter (fun kv => match chunk_doc_id (snd kv) with
                         | Some (VStr s) => String.eqb s doc_id
                         | _ => false
                         end) (default [] (es w !! idxnm)).

(** [for x in l: s = body(s, x)] *)
Fixpoint fold_M {S A} (body : S -> A -> M S) (l : list A) (s : S) : M S :=
  match l with
  | [] => mret s
  | x :: l' => s' ← body s x; fold_M body l' s'
  end.

(** [l[i:j]] for [0 <= i <= j]. *)
Definition slice {A} (l : list A) (i j : Z) : list A :=
  take (Z.to_nat (j - i)) (drop (Z.to_nat i) l).

Definition len {A} (l : list A) : Z := Z.of_nat (length l).

Section worker.
Variable o : oracle.

(** The shared store as the worker's k-th read finds it. *)
Definition db_at (w : world) (k : nat) : DB.t :=
  {| DB.tasks := tasks w; DB.documents := documents_at o k;
     DB.knowledgebases := knowledgebases o; DB.tenants := tenants o |}.

Definition read_db : M DB.t :=
  k ← next_read; w ← get_world; mret (db_at w k).

(** [TaskService.do_cancel(task_id)] *)
Definition do_cancel (task_id : string) : M bool :=
  db ← read_db;
  let b := TaskService.do_cancel db task_id in
  emit (EvDoCancel task_id b);; mret b.

(** [TaskService.update_progress(task_id, d)] *)
Definition update_progress (task_id : string) (i : TaskService.info) : M unit :=
  w ← get_world;
  put_tasks (DB.tasks (TaskService.update_progress (db_at w (reads w)) task_id i));;
  emit (EvUpdateProgress task_id i).

(** [TaskService.get_tasks(task_id)] *)
Definition get_tasks (task_id : string) : M (list TaskService.row) :=
  k ← next_read; w ← get_world;
  emit (EvGetTasks task_id);;
  let '(rows, db') := TaskService.get_tasks (random o k) (db_at w k) task_id in
  put_tasks (DB.tasks db');; mret rows.

(** [if PAYLOAD: PAYLOAD.ack(); PAYLOAD = None] *)
Definition ack_payload : M unit :=
  w ← get_world;
  match PAYLOAD w with
  | Some _ => emit EvAck;; put_PAYLOAD None
  | None => mret tt
  end.

Definition is_neg (prog : option float) : bool :=
  match prog with Some p => (p <? 0)%float | None => false end.

Definition page_prefix (from_page to_page : Z) : string :=
  "Page(" +:+ pretty (from_page + 1) +:+ "~" +:+ pretty (to_page + 1) +:+ "): ".

(** Lines 107-119 of [set_progress]: the dictionary [d] handed to
    [update_progress], given the answer of [do_cancel]. *)
Definition progress_info (from_page to_page : Z) (prog : option float)
    (msg : string) (cancel : bool) : TaskService.info :=
  let msg := if is_neg prog then "[ERROR]" +:+ msg else msg in
  let msg := if cancel then msg +:+ " [Canceled]" else msg in
  let prog := if cancel then Some (-1)%float else prog in
  let msg :=
    if 0 <? to_page
    then (if String.eqb msg "" then msg else page_prefix from_page to_page +:+ msg)
    else msg in
  {| TaskService.info_progress_msg := msg; TaskService.info_progress := prog |}.

(** [set_progress(task_id, from_page, to_page, prog, msg)] *)
Definition set_progress (task_id : string) (from_page to_page : Z)
    (prog : option float) (msg : string) : M unit :=
  cancel ← do_cancel task_id;
  update_progress task_id (progress_info from_page to_page prog msg cancel);;
  if cancel : bool then ack_payload;; os_exit else mret tt.

(** The defaults of [set_progress]. *)
Definition default_msg : string := "Processing...".

(** A chunker's or RAPTOR's calls of the callback it was handed. *)
Definition run_callbacks (callback : option float -> string -> M unit)
    (calls : list callback_call) : M unit :=
  for_each calls (fun c => callback (cb_prog c) (cb_msg c)).

(** Lines 135-148, the [try] block of [collect]: the payload claimed, if any.
    An exception of the queue is logged and nothing is claimed. *)
Definition claim_message : M (option Payload) :=
  try_except
    (emit EvGetUnacked;;
     p ← call (get_unacked_for o);
     put_PAYLOAD p;;
     p ← match p with
         | Some _ => mret p
         | None =>
             emit EvQueueConsumer;;
             p' ← call (queue_consumer o);
             put_PAYLOAD p';; mret p'
         end;
     match p with
     | Some payload => mret (Some payload)
     | None => emit EvSleep;; mret None
     end)
    (fun _ => mret None).

(** Lines 150-165 of [collect]: from the claimed payload to the rows. *)
Definition fetch_rows (claimed : option Payload)
  : M (list (TaskService.row * option string)) :=
  match claimed with
  | None => mret []
  | Some payload =>
      match get_message payload with
      | None => mret []
      | Some msg =>
          c ← do_cancel (msg_id msg);
          if c : bool then mret []
          else
            tasks ← get_tasks (msg_id msg);
            let ty := match msg_type msg with
                      | Some t => if String.eqb t "raptor" then Some "raptor" else None
                      | None => None
                      end in
            mret (map (fun t => (t, ty)) tasks)
      end
  end.

(** [collect()]: the rows of the returned frame, each with its [task_type]
    column; the empty list stands for an empty frame and for [[]]. *)
Definition collect : M (list (TaskService.row * option string)) :=
  claimed ← claim_message; fetch_rows claimed.

(** [d[k]] for a key holding a string; a missing key is a [KeyError], another
    type makes the string operation applied to it fail. *)
Definition get_str (d : chunk) (k : string) : M string :=
  match d !! k with
  | Some (VStr s) => mret s
  | Some _ => raise (Exception "TypeError")
  | None => raise (Exception ("'" +:+ k +:+ "'"))
  end.

Definition get_vec (d : chunk) (k : string) : M (list float) :=
  match d !! k with
  | Some (VVec v) => mret v
  | Some _ => raise (Exception "TypeError")
  | None => raise (Exception ("'" +:+ k +:+ "'"))
  end.

(** [str(v)] *)
Definition py_str (v : value) : string :=
  match v with
  | VStr s => s
  | VInt z => pretty z
  | _ => str_other o v
  end.

(** Lines 283-319: one iteration of the loop over the chunker's fragments. *)
Definition stamp (row : TaskService.row) (ck : chunk) : M chunk :=
  let doc : chunk :=
    <["doc_id" := VStr (TaskService.doc_id row)]>
      (<["kb_id" := VStrs [TaskService.kb_id row]]> ∅) in
  let d : chunk := ck ∪ doc in
  content ← get_str ck "content_with_weight";
  let did := default (VStr (TaskService.doc_id row)) (d !! "doc_id") in
  let _id := md5_hexdigest o (content +:+ py_str did) in
  let d := <["_id" := VStr _id]> d in
  k1 ← next_now;
  let d := <["create_time" := VStr (now_str o k1)]> d in
  k2 ← next_now;
  let d := <["create_timestamp_flt" := VFloat (now_timestamp o k2)]> d in
  if negb (from_option truthy false (d !! "image")) then mret d
  else
    try_except
      (bytes ← match d !! "image" with
               | Some (VBytes b) => mret b
               | Some (VPicture jpeg) => mret jpeg
               | _ => raise (Exception "AttributeError")
               end;
       emit (EvStoragePut (TaskService.kb_id row) _id);;
       call_unit (storage_put o (TaskService.kb_id row) _id bytes))
      (fun _ => mret tt);;
    let d := <["img_id" := VStr (TaskService.kb_id row +:+ "-" +:+ _id)]> d in
    mret (delete "image" d).

(** Lines 335-350: keywords for one chunk. *)
Definition add_keywords (n : Z) (d : chunk) : M chunk :=
  content ← get_str d "content_with_weight";
  emit EvKeywordExtraction;;
  kw ← call (keyword_extraction o content n);
  let kwd := PyStr.split_on "," kw in
  let d := <["important_kwd" := VStrs kwd]> d in
  mret (<["important_tks" := VStr (tokenize o (PyStr.join " " kwd))]> d).

(** Lines 358-374: questions for one chunk. *)
Definition add_questions (n : Z) (d : chunk) : M chunk :=
  content ← get_str d "content_with_weight";
  emit EvQuestionProposal;;
  qst ← call (question_proposal o content n);
  content ← get_str d "content_with_weight";
  let d := <["content_with_weight" :=
               VStr ("Question: " +:+ TaskService.NL +:+ qst +:+ TaskService.NL
                     +:+ TaskService.NL +:+ "Answer:" +:+ TaskService.NL +:+ content)]> d in
  let qst := tokenize o qst in
  d ← match d !! "content_ltks" with
      | Some _ => s ← get_str d "content_ltks";
                  mret (<["content_ltks" := VStr (s +:+ " " +:+ qst)]> d)
      | None => mret d
      end;
  match d !! "content_sm_ltks" with
  | Some _ => s ← get_str d "content_sm_ltks";
              mret (<["content_sm_ltks" :=
                        VStr (s +:+ " " +:+ fine_grained_tokenize o qst)]> d)
  | None => mret d
  end.

Definition size_limit_msg : string :=
  "File size exceeds( <= " +:+ pretty (Z.quot (DOC_MAXIMUM_SIZE o) (1024 * 1024)) +:+ "Mb )".

(** [build(row)]: [None] is Python's [None]. *)
Definition build (row : TaskService.row) : M (option (list chunk)) :=
  if DOC_MAXIMUM_SIZE o <? TaskService.size row then
    set_progress (TaskService.id row) 0 (-1) (Some (-1)%float) size_limit_msg;;
    mret (Some [])
  else
    let callback :=
      set_progress (TaskService.id row) (TaskService.from_page row)
                   (TaskService.to_page row) in
    chunker ← match FACTORY o (PyStr.lower (TaskService.parser_id row)) with
              | Some c => mret c
              | None => raise (Exception ("'" +:+ PyStr.lower (TaskService.parser_id row) +:+ "'"))
              end;
    fetched ← try_except
      (emit (EvGetStorageAddress (TaskService.doc_id row));;
       '(bucket, name) ← call (get_storage_address o (TaskService.doc_id row));
       emit (EvStorageGet bucket name);;
       binary ← call (storage_get o bucket name);
       mret (Some binary))
      (fun e =>
         match e with
         | TimeoutError _ =>
             callback (Some (-1)%float)
               "Internal server error: Fetch file from minio timeout. Could you try it again.";;
             mret None
         | Exception s =>
             (if PyStr.contains "No such file" s || PyStr.contains "not found" s
              then callback (Some (-1)%float)
                     ("Can not find file <" +:+ TaskService.name row
                      +:+ "> from minio. Could you try it again?")
              else callback (Some (-1)%float)
                     ("Get file from minio: " +:+ PyStr.remove_char "'" s));;
             mret None
         end);
    match fetched with
    | None => mret None
    | Some binary =>
        chunked ← try_except
          (emit (EvChunk (TaskService.name row));;
           let '(calls, r) := chunker row binary in
           run_callbacks callback calls;;
           cks ← call r;
           mret (Some cks))
          (fun e =>
             callback (Some (-1)%float)
               ("Internal server error while chunking: "
                +:+ PyStr.remove_char "'" (exn_str e));;
             mret None);
        match chunked with
        | None => mret None
        | Some cks =>
            docs ← map_M (stamp row) cks;
            let cfg := TaskService.parser_config row in
            docs ← (if negb (default 0 (DB.auto_keywords cfg) =? 0) then
                      callback None "Start to generate keywords for every chunk ...";;
                      emit (EvLLMBundle CHAT (TaskService.llm_id row));;
                      call_unit (LLMBundle o CHAT (TaskService.tenant_id row)
                                           (TaskService.llm_id row));;
                      map_M (add_keywords (default 0 (DB.auto_keywords cfg))) docs
                    else mret docs);
            docs ← (if negb (default 0 (DB.auto_questions cfg) =? 0) then
                      callback None "Start to generate questions for every chunk ...";;
                      emit (EvLLMBundle CHAT (TaskService.llm_id row));;
                      call_unit (LLMBundle o CHAT (TaskService.tenant_id row)
                                           (TaskService.llm_id row));;
                      map_M (add_questions (default 0 (DB.auto_questions cfg))) docs
                    else mret docs);
            mret (Some docs)
        end
    end.
(** Lines 416-425 and 433-442: one turn of an encoding loop, for the batch
    starting at [i]; [acc] is the array built so far and the token count. *)
Definition encode_step (callback : option float -> string -> M unit)
    (base span : float) (texts : list string)
    (acc : list (list float) * Z) (i : Z) : M (list (list float) * Z) :=
  let '(arr, tk_count) := acc in
  emit (EvEncode (slice texts i (i + batch_size)));;
  '(vts, c) ← call (encode o (slice texts i (i + batch_size)));
  arr' ← (if (len arr =? 0) then mret vts
          else if forallb (fun v => forallb (fun u => len u =? len v) arr) vts
               then mret (arr ++ vts)
               else raise (Exception "ValueError"));
  callback (Some (base + span * PyStr.float_of_Z (i + 1)
                         / PyStr.float_of_Z (len texts))%float) "";;
  mret (arr', tk_count + c).

(** Lines 414-426 and 431-443: encode [texts] batch by batch, reporting
    progress from [base] over a span of [span]. *)
Definition encode_batches (callback : option float -> string -> M unit)
    (base span : float) (texts : list string) : M (list (list float) * Z) :=
  starts ← match Py.range 0 (len texts) batch_size with
           | Some l => mret l
           | None => raise (Exception "ValueError")
           end;
  fold_M (encode_step callback base span texts) starts ([], 0).

(** [title_w * tts + (1 - title_w) * cnts] on two arrays of one shape. *)
Definition fuse_row (title_w : float) (t c : list float) : list float :=
  zip_with (fun a b => (title_w * a + (1 - title_w) * b)%float) t c.

Definition same_shape (a b : list (list float)) : bool :=
  (length a =? length b)%nat
  && forallb (fun p => (length (fst p) =? length (snd p))%nat) (zip a b).

(** One row of [title_w * tts + (1 - title_w) * cnts] when the two arrays
    differ in their second dimension: numpy stretches a row of length one to
    the length of the other, and refuses any other mismatch. *)
Definition broadcast_row (title_w : float) (t c : list float) : option (list float) :=
  match t, c with
  | [a], _ => Some (map (fun b => (title_w * a + (1 - title_w) * b)%float) c)
  | _, [b] => Some (map (fun a => (title_w * a + (1 - title_w) * b)%float) t)
  | _, _ => if (length t =? length c)%nat then Some (fuse_row title_w t c) else None
  end.

Definition broadcast_rows (title_w : float) (a b : list (list float))
  : option (list (list float)) :=
  mapM (fun p => broadcast_row title_w (fst p) (snd p)) (zip a b).

Definition vec_field (v : list float) : string := "q_" +:+ pretty (len v) +:+ "_vec".

(** [embedding(docs, mdl, parser_config, callback)]: the chunks with their
    vector field, and the token count. *)
Definition embedding (docs : list chunk) (parser_config : DB.parser_config)
    (callback : option float -> string -> M unit) : M (list chunk * Z) :=
  tts ← map_M (fun d => s ← get_str d "title_tks"; mret (rmSpace o s))
              (List.filter (fun d => from_option truthy false (d !! "title_tks")) docs);
  cnts ← map_M (fun d => s ← get_str d "content_with_weight";
                         mret (strip_table_tags o s)) docs;
  '(tts_, tk_count) ←
    (if (len tts =? len cnts)
     then '(arr, c) ← encode_batches callback 0.6%float 0.1%float tts;
          mret (Some arr, c)
     else mret (None, 0));
  '(cnts_, c) ← encode_batches callback 0.7%float 0.2%float cnts;
  let tk_count := tk_count + c in
  let title_w := default 0.1%float (DB.filename_embd_weight parser_config) in
  vects ← match tts_ with
          | Some tarr =>
              if (len tarr =? len cnts_) then
                if same_shape tarr cnts_
                then mret (zip_with (fuse_row title_w) tarr cnts_)
                else match broadcast_rows title_w tarr cnts_ with
                     | Some vects => mret vects
                     | None => raise (Exception "ValueError")
                     end
              else mret cnts_
          | None =>
              if (len tts =? len cnts_) then raise (Exception "TypeError")
              else mret cnts_
          end;
  if negb (len vects =? len docs) then raise (Exception "")
  else mret (zip_with (fun d v => <[vec_field v := VVec v]> d) docs vects, tk_count).

(** Lines 483-497: the chunk emitted for one synthesized pair. *)
Definition raptor_chunk (row : TaskService.row) (vctr_nm : string)
    (p : string * list float) : M chunk :=
  let '(content, vctr) := p in
  let d : chunk :=
    <["title_tks" := VStr (tokenize o (TaskService.name row))]>
      (<["docnm_kwd" := VStr (TaskService.name row)]>
         (<["kb_id" := VStrs [TaskService.kb_id row]]>
            (<["doc_id" := VStr (TaskService.doc_id row)]> ∅))) in
  let d := <["_id" := VStr (md5_hexdigest o (content +:+ TaskService.doc_id row))]> d in
  k1 ← next_now;
  let d := <["create_time" := VStr (now_str o k1)]> d in
  k2 ← next_now;
  let d := <["create_timestamp_flt" := VFloat (now_timestamp o k2)]> d in
  let d := <[vctr_nm := VVec vctr]> d in
  let d := <["content_with_weight" := VStr content]> d in
  let d := <["content_ltks" := VStr (tokenize o content)]> d in
  mret (<["content_sm_ltks" := VStr (fine_grained_tokenize o (tokenize o content))]> d).

(** [run_raptor(row, chat_mdl, embd_mdl, callback)] *)
Definition run_raptor (row : TaskService.row)
    (callback : option float -> string -> M unit) : M (list chunk * Z) :=
  emit (EvEncode ["ok"]);;
  '(vts, _) ← call (encode o ["ok"]);
  v0 ← match vts with
       | v :: _ => mret v
       | [] => raise (Exception "IndexError")
       end;
  let vctr_nm := vec_field v0 in
  emit (EvChunkList (TaskService.doc_id row));;
  ds ← call (chunk_list o (TaskService.doc_id row) (TaskService.tenant_id row) vctr_nm);
  chunks ← map_M (fun d => c ← get_str d "content_with_weight";
                           v ← get_vec d vctr_nm; mret (c, v)) ds;
  cfg ← match DB.raptor (TaskService.parser_config row) with
        | Some c => mret c
        | None => raise (Exception "'raptor'")
        end;
  let original_length := length chunks in
  emit EvRaptor;;
  let '(calls, r) := raptor_call o cfg chunks in
  run_callbacks callback calls;;
  chunks' ← call r;
  res ← map_M (raptor_chunk row vctr_nm) (drop original_length chunks');
  mret (res, foldl (fun n p => n + num_tokens_from_string o (fst p)) 0
                   (drop original_length chunks')).

(** [init_kb(row)]: when the index is missing, the mapping file is read
    before [createIdx] is called, outside any [try]. *)
Definition init_kb (row : TaskService.row) : M unit :=
  let idxnm := index_name o (TaskService.tenant_id row) in
  emit (EvIndexExist idxnm);;
  w ← get_world;
  match es w !! idxnm with
  | Some _ => mret tt
  | None =>
      call_unit (load_mapping o);;
      emit (EvCreateIdx idxnm);; put_es (<[idxnm := []]> (es w))
  end.

(** [ELASTICSEARCH.bulk(batch, idxnm)]: the chunks the service accepts are
    upserted, the errors of the others are returned. *)
Definition bulk (batch : list chunk) (idxnm : string) : M (list string) :=
  k ← next_bulk;
  let es_r := omap (bulk_error o k) batch in
  emit (EvBulk idxnm (map chunk_id batch) es_r);;
  w ← get_world;
  let written :=
    List.filter (fun c => match bulk_error o k c with None => true | Some _ => false end)
                batch in
  put_es (<[idxnm := foldl upsert (default [] (es w !! idxnm)) written]> (es w));;
  mret es_r.

(** [ELASTICSEARCH.deleteByQuery(Q("match", doc_id=doc_id), idxnm)] *)
Definition deleteByQuery (doc_id idxnm : string) : M unit :=
  emit (EvDeleteByQuery idxnm doc_id);;
  w ← get_world;
  put_es (<[idxnm := delete_doc doc_id (default [] (es w !! idxnm))]> (es w)).

Definition insert_error_msg : string :=
  "Insert chunk error, detail info please check ragflow-logs/api/cron_logger.log. Please also check ES status!".

(** Lines 564-601: index the chunks of one task. *)
Definition index_chunks (r : TaskService.row)
    (callback : option float -> string -> M unit)
    (cks : list chunk) (tk_count : Z) : M unit :=
  init_kb r;;
  ids ← map_M (fun c => get_str c "_id") cks;
  let chunk_count := length (remove_dups ids) in
  let idxnm := index_name o (TaskService.tenant_id r) in
  starts ← match Py.range 0 (len cks) es_bulk_size with
           | Some l => mret l
           | None => raise (Exception "ValueError")
           end;
  es_r ← fold_M (fun (_ : list string) (b : Z) =>
                   es_r ← bulk (slice cks b (b + es_bulk_size)) idxnm;
                   (if (b mod 128 =? 0)
                    then callback (Some (0.8 + 0.1 * PyStr.float_of_Z (b + 1)
                                         / PyStr.float_of_Z (len cks))%float) ""
                    else mret tt);;
                   mret es_r)
                starts [];
  match es_r with
  | _ :: _ =>
      callback (Some (-1)%float) insert_error_msg;;
      deleteByQuery (TaskService.doc_id r) idxnm
  | [] =>
      c ← do_cancel (TaskService.id r);
      if c : bool then deleteByQuery (TaskService.doc_id r) idxnm
      else
        callback (Some 1%float) "Done!";;
        emit (EvIncrementChunkNum (TaskService.doc_id r) (TaskService.kb_id r)
                                  tk_count chunk_count)
  end.

(** Lines 507-601: the body of the loop of [main] for one row. *)
Definition process (r : TaskService.row) (task_type : option string) : M unit :=
  let callback :=
    set_progress (TaskService.id r) (TaskService.from_page r) (TaskService.to_page r) in
  embd ← try_except
    (emit (EvLLMBundle EMBEDDING (TaskService.embd_id r));;
     call_unit (LLMBundle o EMBEDDING (TaskService.tenant_id r) (TaskService.embd_id r));;
     mret true)
    (fun e => callback (Some (-1)%float) (exn_str e);; mret false);
  if negb embd then mret tt
  else if from_option (String.eqb "raptor") false task_type then
    res ← try_except
      (emit (EvLLMBundle CHAT (TaskService.llm_id r));;
       call_unit (LLMBundle o CHAT (TaskService.tenant_id r) (TaskService.llm_id r));;
       x ← run_raptor r callback;
       mret (Some x))
      (fun e => callback (Some (-1)%float) (exn_str e);; mret None);
    match res with
    | None => mret tt
    | Some (cks, tk_count) => index_chunks r callback cks tk_count
    end
  else
    cks ← build r;
    match cks with
    | None => mret tt
    | Some [] => callback (Some 1%float) "No chunk! Done!"
    | Some cks =>
        callback None ("Finished slicing files(" +:+ pretty (len cks)
                       +:+ "). Start to embedding the content.");;
        '(cks, tk_count) ← try_except
          (embedding cks (TaskService.parser_config r) callback)
          (fun e =>
             callback (Some (-1)%float) ("Embedding error:" +:+ exn_str e);;
             mret (cks, 0));
        callback None ("Finished embedding(" +:+ elapsed o +:+ ")! Start to build index!");;
        index_chunks r callback cks tk_count
    end.

(** [main()] *)
Definition main : M unit :=
  rows ← collect;
  for_each rows (fun rt => process (fst rt) (snd rt)).

(** One turn of the loop under [if __name__ == "__main__"]:
    [main()], then the acknowledgement of the claimed message. *)
Definition cycle : M unit := main;; ack_payload.
End worker.

(** The world a cycle leaves behind, and how it ended. *)
Definition run {A} (m : M A) (w : world) : outcome A * world := m w.
End Executor.

(** ** Vocabulary of the properties *)
Module Spec.
Import World Executor.

(** How a step that leaves the process ends: the message held, if any, is
    acknowledged, then the process exits. *)
Definition exit_events (held : option Payload) : list event :=
  match held with
  | Some _ => [EvAck; EvExit]
  | None => [EvExit]
  end.

(** [emits Q m]: whatever the world, [m] only appends events to the trace,
    all of them satisfy [Q], and the message held stays held; except that a
    step leaving the process ends with the acknowledgement of the message
    held, if any, and the exit, after which no message is held. *)
Definition emits (Q : event -> Prop) {A} (m : M A) : Prop :=
  forall w, exists evs,
    trace (m w).2 = trace w ++ evs /\
    match (m w).1 with
    | Exit => exists pre, evs = pre ++ exit_events (PAYLOAD w) /\ Forall Q pre /\
                          PAYLOAD (m w).2 = None
    | _ => Forall Q evs /\ PAYLOAD (m w).2 = PAYLOAD w
    end.

(** The message held once the claim step of [collect] is over: the one
    claimed earlier and never acknowledged, else the one newly drawn; when
    the first call of the queue raises, the global keeps what it held. *)
Definition held_after_claim (o : oracle) (w : world) : option Payload :=
  match get_unacked_for o with
  | Ok (Some p) => Some p
  | Ok None => match queue_consumer o with Ok p => p | Err _ => None end
  | Err _ => PAYLOAD w
  end.

(** Events of the queue protocol and of the process. *)
Definition pipeline_event (e : event) : Prop :=
  match e with
  | EvGetUnacked | EvQueueConsumer | EvSleep | EvAck | EvExit => False
  | _ => True
  end.

(** Storage reads, chunker calls and every later stage. *)
Definition stage_event (e : event) : Prop :=
  match e with
  | EvGetStorageAddress _ | EvStorageGet _ _ | EvChunk _ | EvStoragePut _ _
  | EvKeywordExtraction | EvQuestionProposal | EvEncode _ | EvChunkList _
  | EvRaptor | EvIndexExist _ | EvCreateIdx _ | EvBulk _ _ _
  | EvDeleteByQuery _ _ | EvIncrementChunkNum _ _ _ _ => True
  | _ => False
  end.

Definition quiet_event (e : event) : Prop :=
  pipeline_event e /\ ~ stage_event e.

(** The world after the embedding model of a row has been bound. *)
Definition bound (r : TaskService.row) (w : world) : world :=
  set_trace w (trace w ++ [EvLLMBundle EMBEDDING (TaskService.embd_id r)]).

(** What [do_cancel] answers at the worker's next read of the store. *)
Definition cancel_seen (o : oracle) (w : world) (id : string) : bool :=
  TaskService.do_cancel (db_at o w (reads w)) id.

(** The events of one [set_progress] call. *)
Definition progress_events (id : string) (i : TaskService.info) (cancel : bool)
    (held : option Payload) : list event :=
  [EvDoCancel id cancel; EvUpdateProgress id i]
  ++ (if cancel
      then match held with Some _ => [EvAck; EvExit] | None => [EvExit] end
      else []).

(** The world one [set_progress] call leaves. *)
Definition after_progress (id : string) (i : TaskService.info) (cancel : bool)
    (w : world) : world :=
  {| tasks := TaskService.update_tasks (tasks w) id i;
     reads := S (reads w);
     PAYLOAD := if cancel then None else PAYLOAD w;
     es := es w; bulks := bulks w; nows := nows w;
     trace := trace w ++ progress_events id i cancel (PAYLOAD w) |}.

(** What the bulk calls of a trace answered, in order. *)
Definition bulk_answers (t : list event) : list (list string) :=
  omap (fun e => match e with EvBulk _ _ es_r => Some es_r | _ => None end) t.

(** The documents a trace deletes from the index by document-id query. *)
Definition deleted_docs (t : list event) : list string :=
  omap (fun e => match e with EvDeleteByQuery _ d => Some d | _ => None end) t.

(** The chunk-count increments a trace records: document, knowledge base,
    token count and chunk count. *)
Definition chunk_increments (t : list event) : list (string * string * Z * nat) :=
  omap (fun e => match e with
                 | EvIncrementChunkNum d k c n => Some (d, k, c, n)
                 | _ => None
                 end) t.

(** A chunk has a title: [d.get("title_tks")] is truthy. *)
Definition has_title (d : chunk) : bool :=
  from_option truthy false (d !! "title_tks").

(** The string held under a key. *)
Definition str_at (d : chunk) (k : string) : string :=
  match d !! k with Some (VStr s) => s | _ => "" end.

(** The vector the embedding stage is to store for a chunk, when the model
    maps a text to [enc text]: the weighted sum of title and content vector
    when every chunk of the batch has a title, the content vector otherwise. *)
Definition stored_vector (o : oracle) (enc : string -> list float) (title_w : float)
    (all_titled : bool) (d : chunk) : list float :=
  let content := enc (strip_table_tags o (str_at d "content_with_weight")) in
  if all_titled
  then fuse_row title_w (enc (rmSpace o (str_at d "title_tks"))) content
  else content.

(** The document id a stamped fragment carries: its own [doc_id] entry when
    the chunker sets one, the task's document otherwise. *)
Definition doc_id_of (row : TaskService.row) (ck : chunk) : value :=
  default (VStr (TaskService.doc_id row)) (ck !! "doc_id").

(** The content hash of a fragment: [md5(content + str(doc_id))]. *)
Definition hashed_id (o : oracle) (row : TaskService.row) (ck : chunk) : string :=
  md5_hexdigest o (str_at ck "content_with_weight" +:+ py_str o (doc_id_of row ck)).

(** The fragments the registered chunker returns for the stored bytes of the
    task's document, when every call on the way answers. *)
Definition fragments (o : oracle) (row : TaskService.row) : option (list chunk) :=
  match FACTORY o (PyStr.lower (TaskService.parser_id row)),
        get_storage_address o (TaskService.doc_id row) with
  | Some chunker, Ok (bucket, name) =>
      match storage_get o bucket name with
      | Ok binary =>
          match (chunker row binary).2 with
          | Ok cks => Some cks
          | Err _ => None
          end
      | Err _ => None
      end
  | _, _ => None
  end.

(** What a stamped chunk keeps through the optional post-processing. *)
Definition same_ids (d d' : chunk) : Prop :=
  d' !! "_id" = d !! "_id" /\ d' !! "doc_id" = d !! "doc_id".

(** The ids of an index, in order. *)
Definition index_ids (idx : list (string * chunk)) : list string := map fst idx.
End Spec.

(** ** A concrete worker, for the examples *)
Module Examples.
Import World Executor.
Local Open Scope Z_scope.

(** A stand-in for the hash: injective on the strings it is given. *)
Definition toy_md5 (s : string) : string := "md5(" +:+ s +:+ ")".

(** A one-dimensional stand-in for an embedding model: every text is mapped
    to the pair (length, 1). *)
Definition toy_vector (s : string) : list float :=
  [PyStr.float_of_Z (Z.of_nat (String.length s)); 1%float].

Definition toy_encode (texts : list string) : result (list (list float) * Z) :=
  Ok (map toy_vector texts, len texts).

Definition fragment (content : string) : chunk :=
  <["content_with_weight" := VStr content]> ∅.

Definition titled_fragment (title content : string) : chunk :=
  <["title_tks" := VStr title]> (fragment content).

(** A chunker answering with the given fragments and no progress report. *)
Definition chunker_of (cks : list chunk)
  : TaskService.row -> string -> list callback_call * result (list chunk) :=
  fun _ _ => ([], Ok cks).

Definition running_doc (size : Z) : DB.Document :=
  {| DB.kb_id := "kb1"; DB.parser_id := "naive";
     DB.doc_parser_config := TaskServiceExamples.cfg0;
     DB.name := "a.pdf"; DB.type := "pdf"; DB.location := "a.pdf";
     DB.size := size; DB.run := DB.RUNNING; DB.doc_progress := 0%float |}.

Definition cancelled_doc (size : Z) : DB.Document :=
  {| DB.kb_id := "kb1"; DB.parser_id := "naive";
     DB.doc_parser_config := TaskServiceExamples.cfg0;
     DB.name := "a.pdf"; DB.type := "pdf"; DB.location := "a.pdf";
     DB.size := size; DB.run := DB.CANCEL; DB.doc_progress := 0%float |}.

(** The worker's collaborators, with the document table, the size ceiling,
    the chunker's fragments and the bulk errors left open. *)
Definition oracle_of (docs : nat -> gmap string DB.Document) (max_size : Z)
    (cks : list chunk) (bulk_err : nat -> chunk -> option string) : oracle :=
  {| get_unacked_for := Ok None;
     queue_consumer := Ok (Some {| get_message := Some {| msg_id := "t1"; msg_type := None |} |});
     documents_at := docs;
     knowledgebases := {[ "kb1" := TaskServiceExamples.kb1 ]};
     tenants := {[ "tenant1" := TaskServiceExamples.tenant1 ]};
     random := fun _ => 0.5%float;
     DOC_MAXIMUM_SIZE := max_size;
     LLMBundle := fun _ _ _ => None;
     encode := toy_encode;
     keyword_extraction := fun _ _ => Ok "k1,k2";
     question_proposal := fun _ _ => Ok "q?";
     get_storage_address := fun _ => Ok ("kb1", "a.pdf");
     storage_get := fun _ _ => Ok "bytes";
     storage_put := fun _ _ _ => None;
     FACTORY := fun p => if String.eqb p "naive" then Some (chunker_of cks) else None;
     tokenize := fun s => s;
     fine_grained_tokenize := fun s => s;
     rmSpace := fun s => s;
     strip_table_tags := fun s => s;
     num_tokens_from_string := fun s => Z.of_nat (String.length s);
     md5_hexdigest := toy_md5;
     str_other := fun _ => "?";
     now_str := fun k => "2024-01-01 00:00:0" +:+ pretty (Z.of_nat k);
     now_timestamp := fun k => PyStr.float_of_Z (Z.of_nat k);
     elapsed := "0.01";
     index_name := fun t => "ragflow_" +:+ t;
     load_mapping := None;
     bulk_error := bulk_err;
     chunk_list := fun _ _ _ => Ok [];
     raptor_call := fun _ chunks => ([], Ok chunks) |}.

Definition no_bulk_error : nat -> chunk -> option string := fun _ _ => None.

(** A world holding the fresh task [t1] of document [doc1]. *)
Definition world0 : world :=
  {| tasks := {[ "t1" := TaskServiceExamples.task_at 0 ]};
     reads := 0; PAYLOAD := None; es := ∅; bulks := 0; nows := 0; trace := [] |}.

(** The row of [t1] for a document of the given size. *)
Definition row_of (size : Z) : TaskService.row :=
  {| TaskService.id := "t1"; TaskService.doc_id := "doc1";
     TaskService.from_page := 0; TaskService.to_page := 12;
     TaskService.retry_count := 0;
     TaskService.kb_id := "kb1"; TaskService.parser_id := "naive";
     TaskService.parser_config := TaskServiceExamples.cfg0;
     TaskService.name := "a.pdf"; TaskService.type := "pdf";
     TaskService.location := "a.pdf"; TaskService.size := size;
     TaskService.tenant_id := "tenant1"; TaskService.language := "English";
     TaskService.embd_id := "bge"; TaskService.img2txt_id := "i2t";
     TaskService.asr_id := "asr"; TaskService.llm_id := "chat";
     TaskService.update_time := 0 |}.

(** A document of 200 MB under a ceiling of 128 MB: never cancelled, and
    cancelled from the worker's fourth read of the store on. *)
Definition MB : Z := 1024 * 1024.

Definition oversize_oracle : oracle :=
  oracle_of (fun _ => {[ "doc1" := running_doc (200 * MB) ]}) (128 * MB) [] no_bulk_error.

Definition oversize_cancelled_late : oracle :=
  oracle_of (fun k => if (k <? 3)%nat then {[ "doc1" := running_doc (200 * MB) ]}
                      else {[ "doc1" := cancelled_doc (200 * MB) ]})
            (128 * MB) [] no_bulk_error.

(** Five chunks, written in two bulk calls (4 + 1); the first call reports an
    error for its first chunk, the second call reports none. *)
Definition five_fragments : list chunk :=
  [fragment "c0"; fragment "c1"; fragment "c2"; fragment "c3"; fragment "c4"].

Definition first_batch_fails : nat -> chunk -> option string :=
  fun k c =>
    if (k =? 0)%nat && String.eqb (chunk_id c) (toy_md5 "c0doc1")
    then Some "md5(c0doc1):version_conflict" else None.

Definition last_batch_fails : nat -> chunk -> option string :=
  fun k c =>
    if (k =? 1)%nat then Some (chunk_id c +:+ ":version_conflict") else None.

Definition small_doc_oracle (bulk_err : nat -> chunk -> option string) : oracle :=
  oracle_of (fun _ => {[ "doc1" := running_doc 1000 ]}) (128 * 1024 * 1024)
            five_fragments bulk_err.

(** A model sending titles to the first axis and bodies to the second. *)
Definition axis_vector (s : string) : list float :=
  if PyStr.startswith "title" s then [1%float; 0%float] else [0%float; 1%float].

Definition axis_encode (texts : list string) : result (list (list float) * Z) :=
  Ok (map axis_vector texts, len texts).

Definition with_encode (o : oracle) (e : list string -> result (list (list float) * Z))
  : oracle :=
  {| get_unacked_for := get_unacked_for o; queue_consumer := queue_consumer o;
     documents_at := documents_at o; knowledgebases := knowledgebases o;
     tenants := tenants o; random := random o;
     DOC_MAXIMUM_SIZE := DOC_MAXIMUM_SIZE o; LLMBundle := LLMBundle o;
     encode := e;
     keyword_extraction := keyword_extraction o;
     question_proposal := question_proposal o;
     get_storage_address := get_storage_address o; storage_get := storage_get o;
     storage_put := storage_put o; FACTORY := FACTORY o; tokenize := tokenize o;
     fine_grained_tokenize := fine_grained_tokenize o; rmSpace := rmSpace o;
     strip_table_tags := strip_table_tags o;
     num_tokens_from_string := num_tokens_from_string o;
     md5_hexdigest := md5_hexdigest o; str_other := str_other o;
     now_str := now_str o; now_timestamp := now_timestamp o; elapsed := elapsed o;
     index_name := index_name o; load_mapping := load_mapping o;
     bulk_error := bulk_error o;
     chunk_list := chunk_list o; raptor_call := raptor_call o |}.

Definition axis_oracle : oracle :=
  with_encode (small_doc_oracle no_bulk_error) axis_encode.

Definition titled_docs : list chunk :=
  [titled_fragment "title a" "body a"; titled_fragment "title b" "body b"].

Definition half_titled_docs : list chunk :=
  [titled_fragment "title a" "body a"; fragment "body b"].

(** A callback that only returns. *)
Definition silent : option float -> string -> M unit := fun _ _ => mret tt.

(** A document with two indexed chunks, for which RAPTOR synthesizes one
    summary. *)
Definition indexed (content : string) (v : list float) : chunk :=
  <["q_2_vec" := VVec v]> (fragment content).

Definition leaf_chunks : list chunk :=
  [indexed "leaf a" [1%float; 0%float]; indexed "leaf b" [0%float; 1%float]].

Definition leaf_pairs : list (string * list float) :=
  [("leaf a", [1%float; 0%float]); ("leaf b", [0%float; 1%float])].

Definition summary_pair : string * list float := ("summary", [0.5%float; 0.5%float]).

Definition with_raptor (o : oracle) : oracle :=
  {| get_unacked_for := get_unacked_for o; queue_consumer := queue_consumer o;
     documents_at := documents_at o; knowledgebases := knowledgebases o;
     tenants := tenants o; random := random o;
     DOC_MAXIMUM_SIZE := DOC_MAXIMUM_SIZE o; LLMBundle := LLMBundle o;
     encode := encode o;
     keyword_extraction := keyword_extraction o;
     question_proposal := question_proposal o;
     get_storage_address := get_storage_address o; storage_get := storage_get o;
     storage_put := storage_put o; FACTORY := FACTORY o; tokenize := tokenize o;
     fine_grained_tokenize := fine_grained_tokenize o; rmSpace := rmSpace o;
     strip_table_tags := strip_table_tags o;
     num_tokens_from_string := num_tokens_from_string o;
     md5_hexdigest := md5_hexdigest o; str_other := str_other o;
     now_str := now_str o; now_timestamp := now_timestamp o; elapsed := elapsed o;
     index_name := index_name o; load_mapping := load_mapping o;
     bulk_error := bulk_error o;
     chunk_list := fun _ _ _ => Ok leaf_chunks;
     raptor_call := fun _ chunks => ([], Ok (chunks ++ [summary_pair])) |}.

Definition raptor_oracle : oracle := with_raptor (small_doc_oracle no_bulk_error).

Definition raptor_cfg : DB.raptor_config :=
  {| DB.max_cluster := None; DB.prompt := "Summarize: {cluster_content}";
     DB.max_token := 256; DB.threshold := 0.1%float; DB.random_seed := 0 |}.

Definition raptor_row : TaskService.row :=
  {| TaskService.id := "t1"; TaskService.doc_id := "doc1";
     TaskService.from_page := 0; TaskService.to_page := 12;
     TaskService.retry_count := 0;
     TaskService.kb_id := "kb1"; TaskService.parser_id := "naive";
     TaskService.parser_config :=
       {| DB.auto_keywords := None; DB.auto_questions := None;
          DB.filename_embd_weight := None; DB.raptor := Some raptor_cfg |};
     TaskService.name := "a.pdf"; TaskService.type := "pdf";
     TaskService.location := "a.pdf"; TaskService.size := 1000;
     TaskService.tenant_id := "tenant1"; TaskService.language := "English";
     TaskService.embd_id := "bge"; TaskService.img2txt_id := "i2t";
     TaskService.asr_id := "asr"; TaskService.llm_id := "chat";
     TaskService.update_time := 0 |}.

(** The chunks [build] returns from a world, the empty list if it does not
    return any. *)
Definition built (o : oracle) (row : TaskService.row) (w : world) : list chunk :=
  match (build o row w).1 with
  | Ret (Some docs) => docs
  | _ => []
  end.
End Examples.

(** Further documents for the examples. *)
Module MoreExamples.
Import Partition.
Local Open Scope Z_scope.

(** A spreadsheet under the table parser. *)
Definition sheet : doc :=
  {| doc_id := "d4"; doc_type := DOC; doc_name := "rows.xlsx"; parser_id := "table";
     doc_parser_config := PartitionExamples.no_config |}.

(** A text file under the generic parser. *)
Definition text_file : doc :=
  {| doc_id := "d5"; doc_type := DOC; doc_name := "notes.txt"; parser_id := "naive";
     doc_parser_config := PartitionExamples.no_config |}.

(** A PDF under the [one] parser, with a page size that is not used. *)
Definition whole_pdf : doc :=
  {| doc_id := "d6"; doc_type := PDF; doc_name := "w.pdf"; parser_id := "one";
     doc_parser_config :=
       {| layout_recognize := None; task_page_size := Some 5; pages := None |} |}.

(** PDFs with a page size of zero and of minus one. *)
Definition zero_step_pdf : doc :=
  {| doc_id := "d7"; doc_type := PDF; doc_name := "z.pdf"; parser_id := "naive";
     doc_parser_config :=
       {| layout_recognize := None; task_page_size := Some 0; pages := None |} |}.


(** A PDF with two explicit page ranges, the second reaching past the end. *)
Definition two_ranges_pdf : doc :=
  {| doc_id := "d9"; doc_type := PDF; doc_name := "r.pdf"; parser_id := "naive";
     doc_parser_config :=
       {| layout_recognize := None; task_page_size := Some 4;
          pages := Some [(1, 6); (8, 100)] |} |}.
End MoreExamples.

(** ** Invariants of the task table *)
Module Invariant.
Import World Executor.
Local Open Scope Z_scope.

(** A task row after some steps: same document and page range, a retry-count
    that has not decreased, and a message log that has only been appended
    to. *)
Definition task_extends (t t' : DB.Task) : Prop :=
  DB.doc_id t' = DB.doc_id t /\
  DB.from_page t' = DB.from_page t /\
  DB.to_page t' = DB.to_page t /\
  DB.retry_count t <= DB.retry_count t' /\
  exists suffix, DB.progress_msg t' = DB.progress_msg t +:+ suffix.

(** A task table after some steps: no task was deleted, none was created, and
    every task extends what it was. *)
Definition tasks_extend (ts ts' : gmap string DB.Task) : Prop :=
  forall id,
    match ts !! id with
    | Some t => exists t', ts' !! id = Some t' /\ task_extends t t'
    | None => ts' !! id = None
    end.

(** [keeps R m]: whatever the world, the world [m] leaves is related by [R]
    to the one it found. *)
Definition keeps (R : world -> world -> Prop) {A} (m : M A) : Prop :=
  forall w, R w (m w).2.

(** The worker's task table only extends. *)
Definition table_extends (w w' : world) : Prop := tasks_extend (tasks w) (tasks w').

(** Only the search index [n] may differ between the two worlds. *)
Definition index_confined (n : string) (w w' : world) : Prop :=
  forall n', n' <> n -> es w' !! n' = es w !! n'.
End Invariant.

(** Further collaborators for the examples of the worker. *)
Module WorkerExamples.
Import World Executor Examples.
Local Open Scope Z_scope.

(** The collaborators of [o] with another queue, another model binder and
    another blob store. *)
Definition with_services (o : oracle)
    (unacked drawn : result (option Payload))
    (llm : LLMType -> string -> string -> option exn)
    (sget : string -> string -> result string)
    (sput : string -> string -> string -> option exn) : oracle :=
  {| get_unacked_for := unacked; queue_consumer := drawn;
     documents_at := documents_at o; knowledgebases := knowledgebases o;
     tenants := tenants o; random := random o;
     DOC_MAXIMUM_SIZE := DOC_MAXIMUM_SIZE o; LLMBundle := llm;
     encode := encode o;
     keyword_extraction := keyword_extraction o;
     question_proposal := question_proposal o;
     get_storage_address := get_storage_address o; storage_get := sget;
     storage_put := sput; FACTORY := FACTORY o; tokenize := tokenize o;
     fine_grained_tokenize := fine_grained_tokenize o; rmSpace := rmSpace o;
     strip_table_tags := strip_table_tags o;
     num_tokens_from_string := num_tokens_from_string o;
     md5_hexdigest := md5_hexdigest o; str_other := str_other o;
     now_str := now_str o; now_timestamp := now_timestamp o; elapsed := elapsed o;
     index_name := index_name o; load_mapping := load_mapping o;
     bulk_error := bulk_error o;
     chunk_list := chunk_list o; raptor_call := raptor_call o |}.

Definition plain_oracle : oracle := small_doc_oracle no_bulk_error.

(** A queue that cannot be reached. *)
Definition queue_down : oracle :=
  with_services plain_oracle (Err (Exception "Connection refused"))
    (queue_consumer plain_oracle) (LLMBundle plain_oracle)
    (storage_get plain_oracle) (storage_put plain_oracle).

(** The document of the task has been cancelled. *)
Definition cancelled_oracle : oracle :=
  oracle_of (fun _ => {[ "doc1" := cancelled_doc 1000 ]}) (128 * MB)
            five_fragments no_bulk_error.

(** No embedding model can be bound. *)
Definition no_model : oracle :=
  with_services plain_oracle (get_unacked_for plain_oracle)
    (queue_consumer plain_oracle)
    (fun ty _ _ => match ty with
                   | EMBEDDING => Some (Exception "Model(bge) not authorized")
                   | CHAT => None
                   end)
    (storage_get plain_oracle) (storage_put plain_oracle).

(** A blob store that times out on reads. *)
Definition slow_store : oracle :=
  with_services plain_oracle (get_unacked_for plain_oracle)
    (queue_consumer plain_oracle) (LLMBundle plain_oracle)
    (fun _ _ => Err (TimeoutError "timed out")) (storage_put plain_oracle).

(** A blob store that refuses writes. *)
Definition read_only_store : oracle :=
  with_services plain_oracle (get_unacked_for plain_oracle)
    (queue_consumer plain_oracle) (LLMBundle plain_oracle)
    (storage_get plain_oracle) (fun _ _ _ => Some (Exception "AccessDenied")).

(** The row of [t1] under a parser id that is not registered. *)
Definition unknown_parser_row : TaskService.row :=
  {| TaskService.id := "t1"; TaskService.doc_id := "doc1";
     TaskService.from_page := 0; TaskService.to_page := 12;
     TaskService.retry_count := 0;
     TaskService.kb_id := "kb1"; TaskService.parser_id := "Hologram";
     TaskService.parser_config := TaskServiceExamples.cfg0;
     TaskService.name := "a.pdf"; TaskService.type := "pdf";
     TaskService.location := "a.pdf"; TaskService.size := 1000;
     TaskService.tenant_id := "tenant1"; TaskService.language := "English";
     TaskService.embd_id := "bge"; TaskService.img2txt_id := "i2t";
     TaskService.asr_id := "asr"; TaskService.llm_id := "chat";
     TaskService.update_time := 0 |}.

(** The document of [t1] is registered under that parser id. *)
Definition hologram_doc : DB.Document :=
  {| DB.kb_id := "kb1"; DB.parser_id := "Hologram";
     DB.doc_parser_config := TaskServiceExamples.cfg0;
     DB.name := "a.pdf"; DB.type := "pdf"; DB.location := "a.pdf";
     DB.size := 1000; DB.run := DB.RUNNING; DB.doc_progress := 0%float |}.

Definition hologram_oracle : oracle :=
  oracle_of (fun _ => {[ "doc1" := hologram_doc ]}) (128 * MB)
            five_fragments no_bulk_error.

(** A world holding [t1] after three claims. *)
Definition world_after_three_claims : world :=
  {| tasks := {[ "t1" := TaskServiceExamples.task_at 3 ]};
     reads := 0; PAYLOAD := None; es := ∅; bulks := 0; nows := 0; trace := [] |}.

(** A world in which another tenant's index holds a chunk. *)
Definition world_two_tenants : world :=
  {| tasks := {[ "t1" := TaskServiceExamples.task_at 0 ]};
     reads := 0; PAYLOAD := None;
     es := {[ "ragflow_tenant2" := [("x", fragment "theirs")] ]};
     bulks := 0; nows := 0; trace := [] |}.

(** A fragment carrying a picture. *)
Definition pictured_fragment : chunk :=
  <["image" := VPicture "jpeg-bytes"]> (fragment "figure 1").

(** The five chunks [build] returns for the document of [t1]. *)
Definition stamped_five : list chunk := built plain_oracle (row_of 1000) world0.

(** The row of [t1] with one question asked for per chunk. *)
Definition questions_row : TaskService.row :=
  {| TaskService.id := "t1"; TaskService.doc_id := "doc1";
     TaskService.from_page := 0; TaskService.to_page := 12;
     TaskService.retry_count := 0;
     TaskService.kb_id := "kb1"; TaskService.parser_id := "naive";
     TaskService.parser_config :=
       {| DB.auto_keywords := None; DB.auto_questions := Some 1;
          DB.filename_embd_weight := None; DB.raptor := None |};
     TaskService.name := "a.pdf"; TaskService.type := "pdf";
     TaskService.location := "a.pdf"; TaskService.size := 1000;
     TaskService.tenant_id := "tenant1"; TaskService.language := "English";
     TaskService.embd_id := "bge"; TaskService.img2txt_id := "i2t";
     TaskService.asr_id := "asr"; TaskService.llm_id := "chat";
     TaskService.update_time := 0 |}.
End WorkerExamples.

(** ** [rag/llm/embedding_model.py]: adapters of the embedding services *)
Module EmbeddingModel.
Import World Executor.
Local Open Scope Z_scope.

(** [np.array(rows)]: the rows of a service have one length; rows of
    different lengths are refused ([ValueError], numpy 1.24 and later). *)
Definition np_array (rows : list (list float)) : result (list (list float)) :=
  match rows with
  | [] => Ok []
  | r :: rs =>
      if forallb (fun r' => (length r' =? length r)%nat) rs then Ok rows
      else Err (Exception "ValueError")
  end.

(** The answer of [dashscope.TextEmbedding.call]: the embeddings, each with
    its [text_index], and the token usage. *)
Record qwen_response := {
  embeddings : list (Z * list float);
  total_tokens : Z;
}.

(** [embds[i] = v]: a negative index counts from the end, an index out of
    range is an [IndexError] ([None]). *)
Definition list_set (embds : list (list float)) (i : Z) (v : list float)
  : option (list (list float)) :=
  if (0 <=? i) && (i <? len embds) then Some (<[Z.to_nat i := v]> embds)
  else if (- len embds <=? i) && (i <? 0)
       then Some (<[Z.to_nat (len embds + i) := v]> embds)
       else None.

(** [for e in resp["output"]["embeddings"]: embds[e["text_index"]] = e["embedding"]] *)
Fixpoint place (es : list (Z * list float)) (embds : list (list float))
  : option (list (list float)) :=
  match es with
  | [] => Some embds
  | (i, v) :: es' =>
      match list_set embds i v with
      | Some embds' => place es' embds'
      | None => None
      end
  end.

Section adapters.
(** [rag.utils.truncate] and [rag.utils.num_tokens_from_string]. *)
Variable truncate : string -> Z -> string.
Variable num_tokens_from_string : string -> Z.

(** Lines 121-132 of [DefaultEmbedding.encode]: the loop over the batches. *)
Fixpoint default_loop (model_encode : list string -> result (list (list float)))
    (texts : list string) (batch_size : Z) (starts : list Z)
    (res : list (list float)) : result (list (list float)) :=
  match starts with
  | [] => Ok res
  | i :: starts' =>
      match model_encode (slice texts i (i + batch_size)) with
      | Ok rows => default_loop model_encode texts batch_size starts' (res ++ rows)
      | Err e => Err e
      end
  end.

(** [DefaultEmbedding.encode(texts, batch_size)] *)
Definition DefaultEmbedding_encode
    (model_encode : list string -> result (list (list float)))
    (texts : list string) (batch_size : Z) : result (list (list float) * Z) :=
  let texts := map (fun t => truncate t 2048) texts in
  let token_count := foldl (fun n t => n + num_tokens_from_string t) 0 texts in
  match Py.range 0 (len texts) batch_size with
  | None => Err (Exception "ValueError")
  | Some starts =>
      match default_loop model_encode texts batch_size starts [] with
      | Ok res =>
          match np_array res with
          | Ok a => Ok (a, token_count)
          | Err e => Err e
          end
      | Err e => Err e
      end
  end.

(** Lines 230-241 of [QWenEmbed.encode]: the loop over the batches. *)
Fixpoint qwen_loop (call : list string -> result qwen_response)
    (texts : list string) (batch_size : Z) (starts : list Z)
    (res : list (list float)) (token_count : Z) : result (list (list float) * Z) :=
  match starts with
  | [] => Ok (res, token_count)
  | i :: starts' =>
      match call (slice texts i (i + batch_size)) with
      | Err e => Err e
      | Ok resp =>
          match place (embeddings resp)
                      (replicate (length (embeddings resp)) []) with
          | None => Err (Exception "IndexError")
          | Some embds =>
              qwen_loop call texts batch_size starts' (res ++ embds)
                        (token_count + total_tokens resp)
          end
      end
  end.

(** [QWenEmbed.encode(texts, batch_size)]: every exception of the body is
    replaced by one about the account. *)
Definition QWenEmbed_encode (model_name : string)
    (call : list string -> result qwen_response)
    (texts : list string) (batch_size : Z) : result (list (list float) * Z) :=
  let batch_size := Z.min batch_size 4 in
  let body :=
    let texts := map (fun t => truncate t 2048) texts in
    match Py.range 0 (len texts) batch_size with
    | None => Err (Exception "ValueError")
    | Some starts =>
        match qwen_loop call texts batch_size starts [] 0 with
        | Ok (res, token_count) =>
            match np_array res with
            | Ok a => Ok (a, token_count)
            | Err e => Err e
            end
        | Err e => Err e
        end
    end in
  match body with
  | Ok r => Ok r
  | Err _ =>
      Err (Exception ("Account abnormal. Please ensure it's on good standing to use QWen's "
                      +:+ model_name))
  end.

(** Lines 292-297 of [OllamaEmbed.encode]: the loop over the texts. *)
Fixpoint ollama_loop (embeddings_of : string -> result (list float))
    (texts : list string) (arr : list (list float)) (tks_num : Z)
  : result (list (list float) * Z) :=
  match texts with
  | [] => Ok (arr, tks_num)
  | txt :: texts' =>
      match embeddings_of txt with
      | Ok v => ollama_loop embeddings_of texts' (arr ++ [v]) (tks_num + 128)
      | Err e => Err e
      end
  end.

(** [OllamaEmbed.encode(texts)] *)
Definition OllamaEmbed_encode (embeddings_of : string -> result (list float))
    (texts : list string) : result (list (list float) * Z) :=
  match ollama_loop embeddings_of texts [] 0 with
  | Ok (arr, tks_num) =>
      match np_array arr with
      | Ok a => Ok (a, tks_num)
      | Err e => Err e
      end
  | Err e => Err e
  end.
End adapters.
End EmbeddingModel.

(** Stand-ins for the services, for the examples. *)
Module EmbeddingModelExamples.
Import World Executor EmbeddingModel Examples.
Local Open Scope Z_scope.

(** Keep the first [n] characters. *)
Definition toy_truncate (t : string) (n : Z) : string := String.substring 0 (Z.to_nat n) t.

Definition toy_tokens (t : string) : Z := Z.of_nat (String.length t).

(** A local model and a text-by-text service answering with [toy_vector]. *)
Definition toy_model (batch : list string) : result (list (list float)) :=
  Ok (map toy_vector batch).

Definition toy_embeddings (txt : string) : result (list float) := Ok (toy_vector txt).

(** The embeddings a batch should get, each with its index. *)
Definition indexed_vectors (batch : list string) : list (nat * list float) :=
  imap (fun k t => (k, toy_vector t)) batch.

(** A service answering every batch with its embeddings in reverse order. *)
Definition reversing_service (batch : list string) : result qwen_response :=
  Ok {| embeddings := prod_map Z.of_nat id <$> reverse (indexed_vectors batch);
        total_tokens := len batch |}.

(** The same service, refusing more than four texts per call. *)
Definition capped_service (batch : list string) : result qwen_response :=
  if (length batch <=? 4)%nat then reversing_service batch
  else Err (Exception "batch size is invalid, it should not be larger than 4").

Definition six_texts : list string := ["a"; "bb"; "ccc"; "dddd"; "eeeee"; "ffffff"].
End EmbeddingModelExamples.

(** * Properties *)

(** ** The partitioner *)
Module PartitionFacts.
Import Py Partition.
Local Open Scope Z_scope.

Lemma range_up_nil fuel p stop step :
  stop <= p -> range_up fuel p stop step = [].
Proof.
  intros Hge. destruct fuel as [|f]; [reflexivity|]. simpl.
  destruct (Z.ltb_spec p stop); [lia | reflexivity].
Qed.

Lemma ceil_div_nonpos a s : 0 < s -> a <= 0 -> Z.to_nat (ceil_div a s) = 0%nat.
Proof.
  intros Hs Ha. unfold ceil_div.
  assert ((a + s - 1) / s <= 0); [|lia].
  assert ((a + s - 1) / s < 1); [|lia].
  apply Z.div_lt_upper_bound; lia.
Qed.

Lemma ceil_div_step a s :
  0 < s -> 0 < a -> Z.to_nat (ceil_div a s) = S (Z.to_nat (ceil_div (a - s) s)).
Proof.
  intros Hs Ha. unfold ceil_div.
  replace (a + s - 1) with (a - s + s - 1 + 1 * s) by lia.
  rewrite Z.div_add by lia.
  assert (0 <= (a - s + s - 1) / s) by (apply Z.div_pos; lia).
  lia.
Qed.

(** The windows cut from an ascending [range] tile [[p, stop)], and there are
    [ceil((stop - p) / step)] of them: the fuel never runs out first. *)
Lemma range_up_windows fuel : forall p stop step,
  0 < step -> stop - p <= Z.of_nat fuel ->
  let ws := map (fun q => (q, Z.min (q + step) stop)) (range_up fuel p stop step) in
  tiles p (Z.max p stop) ws /\
  length ws = Z.to_nat (ceil_div (stop - p) step).
Proof.
  induction fuel as [|f IH]; intros p stop step Hstep Hfuel; simpl.
  - replace (Z.max p stop) with p by lia. split; [constructor|].
    symmetry. apply ceil_div_nonpos; lia.
  - destruct (Z.ltb_spec p stop) as [Hlt|Hge]; simpl.
    + rewrite (ceil_div_step (stop - p) step) by lia.
      replace (Z.max p stop) with stop by lia.
      destruct (Z.le_gt_cases stop (p + step)) as [Hlast|Hmore].
      * rewrite range_up_nil by lia. simpl.
        replace (Z.min (p + step) stop) with stop by lia.
        split; [constructor; [lia | constructor]|].
        f_equal. symmetry. apply ceil_div_nonpos; lia.
      * destruct (IH (p + step) stop step Hstep) as [Ht Hl]; [lia|].
        replace (Z.max (p + step) stop) with stop in Ht by lia.
        replace (Z.min (p + step) stop) with (p + step) by lia.
        split; [constructor; [lia | exact Ht]|].
        rewrite Hl. replace (stop - (p + step)) with (stop - p - step) by lia.
        reflexivity.
    + replace (Z.max p stop) with p by lia. split; [constructor|].
      symmetry. apply ceil_div_nonpos; lia.
Qed.

Lemma windows_tiles total_pages page_size s e :
  1 <= page_size ->
  let lo := Z.max 0 (s - 1) in
  let hi := Z.min (e - 1) total_pages in
  exists ws, windows total_pages page_size (s, e) = Some ws /\
             tiles lo (Z.max lo hi) ws /\
             length ws = Z.to_nat (ceil_div (hi - lo) page_size).
Proof.
  intros Hps lo hi. unfold windows, range.
  destruct (Z.eqb_spec page_size 0); [lia|].
  destruct (Z.ltb_spec 0 page_size); [|lia]. simpl.
  eexists; split; [reflexivity|].
  apply range_up_windows; lia.
Qed.

(** Every range of a tiling lies inside the tiled interval. *)
Lemma tiles_bounds a b l :
  tiles a b l -> a <= b /\ forall r, In r l -> a <= fst r /\ fst r < snd r /\ snd r <= b.
Proof.
  induction 1 as [a|a m b l Ham Ht [Hmb IH]]; [split; [lia | intros r []]|].
  split; [lia|]. intros r [<-|Hin]; simpl; [lia|].
  specialize (IH r Hin). lia.
Qed.

Lemma task_ranges_imap (f : nat -> Z * Z -> task) ws :
  (forall k w, task_range (f k w) = Some w) ->
  task_ranges (imap f ws) = map Some ws.
Proof.
  revert f. induction ws as [|w ws IH]; intros f Hf; [reflexivity|].
  simpl. rewrite Hf. f_equal. apply IH. intros k w'. apply Hf.
Qed.

Lemma task_range_ranged get_uuid d k w :
  task_range (ranged_task get_uuid d k w) = Some w.
Proof. destruct w; reflexivity. Qed.

Lemma page_ranges_default d :
  pages (doc_parser_config d) = None \/ pages (doc_parser_config d) = Some [] ->
  page_ranges_of d = [(1, 10 ^ 5)].
Proof. unfold page_ranges_of. intros [-> | ->]; reflexivity. Qed.

(** [range] with a positive step, in closed form: the k-th value is
    [p + k * step], for k below ceil((stop - p) / step). *)
Lemma range_up_closed fuel : forall p stop step,
  0 < step -> stop - p <= Z.of_nat fuel ->
  range_up fuel p stop step
  = map (fun k : nat => p + Z.of_nat k * step)
        (seq 0 (Z.to_nat (ceil_div (stop - p) step))).
Proof.
  induction fuel as [|f IH]; intros p stop step Hstep Hfuel.
  - rewrite ceil_div_nonpos by lia. reflexivity.
  - cbn [range_up]. destruct (Z.ltb_spec p stop) as [Hlt|Hge].
    + rewrite (ceil_div_step (stop - p) step) by lia. cbn [seq map].
      f_equal; [lia|]. rewrite IH by lia.
      replace (stop - (p + step)) with (stop - p - step) by lia.
      rewrite <- seq_shift, map_map. apply map_ext. intros k. lia.
    + rewrite ceil_div_nonpos by lia. reflexivity.
Qed.

(** The windows cut from [[lo, hi)] with a step [S]: the k-th one is
    [[lo + k*S, min(lo + (k+1)*S, hi))]. *)
Lemma windows_closed total_pages page_size s e :
  1 <= page_size ->
  let lo := Z.max 0 (s - 1) in
  let hi := Z.min (e - 1) total_pages in
  windows total_pages page_size (s, e)
  = Some (map (fun k : nat => (lo + Z.of_nat k * page_size,
                               Z.min (lo + Z.of_nat k * page_size + page_size) hi))
              (seq 0 (Z.to_nat (ceil_div (hi - lo) page_size)))).
Proof.
  intros HS lo hi. unfold windows, range. fold lo. fold hi.
  destruct (Z.eqb_spec page_size 0); [lia|]. destruct (Z.ltb_spec 0 page_size); [|lia].
  cbn [mbind option_bind]. rewrite range_up_closed by lia. rewrite map_map. reflexivity.
Qed.
End PartitionFacts.

Module PartitionClaims.
Import Py Partition PartitionFacts PartitionExamples.
Local Open Scope Z_scope.

(** C1, as stated, fails beyond the default page range: for a PDF of 100000
    pages with page size 100000 and no explicit page range, the only task is
    [[0, 99999)], which does not cover [[0, 100000)]. *)
Lemma C1_default_range_stops_at_99999 :
  page_size_of wide_pdf = 100000 /\
  pages (doc_parser_config wide_pdf) = None /\
  task_ranges <$> queue_tasks uuid0 100000 0 wide_pdf = Some [Some (0, 99999)] /\
  ~ tiles 0 100000 [(0, 99999)].
Proof.
  split; [reflexivity|]. split; [reflexivity|]. split; [vm_compute; reflexivity|].
  intros Ht. inversion Ht as [|a m b l _ Hrest]; subst. inversion Hrest.
Qed.

(** C1 (amended): for a PDF of N <= 99999 pages with page size S >= 1 and no
    explicit page range, [queue_tasks] returns ceil(N/S) tasks whose
    [[from_page, to_page)] ranges are contiguous, non-overlapping and cover
    [[0, N)]; a 25-page PDF with the default page size 12 yields the three
    ranges [[0,12)], [[12,24)], [[24,25)]. *)
Theorem C1_queue_tasks_default_range_tiles :
  (forall get_uuid rn d N S,
      doc_type d = PDF ->
      pages (doc_parser_config d) = None \/ pages (doc_parser_config d) = Some [] ->
      page_size_of d = S -> 1 <= S -> 0 <= N <= 99999 ->
      exists tsks ws,
        queue_tasks get_uuid N rn d = Some tsks /\
        task_ranges tsks = map Some ws /\
        length tsks = Z.to_nat (ceil_div N S) /\
        tiles 0 N ws) /\
  (forall get_uuid rn,
      page_size_of plain_pdf = 12 /\
      task_ranges <$> queue_tasks get_uuid 25 rn plain_pdf
      = Some [Some (0, 12); Some (12, 24); Some (24, 25)]).
Proof.
  split; [|intros; split; reflexivity].
  intros get_uuid rn d N S Hpdf Hpages HS Hpos HN.
  unfold queue_tasks. rewrite Hpdf, (page_ranges_default d Hpages), HS.
  cbn [FileType_eqb all_windows].
  destruct (windows_tiles N S 1 (10 ^ 5) Hpos) as (ws & Hw & Ht & Hl).
  rewrite Hw. cbn [mbind option_bind]. rewrite app_nil_r.
  exists (imap (ranged_task get_uuid d) ws), ws.
  split; [reflexivity|]. split; [apply task_ranges_imap, task_range_ranged|].
  replace (Z.min (10 ^ 5 - 1) N) with N in * by lia.
  replace (Z.max 0 (1 - 1)) with 0 in * by lia.
  replace (Z.max 0 N) with N in Ht by lia.
  replace (N - 0) with N in Hl by lia.
  split; [|exact Ht]. rewrite length_imap. exact Hl.
Qed.

Lemma C1_queue_tasks_default_range_tiles_witness :
  exists tsks ws,
    queue_tasks uuid0 30 0 plain_pdf = Some tsks /\
    task_ranges tsks = map Some ws /\
    length tsks = Z.to_nat (ceil_div 30 12) /\
    tiles 0 30 ws.
Proof.
  apply (proj1 C1_queue_tasks_default_range_tiles uuid0 0 plain_pdf 30 12);
    [reflexivity | left; reflexivity | reflexivity | lia | lia].
Defined.

(** What the partitioner does with explicit page ranges: each (s, e) is cut
    to the 0-based half-open range [[max(0, s-1), min(e-1, total_pages))],
    within [[0, total_pages]], and subdivided into consecutive windows of the
    page size; the 0-based index e-1 is in no window of its own range. *)
Lemma explicit_ranges_windows :
  forall get_uuid rn d N S rs,
    doc_type d = PDF ->
    pages (doc_parser_config d) = Some rs -> rs <> [] ->
    page_size_of d = S -> 1 <= S -> 0 <= N ->
    exists tsks wss,
      queue_tasks get_uuid N rn d = Some tsks /\
      task_ranges tsks = map Some (concat wss) /\
      Forall2 (fun (r : Z * Z) ws =>
                 let lo := Z.max 0 (fst r - 1) in
                 let hi := Z.min (snd r - 1) N in
                 0 <= lo /\ hi <= N /\
                 tiles lo (Z.max lo hi) ws /\
                 length ws = Z.to_nat (ceil_div (hi - lo) S) /\
                 ~ covers ws (snd r - 1)) rs wss.
Proof.
  intros get_uuid rn d N S rs Hpdf Hpages Hne HS Hpos HN.
  unfold queue_tasks. rewrite Hpdf. cbn [FileType_eqb].
  assert (Hrs : page_ranges_of d = rs).
  { unfold page_ranges_of. rewrite Hpages. destruct rs; [congruence | reflexivity]. }
  rewrite Hrs, HS. clear Hrs Hne Hpages.
  assert (Hall : exists wss,
             all_windows N S rs = Some (concat wss) /\
             Forall2 (fun (r : Z * Z) ws =>
                 let lo := Z.max 0 (fst r - 1) in
                 let hi := Z.min (snd r - 1) N in
                 0 <= lo /\ hi <= N /\
                 tiles lo (Z.max lo hi) ws /\
                 length ws = Z.to_nat (ceil_div (hi - lo) S) /\
                 ~ covers ws (snd r - 1)) rs wss).
  { induction rs as [|[s e] rs (wss & Hw & Hf)]; [exists []; split; [reflexivity | constructor]|].
    destruct (windows_tiles N S s e Hpos) as (ws & Hws & Ht & Hl).
    exists (ws :: wss). split.
    - cbn [all_windows]. rewrite Hws, Hw. reflexivity.
    - constructor; [|exact Hf]. simpl.
      split; [lia|]. split; [lia|]. split; [exact Ht|]. split; [exact Hl|].
      intros (r & Hin & Hr).
      destruct (tiles_bounds _ _ _ Ht) as [_ Hb].
      specialize (Hb r Hin). lia. }
  destruct Hall as (wss & Hw & Hf). rewrite Hw. cbn [mbind option_bind].
  exists (imap (ranged_task get_uuid d) (concat wss)), wss.
  split; [reflexivity|]. split; [apply task_ranges_imap, task_range_ranged | exact Hf].
Qed.


(** C5: the end page of an explicit page range is dropped.  The claim reads
    [(s, e)] as the pages s..e, both included, so the normalized 0-based
    range should be [[s-1, e)]; the code takes [e - 1] as the exclusive end.
    With the range (1, 5) on a 10-page PDF the only task is [[0, 4)]: page 5
    (0-based index 4) is in no task although 5 <= 10.  With the one-page
    range (3, 3) no task is created at all.  In general, for every range
    1 <= s <= e <= total_pages and every page size >= 1 the windows tile
    [[s-1, e-1)], so the 0-based index e-1 of page e is in none of them. *)
Theorem C5_end_page_of_explicit_range_is_dropped :
  pages (doc_parser_config pages_1_5) = Some [(1, 5)] /\
  task_ranges <$> queue_tasks uuid0 10 0 pages_1_5 = Some [Some (0, 4)] /\
  ~ covers [(0, 4)] (5 - 1) /\
  pages (doc_parser_config pages_3_3) = Some [(3, 3)] /\
  task_ranges <$> queue_tasks uuid0 10 0 pages_3_3 = Some [] /\
  (forall N S s e,
      1 <= S -> 1 <= s -> s <= e -> e <= N ->
      exists ws,
        windows N S (s, e) = Some ws /\
        tiles (s - 1) (e - 1) ws /\
        ~ covers ws (e - 1)).
Proof.
  split; [reflexivity|]. split; [reflexivity|]. split.
  { intros (r & [<-|[]] & Hr). simpl in Hr. lia. }
  split; [reflexivity|]. split; [reflexivity|].
  intros N S s e HS Hs Hse HeN.
  destruct (windows_tiles N S s e HS) as (ws & Hws & Ht & _).
  replace (Z.max 0 (s - 1)) with (s - 1) in Ht by lia.
  replace (Z.min (e - 1) N) with (e - 1) in Ht by lia.
  replace (Z.max (s - 1) (e - 1)) with (e - 1) in Ht by lia.
  exists ws. split; [exact Hws|]. split; [exact Ht|].
  intros (r & Hin & Hr). destruct (tiles_bounds _ _ _ Ht) as [_ Hb].
  specialize (Hb r Hin). lia.
Qed.
End PartitionClaims.

(** ** More on the partitioner *)
Module PartitionMore.
Import Py Partition PartitionFacts PartitionExamples MoreExamples.
Local Open Scope Z_scope.

Lemma FileType_eqb_PDF t : FileType_eqb t PDF = true <-> t = PDF.
Proof. destruct t; cbn; split; congruence. Qed.

Lemma not_PDF t : t <> PDF -> FileType_eqb t PDF = false.
Proof. destruct t; cbn; congruence. Qed.

(** X1: Rows of a tabular document are cut into windows of 3000: the k-th task
    covers the rows [[3000 k, min(3000 k + 3000, rn))], for k below
    ceil(rn / 3000); the windows tile [[0, rn)] and none is longer than 3000
    rows. *)
Theorem table_rows_tile :
  forall get_uuid N rn d,
    doc_type d <> PDF -> parser_id d = "table" -> 0 <= rn ->
    exists tsks ws,
      queue_tasks get_uuid N rn d = Some tsks /\
      task_ranges tsks = map Some ws /\
      length tsks = Z.to_nat (ceil_div rn 3000) /\
      tiles 0 rn ws /\
      ws = map (fun k : nat => (3000 * Z.of_nat k, Z.min (3000 * Z.of_nat k + 3000) rn))
               (seq 0 (Z.to_nat (ceil_div rn 3000))) /\
      Forall (fun w => snd w - fst w <= 3000) ws.
Proof.
  intros get_uuid N rn d Hty Hp Hrn. unfold queue_tasks, row_windows, range.
  rewrite (not_PDF _ Hty), Hp. cbn [String.eqb Ascii.eqb Bool.eqb Z.eqb Z.ltb Z.compare
    mbind option_bind].
  destruct (range_up_windows (Z.to_nat (rn - 0)) 0 rn 3000) as [Ht Hl]; [lia | lia |].
  eexists _, _. split; [reflexivity|].
  split; [apply task_ranges_imap, task_range_ranged|].
  rewrite length_imap. replace (Z.max 0 rn) with rn in Ht by lia.
  replace (rn - 0) with rn in * by lia. split; [exact Hl|]. split; [exact Ht|].
  assert (Hcl : map (fun i => (i, Z.min (i + 3000) rn)) (range_up (Z.to_nat rn) 0 rn 3000)
                = map (fun k : nat => (3000 * Z.of_nat k,
                                       Z.min (3000 * Z.of_nat k + 3000) rn))
                      (seq 0 (Z.to_nat (ceil_div rn 3000)))).
  { rewrite range_up_closed by lia. rewrite map_map.
    replace (rn - 0) with rn by lia. apply map_ext. intros k.
    replace (0 + Z.of_nat k * 3000) with (3000 * Z.of_nat k) by lia. reflexivity. }
  split; [exact Hcl|]. rewrite Hcl.
  apply Forall_forall. intros w Hw. apply list_elem_of_In, in_map_iff in Hw as (k & <- & _).
  cbn [fst snd]. lia.
Qed.

Lemma table_rows_tile_witness :
  exists tsks ws,
    queue_tasks uuid0 0 7000 sheet = Some tsks /\
    task_ranges tsks = map Some ws /\
    length tsks = Z.to_nat (ceil_div 7000 3000) /\
    tiles 0 7000 ws /\
    ws = [(0, 3000); (3000, 6000); (6000, 7000)].
Proof.
  destruct (table_rows_tile uuid0 0 7000 sheet) as (tsks & ws & H1 & H2 & H3 & H4 & H5 & _);
    [discriminate | reflexivity | lia |].
  exists tsks, ws. split; [exact H1|]. split; [exact H2|]. split; [exact H3|].
  split; [exact H4|]. rewrite H5. reflexivity.
Defined.

(** A document that is neither a PDF nor under the table parser gets exactly
    one task, with the document's id and without a page range. *)
Theorem other_documents_get_one_task :
  forall get_uuid N rn d,
    doc_type d <> PDF -> parser_id d <> "table" ->
    queue_tasks get_uuid N rn d
    = Some [ {| id := get_uuid 0%nat; task_doc_id := doc_id d;
                from_page := None; to_page := None |} ].
Proof.
  intros get_uuid N rn d Hty Hp. unfold queue_tasks.
  rewrite (not_PDF _ Hty). destruct (String.eqb_spec (parser_id d) "table"); [contradiction|].
  reflexivity.
Qed.

Lemma other_documents_get_one_task_witness :
  queue_tasks uuid0 0 0 text_file
  = Some [ {| id := uuid0 0%nat; task_doc_id := doc_id text_file;
              from_page := None; to_page := None |} ].
Proof.
  apply (other_documents_get_one_task uuid0 0 0 text_file); discriminate.
Defined.

Lemma single_window N S :
  1 <= N -> N <= S ->
  windows N S (1, 10 ^ 5) = Some [(0, N)] \/ 10 ^ 5 - 1 < N.
Proof.
  intros HN HS. destruct (Z.le_gt_cases N (10 ^ 5 - 1)) as [Hle|Hgt]; [left | right; lia].
  unfold windows, range.
  destruct (Z.eqb_spec S 0); [lia|]. destruct (Z.ltb_spec 0 S); [|lia].
  replace (Z.max 0 (1 - 1)) with 0 by lia.
  replace (Z.min (10 ^ 5 - 1) N) with N by lia.
  destruct (Z.to_nat (N - 0)) as [|f] eqn:Hf; [lia|].
  cbn [range_up]. destruct (Z.ltb_spec 0 N); [|lia].
  rewrite range_up_nil by lia. cbn. repeat f_equal. lia.
Qed.

(** X2: Under the parsers [one] and [knowledge_graph], or when layout recognition
    is switched off, a PDF of 1 to 99999 pages without explicit page ranges is
    one task covering all its pages, whatever [task_page_size] says. *)
Theorem unbounded_page_size_gives_one_task :
  forall get_uuid N rn d,
    doc_type d = PDF ->
    pages (doc_parser_config d) = None \/ pages (doc_parser_config d) = Some [] ->
    parser_id d = "one" \/ parser_id d = "knowledge_graph"
    \/ layout_recognize (doc_parser_config d) = Some false ->
    1 <= N <= 99999 ->
    task_ranges <$> queue_tasks get_uuid N rn d = Some [Some (0, N)].
Proof.
  intros get_uuid N rn d Hty Hpages Hone HN. unfold queue_tasks.
  rewrite Hty, (page_ranges_default d Hpages). cbn [FileType_eqb all_windows].
  assert (HS : page_size_of d = 10 ^ 9).
  { unfold page_size_of. destruct Hone as [-> | [-> | ->]]; cbn.
    - reflexivity.
    - reflexivity.
    - rewrite orb_true_r. reflexivity. }
  rewrite HS. destruct (single_window N (10 ^ 9)) as [-> | ?]; [lia | lia | | lia].
  reflexivity.
Qed.

Lemma unbounded_page_size_gives_one_task_witness :
  task_ranges <$> queue_tasks uuid0 40 0 whole_pdf = Some [Some (0, 40)].
Proof.
  apply (unbounded_page_size_gives_one_task uuid0 40 0 whole_pdf);
    [reflexivity | left; reflexivity | left; reflexivity | lia].
Defined.

Lemma page_ranges_nonempty d : page_ranges_of d <> [].
Proof.
  unfold page_ranges_of. destruct (pages (doc_parser_config d)) as [[|r rs]|]; discriminate.
Qed.

(** The page size of a PDF is its [task_page_size] unless the parser is [one]
    or [knowledge_graph] or layout recognition is switched off. *)
Lemma page_size_of_configured d n :
  task_page_size (doc_parser_config d) = Some n ->
  parser_id d <> "one" -> parser_id d <> "knowledge_graph" ->
  layout_recognize (doc_parser_config d) <> Some false ->
  page_size_of d = n.
Proof.
  intros Hn H1 H2 Hl. unfold page_size_of. rewrite Hn. cbn [get].
  destruct (String.eqb_spec (parser_id d) "one"); [contradiction|].
  destruct (String.eqb_spec (parser_id d) "knowledge_graph"); [contradiction|].
  destruct (layout_recognize (doc_parser_config d)) as [[|]|]; [|congruence|];
    cbn; destruct (String.eqb (parser_id d) "paper"); reflexivity.
Qed.

(** X3: A [task_page_size] of zero makes the partitioning fail ([range] with a
    zero step) for every PDF whose parser is neither [one] nor
    [knowledge_graph] and whose layout recognition is not switched off,
    whatever its pages and page ranges: no task is created. *)
Theorem zero_page_size_raises :
  forall get_uuid N rn d,
    doc_type d = PDF ->
    task_page_size (doc_parser_config d) = Some 0 ->
    parser_id d <> "one" -> parser_id d <> "knowledge_graph" ->
    layout_recognize (doc_parser_config d) <> Some false ->
    queue_tasks get_uuid N rn d = None.
Proof.
  intros get_uuid N rn d Hty Hz H1 H2 Hl. unfold queue_tasks.
  rewrite Hty, (page_size_of_configured d 0 Hz H1 H2 Hl).
  cbn [FileType_eqb]. pose proof (page_ranges_nonempty d) as Hne.
  destruct (page_ranges_of d) as [|[s e] rs]; [contradiction|].
  reflexivity.
Qed.

Lemma zero_page_size_raises_witness :
  queue_tasks uuid0 10 0 zero_step_pdf = None.
Proof.
  apply (zero_page_size_raises uuid0 10 0 zero_step_pdf);
    [reflexivity | reflexivity | discriminate | discriminate | discriminate].
Defined.




Lemma all_windows_bounds N S rs ws :
  1 <= S -> 0 <= N ->
  all_windows N S rs = Some ws ->
  Forall (fun r : Z * Z => 0 <= r.1 /\ r.1 < r.2 /\ r.2 <= N) ws.
Proof.
  intros HS HN. revert ws. induction rs as [|[s e] rs IH]; intros ws H.
  - injection H as <-. constructor.
  - cbn [all_windows] in H.
    destruct (windows_tiles N S s e HS) as (w1 & Hw1 & Ht & _).
    rewrite Hw1 in H. cbn [mbind option_bind] in H.
    destruct (all_windows N S rs) as [ws'|]; [|discriminate].
    injection H as <-. apply Forall_app. split; [|apply IH; reflexivity].
    apply Forall_forall. intros r Hr. apply list_elem_of_In in Hr.
    destruct (tiles_bounds _ _ _ Ht) as [Hle Hb]. specialize (Hb r Hr). lia.
Qed.

(** X5: Whatever the page ranges asked for, every task of a PDF covers a
    non-empty range of pages inside [[0, total_pages]]. *)
Theorem pdf_task_ranges_within_document :
  forall get_uuid N rn d tsks,
    doc_type d = PDF -> 1 <= page_size_of d -> 0 <= N ->
    queue_tasks get_uuid N rn d = Some tsks ->
    Forall (fun t => exists f e, task_range t = Some (f, e) /\ 0 <= f /\ f < e /\ e <= N)
           tsks.
Proof.
  intros get_uuid N rn d tsks Hty HS HN. unfold queue_tasks. rewrite Hty.
  cbn [FileType_eqb].
  destruct (all_windows N (page_size_of d) (page_ranges_of d)) as [ws|] eqn:Hws;
    [|discriminate].
  cbn [mbind option_bind]. intros H. injection H as <-.
  pose proof (all_windows_bounds N _ _ ws HS HN Hws) as Hb.
  apply Forall_forall. intros t Ht.
  apply list_elem_of_lookup in Ht as [i Hi].
  rewrite list_lookup_imap in Hi.
  destruct (ws !! i) as [[f e]|] eqn:Hwi; [|discriminate].
  cbn in Hi. injection Hi as <-.
  exists f, e. split; [reflexivity|].
  rewrite Forall_forall in Hb.
  specialize (Hb (f, e) ltac:(apply list_elem_of_lookup; eauto)). cbn in Hb. lia.
Qed.

Lemma pdf_task_ranges_within_document_witness :
  exists tsks,
    queue_tasks uuid0 10 0 two_ranges_pdf = Some tsks /\
    task_ranges tsks = [Some (0, 4); Some (4, 5); Some (7, 10)] /\
    Forall (fun t => exists f e, task_range t = Some (f, e) /\ 0 <= f /\ f < e /\ e <= 10)
           tsks.
Proof.
  eexists. split; [reflexivity|]. split; [reflexivity|].
  apply (pdf_task_ranges_within_document uuid0 10 0 two_ranges_pdf);
    [reflexivity | vm_compute; discriminate | lia | reflexivity].
Defined.
End PartitionMore.

(** ** Claim-and-fetch *)
Module TaskServiceFacts.
Import TaskService.
Local Open Scope Z_scope.

Lemma select_join_task db tid d0 :
  select_join db tid = Some d0 ->
  exists t, DB.tasks db !! tid = Some t /\
            id d0 = tid /\ retry_count d0 = DB.retry_count t.
Proof.
  unfold select_join. intros H.
  destruct (DB.tasks db !! tid) as [t|]; [|discriminate].
  cbn [mbind option_bind] in H.
  destruct (DB.documents db !! DB.doc_id t) as [d|]; [|discriminate].
  cbn [mbind option_bind] in H.
  destruct (DB.knowledgebases db !! DB.kb_id d) as [k|]; [|discriminate].
  cbn [mbind option_bind] in H.
  destruct (DB.tenants db !! DB.tenant_id k) as [n|]; [|discriminate].
  injection H as <-. exists t. auto.
Qed.

(** Altering the claimed fields of the task keeps its join row, with the new
    retry-count. *)
Lemma select_join_update db tid d0 msg prog rc :
  select_join db tid = Some d0 ->
  exists d1,
    select_join
      (DB.set_tasks db (alter (update_claim msg prog rc) tid (DB.tasks db))) tid
    = Some d1 /\ retry_count d1 = rc.
Proof.
  unfold select_join. intros H. cbn [DB.set_tasks DB.tasks DB.documents
    DB.knowledgebases DB.tenants].
  rewrite lookup_alter_eq.
  destruct (DB.tasks db !! tid) as [t|]; [|discriminate].
  cbn [mbind option_bind fmap option_fmap option_map update_claim DB.doc_id] in *.
  destruct (DB.documents db !! DB.doc_id t) as [d|]; [|discriminate].
  cbn [mbind option_bind] in *.
  destruct (DB.knowledgebases db !! DB.kb_id d) as [k|]; [|discriminate].
  cbn [mbind option_bind] in *.
  destruct (DB.tenants db !! DB.tenant_id k) as [n|]; [|discriminate].
  eexists. split; reflexivity.
Qed.

(** One claim of a task that has its join row. *)
Lemma get_tasks_claim random db tid d0 t :
  select_join db tid = Some d0 -> DB.tasks db !! tid = Some t ->
  exists db' d1 t',
    get_tasks random db tid = ((if 3 <=? retry_count d0 then [] else [d0]), db') /\
    select_join db' tid = Some d1 /\
    retry_count d1 = retry_count d0 + 1 /\
    DB.tasks db' !! tid = Some t' /\
    DB.retry_count t' = DB.retry_count t + 1 /\
    DB.progress t' = (if 3 <=? retry_count d0 then (-1)%float else (random / 10)%float) /\
    DB.progress_msg t' =
      DB.progress_msg t +:+ (if 3 <=? retry_count d0 then msg_abandoned else msg_received).
Proof.
  intros Hj Ht.
  destruct (select_join_task _ _ _ Hj) as (t0 & Ht0 & Hid & Hrc).
  assert (t0 = t) by congruence. subst t0.
  unfold get_tasks. rewrite Hj, Hid.
  destruct (3 <=? retry_count d0) eqn:Hge.
  - destruct (select_join_update db tid d0 msg_abandoned (-1)%float
                (retry_count d0 + 1) Hj) as (d1 & Hd1 & Hr1).
    eexists _, d1, _. split; [reflexivity|]. split; [exact Hd1|].
    split; [exact Hr1|]. cbn [DB.set_tasks DB.tasks].
    rewrite lookup_alter_eq, Ht. cbn.
    split; [reflexivity|]. rewrite Hrc. auto.
  - destruct (select_join_update db tid d0 msg_received (random / 10)%float
                (retry_count d0 + 1) Hj) as (d1 & Hd1 & Hr1).
    eexists _, d1, _. split; [reflexivity|]. split; [exact Hd1|].
    split; [exact Hr1|]. cbn [DB.set_tasks DB.tasks].
    rewrite lookup_alter_eq, Ht. cbn.
    split; [reflexivity|]. rewrite Hrc. auto.
Qed.
End TaskServiceFacts.

Module TaskServiceClaims.
Import TaskService TaskServiceFacts TaskServiceExamples.
Local Open Scope Z_scope.

(** C2, as stated, fails for a task whose join row is missing: the only task
    of this store has a retry-count of 3 and its document is gone; a claim
    returns the empty list, but the task is not marked abandoned (its progress
    stays 0 and no message is appended) and its retry-count stays 3. *)
Lemma C2_orphaned_task_is_not_abandoned :
  DB.tasks (orphan_db 3) !! "t1" = Some (task_at 3) /\
  DB.retry_count (task_at 3) = 3 /\
  get_tasks 0.5%float (orphan_db 3) "t1" = ([], orphan_db 3) /\
  exists t',
    DB.tasks (snd (get_tasks 0.5%float (orphan_db 3) "t1")) !! "t1" = Some t' /\
    DB.retry_count t' = 3 /\
    DB.progress t' = 0%float /\
    DB.progress_msg t' = "".
Proof.
  split; [reflexivity|]. split; [reflexivity|]. split; [reflexivity|].
  exists (task_at 3). repeat split; reflexivity.
Qed.

(** C2 (amended): for a task that the join of [get_tasks] finds (its
    document, knowledge base and tenant rows exist), every claim stores
    retry-count + 1; when the stored retry-count is already >= 3 the claim
    returns the empty list, sets progress to -1 and appends a line feed and
    "ERROR: Task is abandoned after 3 times attempts."; below 3 it returns the
    task's row, sets progress to a tenth of the random draw and appends a
    line feed and "Task has been received.".  Hence a fresh task
    (retry-count 0) is handed out on its first three claims and abandoned on
    the fourth.  For a task that the join does not find, a claim returns the
    empty list and writes nothing. *)
Theorem C2_get_tasks_abandons_at_retry_3 :
  forall random db tid t,
    DB.tasks db !! tid = Some t ->
    (is_Some (select_join db tid) ->
     (exists t',
         DB.tasks (snd (get_tasks (random 0%nat) db tid)) !! tid = Some t' /\
         DB.retry_count t' = DB.retry_count t + 1 /\
         (3 <= DB.retry_count t ->
            fst (get_tasks (random 0%nat) db tid) = [] /\
            DB.progress t' = (-1)%float /\
            DB.progress_msg t'
            = DB.progress_msg t
              +:+ String "010" "ERROR: Task is abandoned after 3 times attempts.") /\
         (DB.retry_count t < 3 ->
            (exists d0, fst (get_tasks (random 0%nat) db tid) = [d0] /\ id d0 = tid) /\
            DB.progress t' = (random 0%nat / 10)%float /\
            DB.progress_msg t'
            = DB.progress_msg t +:+ String "010" "Task has been received.")) /\
     (DB.retry_count t = 0 ->
        exists r1 r2 r3 t4,
          fst (claims random 4 db tid) = [[r1]; [r2]; [r3]; []] /\
          DB.tasks (snd (claims random 4 db tid)) !! tid = Some t4 /\
          DB.retry_count t4 = 4 /\ DB.progress t4 = (-1)%float)) /\
    (select_join db tid = None ->
     get_tasks (random 0%nat) db tid = ([], db)).
Proof.
  intros random db tid t Ht. split; cycle 1.
  { intros Hn. unfold get_tasks. rewrite Hn. reflexivity. }
  intros [d0 Hj].
  destruct (select_join_task _ _ _ Hj) as (t0 & Ht0 & Hid & Hrc).
  assert (t0 = t) by congruence. subst t0.
  split.
  - destruct (get_tasks_claim (random 0%nat) db tid d0 t Hj Ht)
      as (db' & d1 & t' & Hg & _ & _ & Ht' & Hrc' & Hp & Hm).
    rewrite Hg. cbn [fst snd]. exists t'.
    split; [exact Ht'|]. split; [exact Hrc'|]. split.
    + intros Hge. destruct (Z.leb_spec 3 (retry_count d0)); [|lia].
      split; [reflexivity|]. split; [exact Hp | exact Hm].
    + intros Hlt. destruct (Z.leb_spec 3 (retry_count d0)); [lia|].
      split; [eauto|]. split; [exact Hp | exact Hm].
  - intros Hz.
    destruct (get_tasks_claim (random 0%nat) db tid d0 t Hj Ht)
      as (db1 & d1 & t1 & Hg1 & Hj1 & Hr1 & Ht1 & _).
    destruct (get_tasks_claim (random 1%nat) db1 tid d1 t1 Hj1 Ht1)
      as (db2 & d2 & t2 & Hg2 & Hj2 & Hr2 & Ht2 & _).
    destruct (get_tasks_claim (random 2%nat) db2 tid d2 t2 Hj2 Ht2)
      as (db3 & d3 & t3 & Hg3 & Hj3 & Hr3 & Ht3 & _).
    destruct (get_tasks_claim (random 3%nat) db3 tid d3 t3 Hj3 Ht3)
      as (db4 & d4 & t4 & Hg4 & Hj4 & Hr4 & Ht4 & Hrc4 & Hp4 & _).
    destruct (select_join_task _ _ _ Hj3) as (t3' & Ht3' & _ & Hrc3).
    assert (t3' = t3) by congruence. subst t3'.
    cbn [claims]. rewrite Hg1, Hg2, Hg3, Hg4.
    destruct (Z.leb_spec 3 (retry_count d0)); [lia|].
    destruct (Z.leb_spec 3 (retry_count d1)); [lia|].
    destruct (Z.leb_spec 3 (retry_count d2)); [lia|].
    destruct (Z.leb_spec 3 (retry_count d3)); [|lia].
    cbn [fst snd]. exists d0, d1, d2, t4.
    split; [reflexivity|]. split; [exact Ht4|]. split; [lia | exact Hp4].
Qed.

Lemma C2_get_tasks_abandons_at_retry_3_witness :
  (exists t',
      DB.tasks (snd (get_tasks 0.5%float (db_at 3) "t1")) !! "t1" = Some t' /\
      DB.retry_count t' = 4 /\
      fst (get_tasks 0.5%float (db_at 3) "t1") = [] /\
      DB.progress t' = (-1)%float /\
      DB.progress_msg t'
      = String "010" "ERROR: Task is abandoned after 3 times attempts.") /\
  get_tasks 0.5%float (orphan_db 3) "t1" = ([], orphan_db 3).
Proof.
  split.
  - destruct (proj1 (C2_get_tasks_abandons_at_retry_3 (fun _ => 0.5%float) (db_at 3)
                       "t1" (task_at 3) eq_refl))
      as [(t' & Hl & Hrc & Hge & _) _]; [eexists; reflexivity|].
    destruct Hge as (Hf & Hp & Hm); [cbn; lia|].
    exists t'. split; [exact Hl|]. split; [exact Hrc|]. split; [exact Hf|].
    split; [exact Hp | exact Hm].
  - exact (proj2 (C2_get_tasks_abandons_at_retry_3 (fun _ => 0.5%float) (orphan_db 3)
                    "t1" (task_at 3) eq_refl) eq_refl).
Defined.
End TaskServiceClaims.

(** ** More on the task service *)
Module TaskServiceMore.
Import TaskService TaskServiceFacts TaskServiceExamples Invariant.
Local Open Scope Z_scope.

Lemma append_nil_r s : s +:+ "" = s.
Proof.
  induction s as [|a s IH]; [reflexivity|].
  change (String a (s +:+ "") = String a s). f_equal. exact IH.
Qed.

Lemma append_assoc s1 s2 s3 : (s1 +:+ s2) +:+ s3 = s1 +:+ (s2 +:+ s3).
Proof.
  induction s1 as [|a s1 IH]; [reflexivity|].
  change (String a ((s1 +:+ s2) +:+ s3) = String a (s1 +:+ (s2 +:+ s3))).
  f_equal. exact IH.
Qed.

Lemma task_extends_refl t : task_extends t t.
Proof.
  repeat split; try lia. exists "". symmetry. apply append_nil_r.
Qed.

Lemma task_extends_trans t1 t2 t3 :
  task_extends t1 t2 -> task_extends t2 t3 -> task_extends t1 t3.
Proof.
  intros (Hd1 & Hf1 & Ht1 & Hr1 & s1 & Hm1) (Hd2 & Hf2 & Ht2 & Hr2 & s2 & Hm2).
  repeat split; try congruence; try lia.
  exists (s1 +:+ s2). rewrite Hm2, Hm1. apply append_assoc.
Qed.

Lemma tasks_extend_refl ts : tasks_extend ts ts.
Proof.
  intros id. destruct (ts !! id) as [t|]; [|reflexivity].
  exists t. split; [reflexivity | apply task_extends_refl].
Qed.

Lemma tasks_extend_trans ts1 ts2 ts3 :
  tasks_extend ts1 ts2 -> tasks_extend ts2 ts3 -> tasks_extend ts1 ts3.
Proof.
  intros H12 H23 id. specialize (H12 id). specialize (H23 id).
  destruct (ts1 !! id) as [t1|].
  - destruct H12 as (t2 & Ht2 & He12). rewrite Ht2 in H23.
    destruct H23 as (t3 & Ht3 & He23). exists t3. split; [exact Ht3|].
    eapply task_extends_trans; eassumption.
  - rewrite H12 in H23. exact H23.
Qed.

(** Altering one row by a function that extends it extends the table. *)
Lemma alter_extends (f : DB.Task -> DB.Task) id (ts : gmap string DB.Task) :
  (forall t, task_extends t (f t)) -> tasks_extend ts (alter f id ts).
Proof.
  intros Hf id'. destruct (decide (id = id')) as [<-|Hne].
  - rewrite lookup_alter_eq. destruct (ts !! id) as [t|]; [|reflexivity].
    exists (f t). split; [reflexivity | apply Hf].
  - rewrite lookup_alter_ne by exact Hne. destruct (ts !! id') as [t|] eqn:Ht; [|reflexivity].
    exists t. split; [reflexivity | apply task_extends_refl].
Qed.

Lemma append_msg_extends m t : task_extends t (append_msg m t).
Proof. repeat split; cbn; try lia. eexists. reflexivity. Qed.

Lemma set_prog_extends p t : task_extends t (set_prog p t).
Proof. repeat split; cbn; try lia. exists "". symmetry. apply append_nil_r. Qed.

Lemma update_tasks_extends ts id i : tasks_extend ts (update_tasks ts id i).
Proof.
  unfold update_tasks.
  destruct (String.eqb (info_progress_msg i) ""), (info_progress i) as [p|].
  - apply alter_extends, set_prog_extends.
  - apply tasks_extend_refl.
  - eapply tasks_extend_trans; [apply alter_extends, append_msg_extends|].
    apply alter_extends, set_prog_extends.
  - apply alter_extends, append_msg_extends.
Qed.

(** X6: [update_progress] never deletes or creates a task and touches the
    named task only: its document, page range and retry-count are kept as
    they are, its progress is replaced when the report carries one, and its
    message log gets a line feed and the message appended when the message is
    not empty. *)
Theorem update_progress_extends :
  forall db id i,
    tasks_extend (DB.tasks db) (DB.tasks (update_progress db id i)) /\
    (forall t, DB.tasks db !! id = Some t ->
       exists t',
         DB.tasks (update_progress db id i) !! id = Some t' /\
         DB.retry_count t' = DB.retry_count t /\
         DB.doc_id t' = DB.doc_id t /\
         DB.from_page t' = DB.from_page t /\ DB.to_page t' = DB.to_page t /\
         DB.progress t' = default (DB.progress t) (info_progress i) /\
         DB.progress_msg t'
         = (if String.eqb (info_progress_msg i) "" then DB.progress_msg t
            else DB.progress_msg t +:+ String "010" (info_progress_msg i))) /\
    (forall id', id' <> id ->
       DB.tasks (update_progress db id i) !! id' = DB.tasks db !! id') /\
    (DB.tasks db !! id = None -> DB.tasks (update_progress db id i) = DB.tasks db) /\
    DB.documents (update_progress db id i) = DB.documents db.
Proof.
  intros db id i. unfold update_progress, update_tasks. cbn [DB.set_tasks DB.tasks DB.documents].
  split; [|split; [|split; [|split; [|reflexivity]]]].
  - apply update_tasks_extends.
  - intros t Ht.
    destruct (String.eqb (info_progress_msg i) ""), (info_progress i) as [p|];
      rewrite ?lookup_alter_eq, ?Ht; cbn; eexists; (split; [reflexivity|]);
      repeat split; reflexivity.
  - intros id' Hne.
    destruct (String.eqb (info_progress_msg i) ""), (info_progress i) as [p|];
      rewrite ?lookup_alter_ne by congruence; reflexivity.
  - intros Hnone. apply map_eq. intros id'.
    destruct (decide (id = id')) as [<-|Hne].
    + destruct (String.eqb (info_progress_msg i) ""), (info_progress i) as [p|];
        rewrite ?lookup_alter_eq, ?Hnone; reflexivity.
    + destruct (String.eqb (info_progress_msg i) ""), (info_progress i) as [p|];
        rewrite ?lookup_alter_ne by congruence; reflexivity.
Qed.

(** X7: A claim of a task whose context is incomplete - the task, its document,
    the document's knowledge base or that one's tenant is missing - returns
    nothing and changes nothing: the task is neither handed out nor
    abandoned, and its retry-count stays. *)
Theorem get_tasks_without_context :
  forall random db tid,
    (DB.tasks db !! tid = None \/
     exists t, DB.tasks db !! tid = Some t /\
       (DB.documents db !! DB.doc_id t = None \/
        exists d, DB.documents db !! DB.doc_id t = Some d /\
          (DB.knowledgebases db !! DB.kb_id d = None \/
           exists k, DB.knowledgebases db !! DB.kb_id d = Some k /\
                     DB.tenants db !! DB.tenant_id k = None))) ->
    get_tasks random db tid = ([], db).
Proof.
  intros random db tid H. unfold get_tasks.
  assert (Hj : select_join db tid = None).
  { unfold select_join.
    destruct H as [-> | (t & -> & H)]; [reflexivity|]. cbn [mbind option_bind].
    destruct H as [-> | (d & -> & H)]; [reflexivity|]. cbn [mbind option_bind].
    destruct H as [-> | (k & -> & H)]; [reflexivity|]. cbn [mbind option_bind].
    rewrite H. reflexivity. }
  rewrite Hj. reflexivity.
Qed.

(** A store whose only task points to a document that is gone. *)
Lemma get_tasks_without_context_witness :
  get_tasks 0.5%float
            {| DB.tasks := {[ "t1" := task_at 0 ]}; DB.documents := ∅;
               DB.knowledgebases := {[ "kb1" := kb1 ]};
               DB.tenants := {[ "tenant1" := tenant1 ]} |} "t1"
  = ([], {| DB.tasks := {[ "t1" := task_at 0 ]}; DB.documents := ∅;
            DB.knowledgebases := {[ "kb1" := kb1 ]};
            DB.tenants := {[ "tenant1" := tenant1 ]} |}).
Proof.
  apply get_tasks_without_context. right. exists (task_at 0).
  split; [reflexivity | left; reflexivity].
Defined.

Lemma claim_extends random db tid :
  tasks_extend (DB.tasks db) (DB.tasks (get_tasks random db tid).2).
Proof.
  unfold get_tasks. destruct (select_join db tid) as [d0|] eqn:Hj;
    [|apply tasks_extend_refl].
  destruct (select_join_task _ _ _ Hj) as (t & Ht & Hid & Hrc). rewrite Hid.
  assert (Hext : forall msg prog,
             tasks_extend (DB.tasks db)
               (alter (update_claim msg prog (retry_count d0 + 1)) tid (DB.tasks db))).
  { intros msg prog id'. destruct (decide (tid = id')) as [<-|Hne].
    - rewrite lookup_alter_eq, Ht. cbn. eexists. split; [reflexivity|].
      repeat split; cbn; try lia. eexists. reflexivity.
    - rewrite lookup_alter_ne by exact Hne.
      destruct (DB.tasks db !! id') as [t'|]; [|reflexivity].
      exists t'. split; [reflexivity | apply task_extends_refl]. }
  destruct (3 <=? retry_count d0); apply Hext.
Qed.

(** X8: A claim never deletes or creates a task, touches the claimed task only,
    keeps its document and page range, never lowers its retry-count, only
    appends to its message log, and leaves the other tables alone. *)
Theorem get_tasks_extends :
  forall random db tid,
    tasks_extend (DB.tasks db) (DB.tasks (get_tasks random db tid).2) /\
    (forall id', id' <> tid ->
       DB.tasks (get_tasks random db tid).2 !! id' = DB.tasks db !! id') /\
    DB.documents (get_tasks random db tid).2 = DB.documents db /\
    DB.knowledgebases (get_tasks random db tid).2 = DB.knowledgebases db /\
    DB.tenants (get_tasks random db tid).2 = DB.tenants db.
Proof.
  intros random db tid. split; [apply claim_extends|].
  unfold get_tasks. destruct (select_join db tid) as [d0|] eqn:Hj; [|repeat split].
  destruct (select_join_task _ _ _ Hj) as (t & Ht & Hid & Hrc). rewrite Hid.
  destruct (3 <=? retry_count d0); cbn [snd DB.set_tasks DB.tasks DB.documents
    DB.knowledgebases DB.tenants];
    (split; [|repeat split]);
    intros id' Hne; rewrite lookup_alter_ne by congruence; reflexivity.
Qed.
End TaskServiceMore.

(** ** The worker monad *)
Module MonadFacts.
Import World Executor Spec.

Lemma bind_ret {A B} (m : M A) (f : A -> M B) w a w' :
  m w = (Ret a, w') -> (m ≫= f) w = f a w'.
Proof. intros H. unfold mbind, M_bind, bind. rewrite H. reflexivity. Qed.

Lemma bind_exit {A B} (m : M A) (f : A -> M B) w w' :
  m w = (Exit, w') -> (m ≫= f) w = (Exit, w').
Proof. intros H. unfold mbind, M_bind, bind. rewrite H. reflexivity. Qed.

Lemma bind_raise {A B} (m : M A) (f : A -> M B) w e w' :
  m w = (Raise e, w') -> (m ≫= f) w = (Raise e, w').
Proof. intros H. unfold mbind, M_bind, bind. rewrite H. reflexivity. Qed.

Section emits.
Context (Q : event -> Prop).

Lemma emits_ret {A} (a : A) : emits Q (mret a : M A).
Proof.
  intros w. exists []. split; [symmetry; apply app_nil_r|].
  split; [constructor | reflexivity].
Qed.

Lemma emits_raise {A} e : emits Q (raise e : M A).
Proof.
  intros w. exists []. split; [symmetry; apply app_nil_r|].
  split; [constructor | reflexivity].
Qed.

Lemma emits_bind {A B} (m : M A) (f : A -> M B) :
  emits Q m -> (forall a, emits Q (f a)) -> emits Q (m ≫= f).
Proof.
  intros Hm Hf w. destruct (Hm w) as (evs & Ht & Hr).
  destruct (m w) as [[a| e |] w1] eqn:Hmw; cbn [fst snd] in *.
  - rewrite (bind_ret _ _ _ _ _ Hmw). destruct Hr as [Hq Hp].
    destruct (Hf a w1) as (evs2 & Ht2 & Hr2).
    exists (evs ++ evs2). split; [rewrite Ht2, Ht, app_assoc; reflexivity|].
    destruct (f a w1).1.
    + destruct Hr2 as [Hq2 Hp2]. split; [apply Forall_app; auto | congruence].
    + destruct Hr2 as [Hq2 Hp2]. split; [apply Forall_app; auto | congruence].
    + destruct Hr2 as (pre & -> & Hpre & Hnone).
      exists (evs ++ pre). rewrite app_assoc, Hp. split; [reflexivity|].
      split; [apply Forall_app; auto | exact Hnone].
  - rewrite (bind_raise _ _ _ _ _ Hmw). exists evs. auto.
  - rewrite (bind_exit _ _ _ _ Hmw). exists evs. auto.
Qed.

Lemma emits_try {A} (m : M A) (h : exn -> M A) :
  emits Q m -> (forall e, emits Q (h e)) -> emits Q (try_except m h).
Proof.
  intros Hm Hh w. destruct (Hm w) as (evs & Ht & Hr). unfold try_except.
  destruct (m w) as [[a| e |] w1] eqn:Hmw; cbn [fst snd] in *.
  - exists evs. auto.
  - destruct Hr as [Hq Hp]. destruct (Hh e w1) as (evs2 & Ht2 & Hr2).
    exists (evs ++ evs2). split; [rewrite Ht2, Ht, app_assoc; reflexivity|].
    destruct (h e w1).1.
    + destruct Hr2 as [Hq2 Hp2]. split; [apply Forall_app; auto | congruence].
    + destruct Hr2 as [Hq2 Hp2]. split; [apply Forall_app; auto | congruence].
    + destruct Hr2 as (pre & -> & Hpre & Hnone).
      exists (evs ++ pre). rewrite app_assoc, Hp. split; [reflexivity|].
      split; [apply Forall_app; auto | exact Hnone].
  - exists evs. auto.
Qed.

Lemma emits_emit e : Q e -> emits Q (emit e).
Proof.
  intros He w. exists [e]. split; [reflexivity|].
  split; [repeat constructor; exact He | reflexivity].
Qed.

Lemma emits_silent {A} (m : M A) :
  (forall w, trace (m w).2 = trace w /\ PAYLOAD (m w).2 = PAYLOAD w /\ (m w).1 <> Exit) ->
  emits Q m.
Proof.
  intros H w. destruct (H w) as (Ht & Hp & Hr). exists [].
  split; [rewrite Ht; symmetry; apply app_nil_r|].
  destruct (m w).1; [split; [constructor | exact Hp] | split; [constructor | exact Hp]
                     | congruence].
Qed.

Lemma emits_get_world : emits Q get_world.
Proof. apply emits_silent. intros w. repeat split; discriminate. Qed.

Lemma emits_put_tasks ts : emits Q (put_tasks ts).
Proof. apply emits_silent. intros w. repeat split; discriminate. Qed.

Lemma emits_put_es e : emits Q (put_es e).
Proof. apply emits_silent. intros w. repeat split; discriminate. Qed.

Lemma emits_next_read : emits Q next_read.
Proof. apply emits_silent. intros w. repeat split; discriminate. Qed.

Lemma emits_next_bulk : emits Q next_bulk.
Proof. apply emits_silent. intros w. repeat split; discriminate. Qed.

Lemma emits_next_now : emits Q next_now.
Proof. apply emits_silent. intros w. repeat split; discriminate. Qed.

Lemma emits_call {A} (r : result A) : emits Q (call r).
Proof. destruct r; [apply emits_ret | apply emits_raise]. Qed.

Lemma emits_call_unit r : emits Q (call_unit r).
Proof. destruct r; [apply emits_raise | apply emits_ret]. Qed.

Lemma emits_for_each {A} (l : list A) (body : A -> M unit) :
  (forall x, emits Q (body x)) -> emits Q (for_each l body).
Proof.
  intros Hb. induction l as [|x l IH]; [apply emits_ret|].
  cbn [for_each]. apply emits_bind; [apply Hb | intros _; exact IH].
Qed.

Lemma emits_map_M {A B} (f : A -> M B) (l : list A) :
  (forall x, emits Q (f x)) -> emits Q (map_M f l).
Proof.
  intros Hf. induction l as [|x l IH]; [apply emits_ret|].
  cbn [map_M]. apply emits_bind; [apply Hf | intros y].
  apply emits_bind; [exact IH | intros ys; apply emits_ret].
Qed.

Lemma emits_fold_M {S A} (body : S -> A -> M S) (l : list A) :
  (forall s x, emits Q (body s x)) -> forall s, emits Q (fold_M body l s).
Proof.
  intros Hb. induction l as [|x l IH]; intros s; [apply emits_ret|].
  cbn [fold_M]. apply emits_bind; [apply Hb | intros s'; apply IH].
Qed.
End emits.

Lemma emits_mono (Q Q' : event -> Prop) {A} (m : M A) :
  (forall e, Q e -> Q' e) -> emits Q m -> emits Q' m.
Proof.
  intros HQ Hm w. destruct (Hm w) as (evs & Ht & Hr). exists evs. split; [exact Ht|].
  destruct (m w).1.
  - destruct Hr as [Hq Hp]. split; [eapply Forall_impl; eauto | exact Hp].
  - destruct Hr as [Hq Hp]. split; [eapply Forall_impl; eauto | exact Hp].
  - destruct Hr as (pre & -> & Hpre & Hnone).
    exists pre. split; [reflexivity|]. split; [eapply Forall_impl; eauto | exact Hnone].
Qed.
End MonadFacts.

(** ** Events of the pipeline *)
Module ExecutorFacts.
Import World Executor Spec MonadFacts.

Ltac emits_step :=
  first
    [ match goal with H : _ |- _ => solve [apply H] end
    | apply emits_ret | apply emits_raise
    | apply emits_get_world | apply emits_put_tasks
    | apply emits_put_es | apply emits_next_read | apply emits_next_bulk
    | apply emits_next_now | apply emits_call | apply emits_call_unit
    | apply emits_emit; exact I
    | apply emits_bind; [|intros]
    | apply emits_try; [|intros]
    | apply emits_for_each; intros
    | apply emits_map_M; intros
    | apply emits_fold_M; intros
    | match goal with
      | |- emits _ (match ?x with _ => _ end) => destruct x
      end ].

Ltac emits_auto := repeat emits_step.

Section pipeline.
Variable o : oracle.

Lemma emits_ack_exit {A} Q : emits Q (ack_payload;; (os_exit : M A)).
Proof.
  intros w. unfold ack_payload, mbind, M_bind, bind, get_world, os_exit, emit,
    put_PAYLOAD. destruct (PAYLOAD w) eqn:Hp; cbn.
  - exists [EvAck; EvExit]. split; [rewrite <- app_assoc; reflexivity|].
    exists []. split; [reflexivity|]. split; [constructor | reflexivity].
  - exists [EvExit]. split; [reflexivity|].
    exists []. split; [reflexivity|]. split; [constructor | exact Hp].
Qed.

Lemma emits_do_cancel id : emits pipeline_event (do_cancel o id).
Proof. unfold do_cancel, read_db. emits_auto. Qed.

Lemma emits_update_progress id i : emits pipeline_event (update_progress o id i).
Proof. unfold update_progress. emits_auto. Qed.

Lemma emits_get_tasks id : emits pipeline_event (get_tasks o id).
Proof. unfold get_tasks. emits_auto. Qed.

Lemma emits_set_progress id f t prog msg :
  emits pipeline_event (set_progress o id f t prog msg).
Proof.
  unfold set_progress. apply emits_bind; [apply emits_do_cancel | intros c].
  apply emits_bind; [apply emits_update_progress | intros _].
  destruct c; [apply emits_ack_exit | apply emits_ret].
Qed.

Lemma emits_run_callbacks callback calls :
  (forall p m, emits pipeline_event (callback p m)) ->
  emits pipeline_event (run_callbacks callback calls).
Proof. intros H. unfold run_callbacks. apply emits_for_each. intros c. apply H. Qed.

Lemma emits_get_str d k : emits pipeline_event (get_str d k).
Proof. unfold get_str. emits_auto. Qed.

Lemma emits_get_vec d k : emits pipeline_event (get_vec d k).
Proof. unfold get_vec. emits_auto. Qed.

Lemma emits_stamp row ck : emits pipeline_event (stamp o row ck).
Proof. unfold stamp. pose proof emits_get_str. emits_auto. Qed.

Lemma emits_add_keywords n d : emits pipeline_event (add_keywords o n d).
Proof. unfold add_keywords. pose proof emits_get_str. emits_auto. Qed.

Lemma emits_add_questions n d : emits pipeline_event (add_questions o n d).
Proof. unfold add_questions. pose proof emits_get_str. emits_auto. Qed.

Lemma emits_build row : emits pipeline_event (build o row).
Proof.
  unfold build.
  pose proof emits_set_progress. pose proof emits_stamp.
  pose proof emits_add_keywords. pose proof emits_add_questions.
  pose proof emits_run_callbacks.
  emits_auto.
Qed.

Lemma emits_encode_batches callback base span texts :
  (forall p m, emits pipeline_event (callback p m)) ->
  emits pipeline_event (encode_batches o callback base span texts).
Proof. intros H. unfold encode_batches, encode_step. emits_auto. Qed.

Lemma emits_embedding docs cfg callback :
  (forall p m, emits pipeline_event (callback p m)) ->
  emits pipeline_event (embedding o docs cfg callback).
Proof.
  intros H. unfold embedding.
  pose proof (fun base span texts =>
                emits_encode_batches callback base span texts H) as Hb.
  pose proof emits_get_str.
  emits_auto.
Qed.

Lemma emits_raptor_chunk row nm p : emits pipeline_event (raptor_chunk o row nm p).
Proof. unfold raptor_chunk. emits_auto. Qed.

Lemma emits_run_raptor row callback :
  (forall p m, emits pipeline_event (callback p m)) ->
  emits pipeline_event (run_raptor o row callback).
Proof.
  intros H. unfold run_raptor.
  pose proof emits_get_str. pose proof emits_get_vec. pose proof emits_raptor_chunk.
  pose proof (fun calls => emits_run_callbacks callback calls H) as Hc.
  emits_auto.
Qed.

Lemma emits_init_kb row : emits pipeline_event (init_kb o row).
Proof. unfold init_kb. emits_auto. Qed.

Lemma emits_bulk batch idxnm : emits pipeline_event (bulk o batch idxnm).
Proof. unfold bulk. emits_auto. Qed.

Lemma emits_deleteByQuery doc_id idxnm : emits pipeline_event (deleteByQuery doc_id idxnm).
Proof. unfold deleteByQuery. emits_auto. Qed.

Lemma emits_index_chunks r callback cks tk :
  (forall p m, emits pipeline_event (callback p m)) ->
  emits pipeline_event (index_chunks o r callback cks tk).
Proof.
  intros H. unfold index_chunks.
  pose proof emits_init_kb. pose proof emits_get_str. pose proof emits_bulk.
  pose proof emits_deleteByQuery. pose proof emits_do_cancel.
  emits_auto.
Qed.

Lemma emits_process r ty : emits pipeline_event (process o r ty).
Proof.
  unfold process.
  set (callback := set_progress o (TaskService.id r) (TaskService.from_page r)
                                (TaskService.to_page r)).
  assert (Hs : forall p m, emits pipeline_event (callback p m))
    by (intros; apply emits_set_progress).
  pose proof emits_build.
  pose proof (fun row => emits_run_raptor row callback Hs).
  pose proof (fun cks tk => emits_index_chunks r callback cks tk Hs).
  pose proof (fun docs cfg => emits_embedding docs cfg callback Hs).
  emits_auto.
Qed.

Lemma emits_fetch_rows claimed : emits pipeline_event (fetch_rows o claimed).
Proof.
  unfold fetch_rows. pose proof emits_do_cancel. pose proof emits_get_tasks.
  emits_auto.
Qed.

(** The claim: the unacknowledged message is looked for first, and a new
    message is drawn only when there is none; the message held afterwards is
    the one claimed, and without a message held nothing is handed on. *)
Lemma claim_message_spec w :
  exists claimed w1 claim,
    claim_message o w = (Ret claimed, w1) /\
    trace w1 = trace w ++ EvGetUnacked :: claim /\
    (match get_unacked_for o with
     | Ok None => (claim = [EvQueueConsumer]) \/ (claim = [EvQueueConsumer; EvSleep])
     | _ => (claim = [])
     end) /\
    PAYLOAD w1 = held_after_claim o w /\
    (held_after_claim o w = None -> claimed = None).
Proof.
  unfold claim_message, held_after_claim, try_except, mbind, M_bind, bind, emit, call,
    put_PAYLOAD, mret, M_ret, ret, raise.
  destruct (get_unacked_for o) as [[p|]|e]; cbn.
  - eexists _, _, []. split; [reflexivity|]. split; [reflexivity|].
    split; [reflexivity|]. split; [reflexivity | discriminate].
  - destruct (queue_consumer o) as [[p'|]|e']; cbn.
    + eexists _, _, [EvQueueConsumer]. split; [reflexivity|].
      split; [rewrite <- app_assoc; reflexivity|]. split; [left; reflexivity|].
      split; [reflexivity | discriminate].
    + eexists _, _, [EvQueueConsumer; EvSleep]. split; [reflexivity|].
      split; [rewrite <- !app_assoc; reflexivity|]. split; [right; reflexivity|].
      split; reflexivity.
    + eexists _, _, [EvQueueConsumer]. split; [reflexivity|].
      split; [rewrite <- app_assoc; reflexivity|]. split; [left; reflexivity|].
      split; reflexivity.
  - eexists _, _, []. split; [reflexivity|]. split; [reflexivity|].
    split; [reflexivity|]. split; reflexivity.
Qed.

(** One [set_progress] call, in closed form. *)
Lemma set_progress_run id f t prog msg w :
  set_progress o id f t prog msg w =
  ((if cancel_seen o w id then Exit else Ret tt),
   after_progress id (progress_info f t prog msg (cancel_seen o w id))
                  (cancel_seen o w id) w).
Proof.
  unfold set_progress, do_cancel, read_db, update_progress, ack_payload,
    after_progress, progress_events, cancel_seen.
  unfold mbind, M_bind, bind, mret, M_ret, ret, next_read, get_world, emit,
    put_tasks, put_PAYLOAD, os_exit.
  cbn -[TaskService.do_cancel progress_info TaskService.update_tasks].
  destruct (TaskService.do_cancel _ id) eqn:Hc;
    cbn -[progress_info TaskService.update_tasks].
  - destruct (PAYLOAD w) eqn:Hp; cbn -[progress_info TaskService.update_tasks];
      rewrite <- ?app_assoc;
      unfold set_trace, set_tasks, set_reads, set_PAYLOAD;
      cbn -[progress_info TaskService.update_tasks]; rewrite ?Hp; reflexivity.
  - rewrite <- !app_assoc. reflexivity.
Qed.
End pipeline.
End ExecutorFacts.

(** ** What the worker keeps *)
Module InvariantFacts.
Import World Executor Spec MonadFacts Invariant TaskServiceMore.

Section keeps.
Variable R : world -> world -> Prop.
Hypothesis R_refl : forall w, R w w.
Hypothesis R_trans : forall w1 w2 w3, R w1 w2 -> R w2 w3 -> R w1 w3.

Lemma keeps_ret {A} (a : A) : keeps R (mret a : M A).
Proof. intros w. apply R_refl. Qed.

Lemma keeps_raise {A} e : keeps R (raise e : M A).
Proof. intros w. apply R_refl. Qed.

Lemma keeps_bind {A B} (m : M A) (f : A -> M B) :
  keeps R m -> (forall a, keeps R (f a)) -> keeps R (m ≫= f).
Proof.
  intros Hm Hf w. specialize (Hm w). unfold mbind, M_bind, bind.
  destruct (m w) as [[a|e|] w1]; cbn [snd] in *; [|exact Hm|exact Hm].
  eapply R_trans; [exact Hm | apply Hf].
Qed.

Lemma keeps_try {A} (m : M A) (h : exn -> M A) :
  keeps R m -> (forall e, keeps R (h e)) -> keeps R (try_except m h).
Proof.
  intros Hm Hh w. specialize (Hm w). unfold try_except.
  destruct (m w) as [[a|e|] w1]; cbn [snd] in *; [exact Hm| |exact Hm].
  eapply R_trans; [exact Hm | apply Hh].
Qed.

Lemma keeps_call {A} (r : result A) : keeps R (call r).
Proof. destruct r; [apply keeps_ret | apply keeps_raise]. Qed.

Lemma keeps_call_unit r : keeps R (call_unit r).
Proof. destruct r; [apply keeps_raise | apply keeps_ret]. Qed.

Lemma keeps_get_world : keeps R get_world.
Proof. intros w. apply R_refl. Qed.

Lemma keeps_for_each {A} (l : list A) (body : A -> M unit) :
  (forall x, keeps R (body x)) -> keeps R (for_each l body).
Proof.
  intros Hb. induction l as [|x l IH]; [apply keeps_ret|].
  cbn [for_each]. apply keeps_bind; [apply Hb | intros _; exact IH].
Qed.

Lemma keeps_map_M {A B} (f : A -> M B) (l : list A) :
  (forall x, keeps R (f x)) -> keeps R (map_M f l).
Proof.
  intros Hf. induction l as [|x l IH]; [apply keeps_ret|].
  cbn [map_M]. apply keeps_bind; [apply Hf | intros y].
  apply keeps_bind; [exact IH | intros ys; apply keeps_ret].
Qed.

Lemma keeps_fold_M {S A} (body : S -> A -> M S) (l : list A) :
  (forall s x, keeps R (body s x)) -> forall s, keeps R (fold_M body l s).
Proof.
  intros Hb. induction l as [|x l IH]; intros s; [apply keeps_ret|].
  cbn [fold_M]. apply keeps_bind; [apply Hb | intros s'; apply IH].
Qed.
End keeps.

(** One step of a proof that a piece of the worker keeps [R]: [leaf] settles
    the primitive steps. *)
Ltac keeps_step refl trans leaf :=
  first
    [ match goal with H : _ |- _ => solve [apply H] end
    | apply (keeps_ret _ refl) | apply (keeps_raise _ refl)
    | apply (keeps_call _ refl) | apply (keeps_call_unit _ refl)
    | apply (keeps_get_world _ refl)
    | apply (keeps_bind _ trans); [|intros]
    | apply (keeps_try _ trans); [|intros]
    | apply (keeps_for_each _ refl trans); intros
    | apply (keeps_map_M _ refl trans); intros
    | apply (keeps_fold_M _ refl trans); intros
    | solve [intros ?; leaf]
    | match goal with
      | |- keeps _ (match ?x with _ => _ end) => destruct x
      end ].

Lemma table_extends_refl w : table_extends w w.
Proof. apply tasks_extend_refl. Qed.

Lemma table_extends_trans w1 w2 w3 :
  table_extends w1 w2 -> table_extends w2 w3 -> table_extends w1 w3.
Proof. apply tasks_extend_trans. Qed.

Ltac table_leaf := unfold table_extends; cbn; apply tasks_extend_refl.
Ltac table_auto :=
  repeat keeps_step table_extends_refl table_extends_trans table_leaf.

Section table.
Variable o : oracle.

Lemma table_update_progress id i : keeps table_extends (update_progress o id i).
Proof.
  intros w. unfold update_progress, mbind, M_bind, bind, get_world, put_tasks, emit.
  unfold table_extends. cbn.
  apply update_tasks_extends.
Qed.

Lemma table_get_tasks id : keeps table_extends (get_tasks o id).
Proof.
  intros w. unfold get_tasks, mbind, M_bind, bind, next_read, get_world, emit, put_tasks.
  cbn. destruct (TaskService.get_tasks _ _ id) as [rows db'] eqn:Hg.
  unfold table_extends. cbn.
  match type of Hg with
  | TaskService.get_tasks ?r ?db id = _ =>
      pose proof (claim_extends r db id) as He; rewrite Hg in He; exact He
  end.
Qed.

Lemma table_do_cancel id : keeps table_extends (do_cancel o id).
Proof. unfold do_cancel, read_db, next_read, emit. table_auto. Qed.

Lemma table_set_progress id f t prog msg :
  keeps table_extends (set_progress o id f t prog msg).
Proof.
  unfold set_progress, ack_payload, os_exit, emit, put_PAYLOAD.
  pose proof table_do_cancel. pose proof table_update_progress. table_auto.
Qed.

Lemma table_get_str d k : keeps table_extends (get_str d k).
Proof. unfold get_str. table_auto. Qed.

Lemma table_get_vec d k : keeps table_extends (get_vec d k).
Proof. unfold get_vec. table_auto. Qed.

Lemma table_build row : keeps table_extends (build o row).
Proof.
  unfold build, stamp, add_keywords, add_questions, run_callbacks, emit, next_now.
  pose proof table_set_progress. pose proof table_get_str. table_auto.
Qed.

Lemma table_embedding docs cfg id f t :
  keeps table_extends (embedding o docs cfg (set_progress o id f t)).
Proof.
  unfold embedding, encode_batches, encode_step, emit.
  pose proof table_set_progress. pose proof table_get_str. table_auto.
Qed.

Lemma table_run_raptor row id f t :
  keeps table_extends (run_raptor o row (set_progress o id f t)).
Proof.
  unfold run_raptor, raptor_chunk, run_callbacks, emit, next_now.
  pose proof table_set_progress. pose proof table_get_str. pose proof table_get_vec.
  table_auto.
Qed.

Lemma table_index_chunks r id f t cks tk :
  keeps table_extends (index_chunks o r (set_progress o id f t) cks tk).
Proof.
  unfold index_chunks, init_kb, bulk, deleteByQuery, emit, put_es, next_bulk.
  pose proof table_set_progress. pose proof table_get_str. pose proof table_do_cancel.
  table_auto.
Qed.

Lemma table_process r ty : keeps table_extends (process o r ty).
Proof.
  unfold process, emit.
  pose proof table_set_progress. pose proof table_build.
  pose proof table_embedding. pose proof table_run_raptor.
  pose proof table_index_chunks. table_auto.
Qed.

Lemma table_collect : keeps table_extends (collect o).
Proof.
  unfold collect, claim_message, fetch_rows, emit, put_PAYLOAD.
  pose proof table_do_cancel. pose proof table_get_tasks. table_auto.
Qed.

Lemma table_cycle : keeps table_extends (cycle o).
Proof.
  unfold cycle, main, ack_payload, emit, put_PAYLOAD.
  pose proof table_collect. pose proof table_process. table_auto.
Qed.
End table.

(** X9: Whatever the queue, the store, the models, the chunker and the index
    answer, one cycle of the worker deletes no task and creates none, and
    leaves every task with its document, its page range, a retry-count that
    has not decreased and a message log that was only appended to. *)
Theorem cycle_only_extends_tasks :
  forall o w id,
    match tasks w !! id with
    | Some t =>
        exists t', tasks (cycle o w).2 !! id = Some t' /\
          DB.doc_id t' = DB.doc_id t /\
          DB.from_page t' = DB.from_page t /\ DB.to_page t' = DB.to_page t /\
          (DB.retry_count t <= DB.retry_count t')%Z /\
          exists suffix, DB.progress_msg t' = DB.progress_msg t +:+ suffix
    | None => tasks (cycle o w).2 !! id = None
    end.
Proof. intros o w id. exact (table_cycle o w id). Qed.
End InvariantFacts.

(** ** The queue consumer *)
Module ConsumerClaims.
Import World Executor Spec MonadFacts ExecutorFacts.

(** C6: in every poll cycle the first step is the look-up of a message claimed
    earlier and never acknowledged; a new message is drawn from the queue only
    when that look-up finds none, and right after it.  Every step of the
    pipeline comes before the acknowledgement, and none of them is one.  The
    message held after the claim is acknowledged exactly once, at the very
    end: when the cycle returns (success or controlled failure) the trace
    ends with the acknowledgement, when the process exits (cancellation) it
    ends with the acknowledgement followed by the exit, and in both cases no
    message is held any more; when an exception escapes the pipeline nothing
    is acknowledged and the message stays held.  When no message is held
    after the claim, nothing is processed and nothing is acknowledged. *)
Theorem C6_unacked_first_ack_last :
  forall o w,
    exists claim pre tail,
      trace (cycle o w).2 = trace w ++ EvGetUnacked :: claim ++ pre ++ tail /\
      (match get_unacked_for o with
       | Ok None => (claim = [EvQueueConsumer]) \/ (claim = [EvQueueConsumer; EvSleep])
       | _ => (claim = [])
       end) /\
      Forall pipeline_event pre /\
      match (cycle o w).1 with
      | Ret _ =>
          tail = match held_after_claim o w with Some _ => [EvAck] | None => [] end /\
          PAYLOAD (cycle o w).2 = None
      | Exit =>
          tail = match held_after_claim o w with
                 | Some _ => [EvAck; EvExit]
                 | None => [EvExit]
                 end /\
          PAYLOAD (cycle o w).2 = None
      | Raise _ =>
          tail = [] /\ PAYLOAD (cycle o w).2 = held_after_claim o w
      end /\
      (held_after_claim o w = None -> (cycle o w).1 = Ret tt /\ pre = []).
Proof.
  intros o w.
  destruct (claim_message_spec o w)
    as (claimed & w1 & claim & Hc & Ht1 & Hclaim & Hheld & Hnone).
  set (rest := fetch_rows o claimed ≫=
                 (fun rows => for_each rows (fun rt => process o rt.1 rt.2))).
  assert (Hrest : emits pipeline_event rest).
  { apply emits_bind; [apply emits_fetch_rows | intros rows].
    apply emits_for_each. intros rt. apply emits_process. }
  assert (Hcycle : cycle o w = (rest ≫= (fun _ => ack_payload)) w1).
  { unfold cycle, main, collect, rest, mbind, M_bind, bind. rewrite Hc. reflexivity. }
  destruct (held_after_claim o w) as [p|] eqn:Hh.
  - rewrite Hcycle. destruct (Hrest w1) as (evs & Ht2 & Hr).
    destruct (rest w1) as [[u| e |] w2] eqn:Hrw; cbn [fst snd] in *.
    + destruct Hr as [Hq Hp]. rewrite (bind_ret _ _ _ _ _ Hrw).
      unfold ack_payload, mbind, M_bind, bind, get_world, emit, put_PAYLOAD.
      rewrite Hp, Hheld. cbn.
      exists claim, evs, [EvAck]. rewrite Ht2, Ht1.
      split; [rewrite <- !app_assoc; reflexivity|].
      split; [exact Hclaim|]. split; [exact Hq|].
      split; [split; reflexivity | discriminate].
    + destruct Hr as [Hq Hp]. rewrite (bind_raise _ _ _ _ _ Hrw). cbn [fst snd].
      exists claim, evs, []. rewrite Ht2, Ht1.
      split; [rewrite app_nil_r, <- !app_assoc; reflexivity|].
      split; [exact Hclaim|]. split; [exact Hq|].
      split; [split; [reflexivity | congruence] | discriminate].
    + destruct Hr as (pre & -> & Hpre & Hp). rewrite (bind_exit _ _ _ _ Hrw).
      cbn [fst snd]. rewrite Hheld in Ht2. cbn [exit_events] in Ht2.
      exists claim, pre, [EvAck; EvExit]. rewrite Ht2, Ht1.
      split; [rewrite <- !app_assoc; reflexivity|].
      split; [exact Hclaim|]. split; [exact Hpre|].
      split; [split; [reflexivity | exact Hp] | discriminate].
  - specialize (Hnone eq_refl). subst claimed.
    assert (Hrun : cycle o w = (Ret tt, w1)).
    { rewrite Hcycle. unfold rest, fetch_rows, ack_payload, mbind, M_bind, bind,
        get_world. cbn. rewrite Hheld. reflexivity. }
    rewrite Hrun. cbn [fst snd].
    exists claim, [], []. rewrite Ht1.
    split; [rewrite !app_nil_r; reflexivity|].
    split; [exact Hclaim|]. split; [constructor|].
    split; [split; [reflexivity | exact Hheld] | split; reflexivity].
Qed.
End ConsumerClaims.

(** ** Size ceiling, empty builds and indexing errors *)
Module StageFacts.
Import World Executor Spec MonadFacts ExecutorFacts.
Local Open Scope Z_scope.

Ltac not_stage := repeat (constructor; [cbn; tauto|]); try constructor.

Lemma build_oversize o row w :
  DOC_MAXIMUM_SIZE o < TaskService.size row ->
  build o row w =
  ((if cancel_seen o w (TaskService.id row) then Exit else Ret (Some [])),
   after_progress (TaskService.id row)
     (progress_info 0 (-1) (Some (-1)%float) (size_limit_msg o)
                    (cancel_seen o w (TaskService.id row)))
     (cancel_seen o w (TaskService.id row)) w).
Proof.
  intros Hsize. unfold build.
  destruct (Z.ltb_spec (DOC_MAXIMUM_SIZE o) (TaskService.size row)); [|lia].
  unfold mbind, M_bind, bind. rewrite set_progress_run.
  destruct (cancel_seen o w (TaskService.id row)); reflexivity.
Qed.

Lemma progress_events_not_stage id i c held :
  Forall (fun e => ~ stage_event e) (progress_events id i c held).
Proof. unfold progress_events. destruct c, held; not_stage. Qed.

(** A task table after a progress update that carries a message and a value. *)
Lemma update_tasks_lookup ts id i p t :
  ts !! id = Some t ->
  TaskService.info_progress i = Some p ->
  String.eqb (TaskService.info_progress_msg i) "" = false ->
  exists t',
    TaskService.update_tasks ts id i !! id = Some t' /\
    DB.progress t' = p /\
    DB.progress_msg t' =
      DB.progress_msg t +:+ TaskService.NL +:+ TaskService.info_progress_msg i.
Proof.
  intros Ht Hp Hm. unfold TaskService.update_tasks. rewrite Hp, Hm.
  rewrite !lookup_alter_eq, Ht. cbn. eexists. split; [reflexivity|]. split; reflexivity.
Qed.

(** A non-raptor task above the size ceiling, once its model is bound. *)
Lemma process_oversize o r ty w :
  from_option (String.eqb "raptor") false ty = false ->
  LLMBundle o EMBEDDING (TaskService.tenant_id r) (TaskService.embd_id r) = None ->
  DOC_MAXIMUM_SIZE o < TaskService.size r ->
  let id := TaskService.id r in
  let c1 := cancel_seen o (bound r w) id in
  let i1 := progress_info 0 (-1) (Some (-1)%float) (size_limit_msg o) c1 in
  let w1 := after_progress id i1 c1 (bound r w) in
  let c2 := cancel_seen o w1 id in
  let i2 := progress_info (TaskService.from_page r) (TaskService.to_page r)
                          (Some 1%float) "No chunk! Done!" c2 in
  process o r ty w =
  if c1 then (Exit, w1)
  else ((if c2 then Exit else Ret tt), after_progress id i2 c2 w1).
Proof.
  intros Hty Hllm Hsize. cbv zeta.
  unfold process, try_except, mbind, M_bind, bind, emit, call_unit.
  rewrite Hllm, Hty. cbn [mret M_ret ret negb].
  fold (bound r w). rewrite (build_oversize o r (bound r w) Hsize).
  destruct (cancel_seen o (bound r w) (TaskService.id r)); [reflexivity|].
  rewrite set_progress_run. reflexivity.
Qed.

Lemma process_unbound o r ty w e :
  LLMBundle o EMBEDDING (TaskService.tenant_id r) (TaskService.embd_id r) = Some e ->
  let id := TaskService.id r in
  let c := cancel_seen o (bound r w) id in
  let i := progress_info (TaskService.from_page r) (TaskService.to_page r)
                         (Some (-1)%float) (exn_str e) c in
  process o r ty w = ((if c then Exit else Ret tt), after_progress id i c (bound r w)).
Proof.
  intros Hllm. cbv zeta.
  unfold process, try_except, mbind, M_bind, bind, emit, call_unit.
  rewrite Hllm. cbn [mret M_ret ret raise]. fold (bound r w).
  rewrite set_progress_run.
  destruct (cancel_seen o (bound r w) (TaskService.id r)); reflexivity.
Qed.

(** A non-raptor task whose [build] returns the empty list. *)
Lemma process_empty_build o r ty w w1 :
  from_option (String.eqb "raptor") false ty = false ->
  LLMBundle o EMBEDDING (TaskService.tenant_id r) (TaskService.embd_id r) = None ->
  build o r (bound r w) = (Ret (Some []), w1) ->
  let id := TaskService.id r in
  let c := cancel_seen o w1 id in
  let i := progress_info (TaskService.from_page r) (TaskService.to_page r)
                         (Some 1%float) "No chunk! Done!" c in
  process o r ty w = ((if c then Exit else Ret tt), after_progress id i c w1).
Proof.
  intros Hty Hllm Hb. cbv zeta.
  unfold process, try_except, mbind, M_bind, bind, emit, call_unit.
  rewrite Hllm, Hty. cbn [mret M_ret ret negb].
  fold (bound r w). rewrite Hb. rewrite set_progress_run. reflexivity.
Qed.
End StageFacts.

Module StageClaims.
Import World Executor Spec MonadFacts ExecutorFacts StageFacts Examples.
Local Open Scope Z_scope.

(** C8: when the document size exceeds [DOC_MAXIMUM_SIZE], [build] does
    nothing but one progress update: progress -1 with the size-limit message
    (and the worker leaves if a cancellation is seen); no storage read and no
    chunker call happen, and for a non-raptor task [main] runs no later stage
    either. *)
Theorem C8_oversize_rejected_before_fetch :
  forall o row w,
    DOC_MAXIMUM_SIZE o < TaskService.size row ->
    exists i c,
      (build o row w).1 = (if c : bool then Exit else Ret (Some [])) /\
      trace (build o row w).2
      = trace w ++ progress_events (TaskService.id row) i c (PAYLOAD w) /\
      Forall (fun e => ~ stage_event e)
             (progress_events (TaskService.id row) i c (PAYLOAD w)) /\
      TaskService.info_progress i = Some (-1)%float /\
      TaskService.info_progress_msg i
      = (if c then "[ERROR]" +:+ size_limit_msg o +:+ " [Canceled]"
         else "[ERROR]" +:+ size_limit_msg o) /\
      (forall t, tasks w !! TaskService.id row = Some t ->
         exists t',
           tasks (build o row w).2 !! TaskService.id row = Some t' /\
           DB.progress t' = (-1)%float /\
           DB.progress_msg t'
           = DB.progress_msg t +:+ TaskService.NL +:+ TaskService.info_progress_msg i) /\
      (forall ty,
         from_option (String.eqb "raptor") false ty = false ->
         exists evs,
           trace (process o row ty w).2 = trace w ++ evs /\
           Forall (fun e => ~ stage_event e) evs).
Proof.
  intros o row w Hsize.
  exists (progress_info 0 (-1) (Some (-1)%float) (size_limit_msg o)
                        (cancel_seen o w (TaskService.id row))),
         (cancel_seen o w (TaskService.id row)).
  rewrite (build_oversize o row w Hsize). cbn [fst snd].
  split; [reflexivity|]. split; [reflexivity|].
  split; [apply progress_events_not_stage|].
  split; [destruct (cancel_seen o w (TaskService.id row)); reflexivity|].
  split; [destruct (cancel_seen o w (TaskService.id row)); reflexivity|].
  split.
  - intros t Ht. apply update_tasks_lookup; [exact Ht | |];
      destruct (cancel_seen o w (TaskService.id row)); reflexivity.
  - intros ty Hty.
    destruct (LLMBundle o EMBEDDING (TaskService.tenant_id row)
                        (TaskService.embd_id row)) as [e|] eqn:Hllm.
    + rewrite (process_unbound o row ty w e Hllm). cbn [snd after_progress trace bound set_trace].
      eexists. split; [rewrite <- app_assoc; reflexivity|].
      apply Forall_app. split; [not_stage | apply progress_events_not_stage].
    + rewrite (process_oversize o row ty w Hty Hllm Hsize).
      destruct (cancel_seen o (bound row w) (TaskService.id row)).
      * cbn [snd after_progress trace bound set_trace].
        eexists. split; [rewrite <- app_assoc; reflexivity|].
        apply Forall_app. split; [not_stage | apply progress_events_not_stage].
      * cbn [snd after_progress trace bound set_trace].
        eexists. split; [rewrite <- !app_assoc; reflexivity|].
        apply Forall_app. split; [not_stage|].
        apply Forall_app. split; apply progress_events_not_stage.
Qed.

Lemma C8_oversize_rejected_before_fetch_witness :
  exists i c,
    (build oversize_oracle (row_of (200 * MB)) world0).1
    = (if c : bool then Exit else Ret (Some [])) /\
    trace (build oversize_oracle (row_of (200 * MB)) world0).2
    = trace world0 ++ progress_events "t1" i c (PAYLOAD world0) /\
    Forall (fun e => ~ stage_event e) (progress_events "t1" i c (PAYLOAD world0)) /\
    TaskService.info_progress i = Some (-1)%float /\
    TaskService.info_progress_msg i
    = (if c then "[ERROR]" +:+ size_limit_msg oversize_oracle +:+ " [Canceled]"
       else "[ERROR]" +:+ size_limit_msg oversize_oracle) /\
    (forall t, tasks world0 !! "t1" = Some t ->
       exists t',
         tasks (build oversize_oracle (row_of (200 * MB)) world0).2 !! "t1" = Some t' /\
         DB.progress t' = (-1)%float /\
         DB.progress_msg t'
         = DB.progress_msg t +:+ TaskService.NL +:+ TaskService.info_progress_msg i) /\
    (forall ty,
       from_option (String.eqb "raptor") false ty = false ->
       exists evs,
         trace (process oversize_oracle (row_of (200 * MB)) ty world0).2
         = trace world0 ++ evs /\
         Forall (fun e => ~ stage_event e) evs).
Proof.
  apply (C8_oversize_rejected_before_fetch oversize_oracle (row_of (200 * MB)) world0).
  vm_compute. reflexivity.
Defined.

(** C10, as stated, fails when a cancellation is seen by the progress update
    of [main]: the task below is rejected for its size, [build] returns the
    empty list, and the update that would complete it finds the document
    cancelled: the progress stored is -1, the message is acknowledged and the
    worker exits. *)
Lemma C10_cancellation_overrides_completion :
  let o := oversize_cancelled_late in
  let w := (collect o world0).2 in
  let r := row_of (200 * MB) in
  (collect o world0).1 = Ret [(r, None)] /\
  (build o r (bound r w)).1 = Ret (Some []) /\
  (process o r None w).1 = Exit /\
  DB.progress <$> tasks (process o r None w).2 !! "t1" = Some (-1)%float /\
  DB.progress <$> tasks (cycle o world0).2 !! "t1" = Some (-1)%float.
Proof. vm_compute. repeat split; reflexivity. Qed.

(** C10 (amended): for a non-raptor task whose [build] returns the empty
    list, [main] issues one progress update with 1.0 and "No chunk! Done!"
    (prefixed by the page range when [to_page > 0]) and touches neither the
    index nor any later stage; when no cancellation is seen by that update the
    stored progress is 1.0, when one is seen it is -1 and the worker exits.  In
    particular a task rejected for its size, with no cancellation seen, is set
    to -1 by [build] and then to 1.0 by [main]. *)
Theorem C10_empty_build_ends_completed :
  (forall o r ty w w1,
      from_option (String.eqb "raptor") false ty = false ->
      LLMBundle o EMBEDDING (TaskService.tenant_id r) (TaskService.embd_id r) = None ->
      build o r (bound r w) = (Ret (Some []), w1) ->
      exists i c,
        (process o r ty w).1 = (if c : bool then Exit else Ret tt) /\
        trace (process o r ty w).2
        = trace w1 ++ progress_events (TaskService.id r) i c (PAYLOAD w1) /\
        es (process o r ty w).2 = es w1 /\
        TaskService.info_progress i = Some (if c then (-1)%float else 1%float) /\
        (c = false ->
         TaskService.info_progress_msg i
         = (if 0 <? TaskService.to_page r
            then page_prefix (TaskService.from_page r) (TaskService.to_page r)
                 +:+ "No chunk! Done!"
            else "No chunk! Done!") /\
         forall t, tasks w1 !! TaskService.id r = Some t ->
           exists t', tasks (process o r ty w).2 !! TaskService.id r = Some t' /\
                      DB.progress t' = 1%float)) /\
  (forall o r ty w t,
      from_option (String.eqb "raptor") false ty = false ->
      LLMBundle o EMBEDDING (TaskService.tenant_id r) (TaskService.embd_id r) = None ->
      DOC_MAXIMUM_SIZE o < TaskService.size r ->
      tasks w !! TaskService.id r = Some t ->
      let id := TaskService.id r in
      let i1 := progress_info 0 (-1) (Some (-1)%float) (size_limit_msg o) false in
      let w1 := after_progress id i1 false (bound r w) in
      let i2 := progress_info (TaskService.from_page r) (TaskService.to_page r)
                              (Some 1%float) "No chunk! Done!" false in
      cancel_seen o (bound r w) id = false ->
      cancel_seen o w1 id = false ->
      (process o r ty w).1 = Ret tt /\
      trace (process o r ty w).2
      = trace w ++ [EvLLMBundle EMBEDDING (TaskService.embd_id r);
                    EvDoCancel id false; EvUpdateProgress id i1;
                    EvDoCancel id false; EvUpdateProgress id i2] /\
      TaskService.info_progress i1 = Some (-1)%float /\
      TaskService.info_progress i2 = Some 1%float /\
      exists t', tasks (process o r ty w).2 !! id = Some t' /\
                 DB.progress t' = 1%float).
Proof.
  split.
  - intros o r ty w w1 Hty Hllm Hb.
    exists (progress_info (TaskService.from_page r) (TaskService.to_page r)
                          (Some 1%float) "No chunk! Done!"
                          (cancel_seen o w1 (TaskService.id r))),
           (cancel_seen o w1 (TaskService.id r)).
    rewrite (process_empty_build o r ty w w1 Hty Hllm Hb). cbn [fst snd].
    split; [reflexivity|]. split; [reflexivity|]. split; [reflexivity|].
    split; [destruct (cancel_seen o w1 (TaskService.id r)); reflexivity|].
    intros ->. split.
    + unfold progress_info. cbn [TaskService.info_progress_msg is_neg].
      replace (1 <? 0)%float with false by reflexivity.
      destruct (0 <? TaskService.to_page r); reflexivity.
    + intros t Ht. cbn [after_progress tasks].
      destruct (update_tasks_lookup (tasks w1) (TaskService.id r)
                  (progress_info (TaskService.from_page r) (TaskService.to_page r)
                                 (Some 1%float) "No chunk! Done!" false)
                  1%float t Ht) as (t' & Ht' & Hp & _).
      * reflexivity.
      * unfold progress_info. cbn [TaskService.info_progress_msg is_neg].
        replace (1 <? 0)%float with false by reflexivity.
        destruct (0 <? TaskService.to_page r); reflexivity.
      * eauto.
  - intros o r ty w t Hty Hllm Hsize Ht id i1 w1 i2 Hc1 Hc2.
    rewrite (process_oversize o r ty w Hty Hllm Hsize).
    fold id. rewrite Hc1. fold i1. fold w1. rewrite Hc2. fold i2. cbn [fst snd].
    split; [reflexivity|].
    split; [subst w1; cbn [after_progress trace bound set_trace progress_events];
            rewrite <- !app_assoc; reflexivity|].
    split; [reflexivity|]. split; [reflexivity|].
    cbn [after_progress tasks].
    assert (Ht1 : exists t1, tasks w1 !! id = Some t1).
    { subst w1. cbn [after_progress tasks bound set_trace].
      destruct (update_tasks_lookup (tasks w) id i1 (-1)%float t Ht) as (t1 & Ht1 & _);
        [reflexivity | reflexivity | eauto]. }
    destruct Ht1 as (t1 & Ht1).
    destruct (update_tasks_lookup (tasks w1) id i2 1%float t1 Ht1) as (t' & Ht' & Hp & _).
    + reflexivity.
    + subst i2. unfold progress_info. cbn [TaskService.info_progress_msg is_neg].
      replace (1 <? 0)%float with false by reflexivity.
      destruct (0 <? TaskService.to_page r); reflexivity.
    + eauto.
Qed.

Lemma C10_empty_build_ends_completed_witness :
  let o := oversize_oracle in
  let r := row_of (200 * MB) in
  let w := (collect o world0).2 in
  (process o r None w).1 = Ret tt /\
  (exists i c,
      (process o r None w).1 = (if c : bool then Exit else Ret tt) /\
      trace (process o r None w).2
      = trace (build o r (bound r w)).2
        ++ progress_events "t1" i c (PAYLOAD (build o r (bound r w)).2) /\
      TaskService.info_progress i = Some (if c then (-1)%float else 1%float)) /\
  exists t', tasks (process o r None w).2 !! "t1" = Some t' /\ DB.progress t' = 1%float.
Proof.
  intros o r w.
  destruct (proj2 C10_empty_build_ends_completed o r None w
              (TaskService.update_claim TaskService.msg_received (0.5 / 10)%float 1
                                        (TaskServiceExamples.task_at 0)))
    as (Hret & _ & _ & _ & Hfinal);
    [reflexivity | reflexivity | vm_compute; reflexivity | vm_compute; reflexivity
    | vm_compute; reflexivity | vm_compute; reflexivity |].
  split; [exact Hret|]. split; [|exact Hfinal].
  destruct (proj1 C10_empty_build_ends_completed o r None w (build o r (bound r w)).2)
    as (i & c & H1 & H2 & _ & H3 & _);
    [reflexivity | reflexivity | vm_compute; reflexivity |].
  exists i, c. auto.
Defined.

(** C3, at the failing input: five chunks are written in two bulk calls; the
    first call reports an error, the second reports none.  The error is lost:
    nothing is deleted from the index, four chunks of the document stay
    queryable and the task ends completed (progress 1.0). *)
Theorem C3_error_in_earlier_batch_is_lost :
  let r := cycle (small_doc_oracle first_batch_fails) world0 in
  r.1 = Ret tt /\
  bulk_answers (trace r.2) = [["md5(c0doc1):version_conflict"]; []] /\
  deleted_docs (trace r.2) = [] /\
  map fst (queryable r.2 "ragflow_tenant1" "doc1")
  = ["md5(c1doc1)"; "md5(c2doc1)"; "md5(c3doc1)"; "md5(c4doc1)"] /\
  DB.progress <$> tasks r.2 !! "t1" = Some 1%float.
Proof. vm_compute. repeat split; reflexivity. Qed.

(** The sibling case: when it is the last bulk call that reports an error, the
    document is deleted from the index and the task fails. *)
Lemma error_in_last_batch_is_compensated :
  let r := cycle (small_doc_oracle last_batch_fails) world0 in
  r.1 = Ret tt /\
  bulk_answers (trace r.2) = [[]; ["md5(c4doc1):version_conflict"]] /\
  deleted_docs (trace r.2) = ["doc1"] /\
  queryable r.2 "ragflow_tenant1" "doc1" = [] /\
  DB.progress <$> tasks r.2 !! "t1" = Some (-1)%float.
Proof. vm_compute. repeat split; reflexivity. Qed.
End StageClaims.

(** ** The embedding stage *)
Module EmbeddingFacts.
Import World Executor Spec MonadFacts.
Local Open Scope Z_scope.

Lemma map_M_pure {A B} (f : A -> M B) (g : A -> B) (l : list A) w :
  (forall x w0, In x l -> f x w0 = (Ret (g x), w0)) ->
  map_M f l w = (Ret (map g l), w).
Proof.
  revert w. induction l as [|x l IH]; intros w Hf; [reflexivity|].
  cbn [map_M map]. unfold mbind, M_bind, bind.
  rewrite Hf by (left; reflexivity).
  rewrite IH by (intros; apply Hf; right; assumption). reflexivity.
Qed.

Lemma get_str_found (d : chunk) k s w :
  d !! k = Some (VStr s) -> get_str d k w = (Ret s, w).
Proof. intros H. unfold get_str. rewrite H. reflexivity. Qed.

Lemma zip_with_maps {A B C D} (f : B -> C -> D) (a : A -> B) (b : A -> C) l :
  zip_with f (map a l) (map b l) = map (fun x => f (a x) (b x)) l.
Proof. induction l as [|x l IH]; [reflexivity|]. cbn. rewrite IH. reflexivity. Qed.

Lemma zip_with_map_r {A B C} (f : A -> B -> C) (b : A -> B) l :
  zip_with f l (map b l) = map (fun x => f x (b x)) l.
Proof. induction l as [|x l IH]; [reflexivity|]. cbn. rewrite IH. reflexivity. Qed.

Lemma len_map {A B} (f : A -> B) l : len (map f l) = len l.
Proof. unfold len. rewrite length_map. reflexivity. Qed.

Lemma len_zero_nil {A} (l : list A) : len l = 0 -> l = [].
Proof. unfold len. destruct l; [reflexivity | cbn; lia]. Qed.

Lemma slice_take_drop {A} (l : list A) i k :
  0 <= i -> 0 <= k ->
  take (Z.to_nat i) l ++ slice l i (i + k) = take (Z.to_nat (i + k)) l.
Proof.
  intros Hi Hk. unfold slice. replace (i + k - i) with k by lia.
  rewrite take_take_drop. f_equal. lia.
Qed.

Section model.
Variable o : oracle.
Variable enc : string -> list float.
Variable cnt : list string -> Z.
Variable dim : nat.
Hypothesis Henc : forall texts, encode o texts = Ok (map enc texts, cnt texts).
Hypothesis Hdim : forall s, length (enc s) = dim.

Variable callback : option float -> string -> M unit.
Hypothesis Hcb : forall p m w0, exists w1, callback p m w0 = (Ret tt, w1).

Lemma rows_uniform (a b : list string) :
  forallb (fun v => forallb (fun u => len u =? len v) (map enc a)) (map enc b) = true.
Proof.
  apply forallb_forall. intros v Hv. apply forallb_forall. intros u Hu.
  apply in_map_iff in Hv as (s & <- & _). apply in_map_iff in Hu as (s' & <- & _).
  unfold len. rewrite !Hdim. apply Z.eqb_refl.
Qed.

Lemma encode_step_run base span texts i tk w :
  0 <= i ->
  exists tk' w',
    encode_step o callback base span texts
                (map enc (take (Z.to_nat i) texts), tk) i w
    = (Ret (map enc (take (Z.to_nat (i + batch_size)) texts), tk'), w').
Proof.
  intros Hi. unfold encode_step, mbind, M_bind, bind, emit, call.
  rewrite Henc. cbn [mret M_ret ret].
  assert (Harr : (if len (map enc (take (Z.to_nat i) texts)) =? 0
                  then mret (map enc (slice texts i (i + batch_size)))
                  else if forallb
                            (fun v => forallb (fun u => len u =? len v)
                                              (map enc (take (Z.to_nat i) texts)))
                            (map enc (slice texts i (i + batch_size)))
                       then mret (map enc (take (Z.to_nat i) texts)
                                  ++ map enc (slice texts i (i + batch_size)))
                       else raise (Exception "ValueError"))
                 = (mret (map enc (take (Z.to_nat (i + batch_size)) texts))
                    : M (list (list float)))).
  { rewrite rows_uniform.
    rewrite <- (slice_take_drop texts i batch_size Hi) by (unfold batch_size; lia).
    rewrite map_app.
    destruct (Z.eqb_spec (len (map enc (take (Z.to_nat i) texts))) 0) as [Hz|]; [|reflexivity].
    rewrite (len_zero_nil _ Hz). reflexivity. }
  rewrite Harr. cbn [mret M_ret ret].
  match goal with
  | |- context [callback ?p ?m ?w0] => destruct (Hcb p m w0) as [w1 Hw1]; rewrite Hw1
  end.
  eexists _, _. reflexivity.
Qed.

Lemma encode_fold base span texts fuel :
  forall i tk w,
    0 <= i -> len texts - i <= Z.of_nat fuel ->
    exists tk' w',
      fold_M (encode_step o callback base span texts)
             (Py.range_up fuel i (len texts) batch_size)
             (map enc (take (Z.to_nat i) texts), tk) w
      = (Ret (map enc texts, tk'), w').
Proof.
  induction fuel as [|f IH]; intros i tk w Hi Hfuel.
  - cbn [Py.range_up fold_M]. rewrite take_ge by (unfold len in *; lia).
    eexists _, _. reflexivity.
  - cbn [Py.range_up]. destruct (Z.ltb_spec i (len texts)) as [Hlt|Hge].
    + cbn [fold_M]. unfold mbind, M_bind, bind.
      destruct (encode_step_run base span texts i tk w Hi) as (tk1 & w1 & Hstep).
      rewrite Hstep.
      apply IH; unfold batch_size in *; lia.
    + cbn [fold_M]. rewrite take_ge by (unfold len in *; lia).
      eexists _, _. reflexivity.
Qed.

(** The encoding loop returns one row per text, in order. *)
Lemma encode_batches_run base span texts w :
  exists tk w',
    encode_batches o callback base span texts w = (Ret (map enc texts, tk), w').
Proof.
  unfold encode_batches, Py.range.
  replace (batch_size =? 0) with false by reflexivity.
  replace (0 <? batch_size) with true by reflexivity.
  cbn [mbind M_bind bind mret M_ret ret]. unfold mbind, M_bind, bind.
  cbn [mret M_ret ret].
  apply (encode_fold base span texts (Z.to_nat (len texts - 0)) 0 0 w); lia.
Qed.

Lemma rows_zip_uniform (a b : list string) :
  forallb (fun p : list float * list float => (length p.1 =? length p.2)%nat)
          (zip (map enc a) (map enc b)) = true.
Proof.
  revert b. induction a as [|x a IH]; intros [|y b]; try reflexivity.
  cbn. rewrite !Hdim, Nat.eqb_refl. apply IH.
Qed.

Lemma same_shape_encoded (a b : list string) :
  length a = length b -> same_shape (map enc a) (map enc b) = true.
Proof.
  intros Hl. unfold same_shape. rewrite !length_map, Hl, Nat.eqb_refl.
  apply rows_zip_uniform.
Qed.
End model.
End EmbeddingFacts.

Module EmbeddingClaims.
Import World Executor Spec MonadFacts EmbeddingFacts Examples.
Local Open Scope Z_scope.

Lemma title_text_run o (d : chunk) w :
  (has_title d = true -> exists s, d !! "title_tks" = Some (VStr s)) ->
  has_title d = true ->
  (s ← get_str d "title_tks"; mret (rmSpace o s)) w
  = (Ret (rmSpace o (str_at d "title_tks")), w).
Proof.
  intros H Ht. destruct (H Ht) as [s Hs].
  unfold mbind, M_bind, bind, str_at. rewrite (get_str_found d _ s w Hs), Hs. reflexivity.
Qed.

Lemma content_text_run o (d : chunk) w :
  (exists s, d !! "content_with_weight" = Some (VStr s)) ->
  (s ← get_str d "content_with_weight"; mret (strip_table_tags o s)) w
  = (Ret (strip_table_tags o (str_at d "content_with_weight")), w).
Proof.
  intros [s Hs].
  unfold mbind, M_bind, bind, str_at. rewrite (get_str_found d _ s w Hs), Hs. reflexivity.
Qed.

Lemma filter_all_or_fewer {A} (f : A -> bool) (l : list A) :
  (forallb f l = true /\ List.filter f l = l) \/
  (forallb f l = false /\ length (List.filter f l) <> length l).
Proof.
  destruct (forallb f l) eqn:Hall.
  - left. split; [reflexivity | apply forallb_filter_id; exact Hall].
  - right. split; [reflexivity|]. intros Hlen.
    apply filter_length_forallb in Hlen. congruence.
Qed.

(** The embedding stage on a batch whose model embeds each text on its own. *)
Lemma embedding_run o enc cnt dim docs cfg callback w :
  (forall texts, encode o texts = Ok (map enc texts, cnt texts)) ->
  (forall s, length (enc s) = dim) ->
  (forall p m w0, exists w1, callback p m w0 = (Ret tt, w1)) ->
  Forall (fun d : chunk => exists s, d !! "content_with_weight" = Some (VStr s)) docs ->
  Forall (fun d : chunk => has_title d = true ->
                           exists s, d !! "title_tks" = Some (VStr s)) docs ->
  exists tk w',
    embedding o docs cfg callback w
    = (Ret (map (fun d =>
                   let v := stored_vector o enc
                              (default 0.1%float (DB.filename_embd_weight cfg))
                              (forallb has_title docs) d in
                   <[vec_field v := VVec v]> d) docs, tk), w').
Proof.
  intros Henc Hdim Hcb Hcontent Htitle.
  unfold embedding.
  erewrite bind_ret; cycle 1.
  { apply (map_M_pure _ (fun d => rmSpace o (str_at d "title_tks"))).
    intros d w0 Hin. apply filter_In in Hin as [Hin Ht].
    apply title_text_run; [|exact Ht].
    rewrite Forall_forall in Htitle. apply Htitle, list_elem_of_In, Hin. }
  erewrite bind_ret; cycle 1.
  { apply (map_M_pure _ (fun d => strip_table_tags o (str_at d "content_with_weight"))).
    intros d w0 Hin. apply content_text_run.
    rewrite Forall_forall in Hcontent. apply Hcontent, list_elem_of_In, Hin. }
  rewrite !len_map.
  destruct (filter_all_or_fewer has_title docs) as [[Hall Hf] | [Hall Hf]].
  - fold has_title. change (List.filter (fun d : chunk => has_title d) docs)
      with (List.filter has_title docs). rewrite Hf, Z.eqb_refl, Hall.
    destruct (encode_batches_run o enc cnt dim Henc Hdim callback Hcb 0.6%float 0.1%float
                (map (fun d => rmSpace o (str_at d "title_tks")) docs) w)
      as (tk1 & w1 & H1).
    unfold mbind at 1, M_bind at 1, bind at 1.
    unfold mbind at 1, M_bind at 1, bind at 1. rewrite H1. cbn [mret M_ret ret].
    destruct (encode_batches_run o enc cnt dim Henc Hdim callback Hcb 0.7%float 0.2%float
                (map (fun d => strip_table_tags o (str_at d "content_with_weight")) docs) w1)
      as (tk2 & w2 & H2).
    unfold mbind at 1, M_bind at 1, bind at 1. rewrite H2.
    rewrite !len_map, Z.eqb_refl.
    rewrite (same_shape_encoded enc dim Hdim) by (rewrite !length_map; reflexivity).
    unfold mbind, M_bind, bind. cbn [mret M_ret ret].
    rewrite !map_map, zip_with_maps, len_map, Z.eqb_refl. cbn [negb].
    rewrite zip_with_map_r. eexists _, _. reflexivity.
  - fold has_title. change (List.filter (fun d : chunk => has_title d) docs)
      with (List.filter has_title docs). rewrite Hall.
    assert (Hne : (len (List.filter has_title docs) =? len docs) = false).
    { apply Z.eqb_neq. unfold len. lia. }
    rewrite Hne.
    unfold mbind at 1, M_bind at 1, bind at 1. cbn [mret M_ret ret].
    destruct (encode_batches_run o enc cnt dim Henc Hdim callback Hcb 0.7%float 0.2%float
                (map (fun d => strip_table_tags o (str_at d "content_with_weight")) docs) w)
      as (tk2 & w2 & H2).
    unfold mbind at 1, M_bind at 1, bind at 1. rewrite H2.
    rewrite !len_map, Hne.
    unfold mbind, M_bind, bind. cbn [mret M_ret ret].
    rewrite !len_map, Z.eqb_refl. cbn [negb].
    rewrite map_map, zip_with_map_r. eexists _, _. reflexivity.
Qed.

(** C4: when the model embeds each text on its own (one vector per text, of
    one dimension), the chunks have their content and titles are strings, and
    the progress callback returns, the embedding stage returns the chunks in
    order, each with its vector stored under [q_<dim>_vec]: the weighted sum
    [w * title_vector + (1 - w) * content_vector] when every chunk has a
    title, the content vector alone otherwise; [w] is
    [filename_embd_weight], 0.1 when absent.  With w = 0.1, the title vector
    [1, 0] and the content vector [0, 1] give [0.1, 0.9], in binary64. *)
Theorem C4_embedding_stores_weighted_sum :
  (forall o enc cnt dim docs cfg callback w,
      (forall texts, encode o texts = Ok (map enc texts, cnt texts)) ->
      (forall s, length (enc s) = dim) ->
      (forall p m w0, exists w1, callback p m w0 = (Ret tt, w1)) ->
      Forall (fun d : chunk => exists s, d !! "content_with_weight" = Some (VStr s)) docs ->
      Forall (fun d : chunk => has_title d = true ->
                               exists s, d !! "title_tks" = Some (VStr s)) docs ->
      exists docs' tk w',
        embedding o docs cfg callback w = (Ret (docs', tk), w') /\
        length docs' = length docs /\
        forall i d, docs !! i = Some d ->
          let title_w := default 0.1%float (DB.filename_embd_weight cfg) in
          let title_vector := enc (rmSpace o (str_at d "title_tks")) in
          let content_vector :=
            enc (strip_table_tags o (str_at d "content_with_weight")) in
          let v := if forallb has_title docs
                   then fuse_row title_w title_vector content_vector
                   else content_vector in
          docs' !! i = Some (<[vec_field v := VVec v]> d)) /\
  fuse_row 0.1%float [1%float; 0%float] [0%float; 1%float] = [0.1%float; 0.9%float] /\
  (exists tk w',
      embedding axis_oracle titled_docs TaskServiceExamples.cfg0 silent world0
      = (Ret (map (fun d => <["q_2_vec" := VVec [0.1%float; 0.9%float]]> d) titled_docs,
              tk), w')).
Proof.
  split; [|split; [vm_compute; reflexivity | eexists _, _; vm_compute; reflexivity]].
  intros o enc cnt dim docs cfg callback w Henc Hdim Hcb Hcontent Htitle.
  destruct (embedding_run o enc cnt dim docs cfg callback w Henc Hdim Hcb Hcontent Htitle)
    as (tk & w' & Hrun).
  eexists _, tk, w'. split; [exact Hrun|]. split; [apply length_map|].
  intros i d Hd. cbv zeta.
  match goal with
  | |- map ?F docs !! i = _ => change (map F docs) with (F <$> docs)
  end.
  rewrite list_lookup_fmap, Hd. reflexivity.
Qed.

Lemma C4_embedding_stores_weighted_sum_witness :
  exists docs' tk w',
    embedding axis_oracle titled_docs TaskServiceExamples.cfg0 silent world0
    = (Ret (docs', tk), w') /\
    length docs' = length titled_docs /\
    forall i d, titled_docs !! i = Some d ->
      let title_w := default 0.1%float (DB.filename_embd_weight TaskServiceExamples.cfg0) in
      let title_vector := axis_vector (rmSpace axis_oracle (str_at d "title_tks")) in
      let content_vector :=
        axis_vector (strip_table_tags axis_oracle (str_at d "content_with_weight")) in
      let v := if forallb has_title titled_docs
               then fuse_row title_w title_vector content_vector
               else content_vector in
      docs' !! i = Some (<[vec_field v := VVec v]> d).
Proof.
  apply (proj1 C4_embedding_stores_weighted_sum axis_oracle axis_vector len 2%nat).
  - intros texts. reflexivity.
  - intros s. unfold axis_vector. destruct (PyStr.startswith "title" s); reflexivity.
  - intros p m w0. exists w0. reflexivity.
  - repeat constructor; eexists; vm_compute; reflexivity.
  - repeat constructor; intros _; eexists; vm_compute; reflexivity.
Defined.
End EmbeddingClaims.

(** ** Chunk identifiers *)
Module ChunkIdFacts.
Import World Executor Spec MonadFacts.
Local Open Scope Z_scope.

Lemma bind_inv {A B} (m : M A) (f : A -> M B) w b w' :
  (m ≫= f) w = (Ret b, w') ->
  exists a w1, m w = (Ret a, w1) /\ f a w1 = (Ret b, w').
Proof.
  unfold mbind, M_bind, bind. destruct (m w) as [[a|e|] w1]; intros H;
    [eauto | discriminate | discriminate].
Qed.

Lemma try_inv {A} (m : M A) (h : exn -> M A) w a w' :
  try_except m h w = (Ret a, w') ->
  m w = (Ret a, w') \/ exists e w1, m w = (Raise e, w1) /\ h e w1 = (Ret a, w').
Proof.
  unfold try_except. destruct (m w) as [[a0|e|] w1]; intros H;
    [left; exact H | right; eauto | discriminate].
Qed.

Lemma map_M_inv {A B} (f : A -> M B) (P : A -> B -> Prop) :
  (forall x w y w', f x w = (Ret y, w') -> P x y) ->
  forall l w ys w', map_M f l w = (Ret ys, w') -> Forall2 P l ys.
Proof.
  intros Hf. induction l as [|x l IH]; intros w ys w' H.
  - injection H as <- _. constructor.
  - cbn [map_M] in H. apply bind_inv in H as (y & w1 & Hy & H).
    apply bind_inv in H as (ys' & w2 & Hys & H). injection H as <- _.
    constructor; [eapply Hf; exact Hy | eapply IH; exact Hys].
Qed.

Lemma get_str_inv (d : chunk) k w s w' :
  get_str d k w = (Ret s, w') -> d !! k = Some (VStr s) /\ w' = w.
Proof.
  unfold get_str. destruct (d !! k) as [[]|]; intros H; try discriminate.
  injection H as <- <-. auto.
Qed.

Section stamping.
Variable o : oracle.
Variable row : TaskService.row.

Lemma stamped_doc_id (ck : chunk) :
  (ck ∪ <["doc_id" := VStr (TaskService.doc_id row)]>
          (<["kb_id" := VStrs [TaskService.kb_id row]]> (∅ : chunk))) !! "doc_id"
  = Some (doc_id_of row ck).
Proof.
  unfold doc_id_of. rewrite lookup_union.
  rewrite lookup_insert_eq. destruct (ck !! "doc_id"); reflexivity.
Qed.

(** The id and the document id of a stamped fragment. *)
Lemma stamp_id ck w d w' :
  stamp o row ck w = (Ret d, w') ->
  d !! "_id" = Some (VStr (hashed_id o row ck)) /\
  d !! "doc_id" = Some (doc_id_of row ck).
Proof.
  unfold stamp. intros H.
  apply bind_inv in H as (content & w1 & Hc & H).
  apply get_str_inv in Hc as [Hc ->].
  apply bind_inv in H as (k1 & w2 & _ & H).
  apply bind_inv in H as (k2 & w3 & _ & H).
  rewrite stamped_doc_id in H. cbn [from_option id] in H.
  assert (Hid : hashed_id o row ck
                = md5_hexdigest o (content +:+ py_str o (doc_id_of row ck))).
  { unfold hashed_id, str_at. rewrite Hc. reflexivity. }
  rewrite <- Hid in H.
  match type of H with
  | (if negb ?b then _ else _) _ = _ => destruct b
  end; cbn [negb] in H.
  - apply bind_inv in H as ([] & w4 & _ & H). injection H as <- _.
    rewrite lookup_delete_ne by discriminate.
    rewrite !lookup_insert_ne by discriminate.
    rewrite lookup_insert_eq. split; [reflexivity|].
    rewrite lookup_delete_ne by discriminate.
    rewrite !lookup_insert_ne by discriminate. apply stamped_doc_id.
  - injection H as <- _.
    rewrite !lookup_insert_ne by discriminate.
    rewrite lookup_insert_eq. split; [reflexivity|].
    rewrite !lookup_insert_ne by discriminate. apply stamped_doc_id.
Qed.

Lemma add_keywords_keeps n (d : chunk) w d' w' k :
  add_keywords o n d w = (Ret d', w') ->
  k <> "important_kwd" -> k <> "important_tks" -> d' !! k = d !! k.
Proof.
  unfold add_keywords. intros H Hk1 Hk2.
  apply bind_inv in H as (content & w1 & _ & H).
  apply bind_inv in H as ([] & w2 & _ & H).
  apply bind_inv in H as (kw & w3 & _ & H). injection H as <- _.
  rewrite !lookup_insert_ne by congruence. reflexivity.
Qed.

Lemma add_questions_keeps n (d : chunk) w d' w' k :
  add_questions o n d w = (Ret d', w') ->
  k <> "content_with_weight" -> k <> "content_ltks" -> k <> "content_sm_ltks" ->
  d' !! k = d !! k.
Proof.
  unfold add_questions. intros H Hk1 Hk2 Hk3.
  apply bind_inv in H as (content & w1 & _ & H).
  apply bind_inv in H as ([] & w2 & _ & H).
  apply bind_inv in H as (qst & w3 & _ & H).
  apply bind_inv in H as (content' & w4 & _ & H).
  apply bind_inv in H as (d1 & w5 & Hd1 & H).
  assert (H1 : d1 !! k = d !! k).
  { destruct (_ !! "content_ltks") in Hd1.
    - apply bind_inv in Hd1 as (s & w6 & _ & Hd1). injection Hd1 as <- _.
      rewrite !lookup_insert_ne by congruence. reflexivity.
    - injection Hd1 as <- _. rewrite !lookup_insert_ne by congruence. reflexivity. }
  destruct (d1 !! "content_sm_ltks").
  - apply bind_inv in H as (s & w6 & _ & H). injection H as <- _.
    rewrite !lookup_insert_ne by congruence. exact H1.
  - injection H as <- _. exact H1.
Qed.

Lemma Forall2_compose {A B C} (P : A -> B -> Prop) (Q : B -> C -> Prop)
    (R : A -> C -> Prop) l1 l2 l3 :
  (forall x y z, P x y -> Q y z -> R x z) ->
  Forall2 P l1 l2 -> Forall2 Q l2 l3 -> Forall2 R l1 l3.
Proof.
  intros HR H12. revert l3. induction H12; intros l3 H23; inversion H23; subst;
    constructor; eauto.
Qed.

Lemma Forall2_same {A} (P : A -> A -> Prop) l :
  (forall x, P x x) -> Forall2 P l l.
Proof. intros HP. induction l; constructor; auto. Qed.

Lemma keywords_same_ids (callback : option float -> string -> M unit) n docs w docs' w' :
  (if negb (n =? 0) then
     callback None "Start to generate keywords for every chunk ...";;
     emit (EvLLMBundle CHAT (TaskService.llm_id row));;
     call_unit (LLMBundle o CHAT (TaskService.tenant_id row) (TaskService.llm_id row));;
     map_M (add_keywords o n) docs
   else mret docs) w = (Ret docs', w') ->
  Forall2 same_ids docs docs'.
Proof.
  destruct (negb (n =? 0)); intros H.
  - apply bind_inv in H as ([] & w1 & _ & H).
    apply bind_inv in H as ([] & w2 & _ & H).
    apply bind_inv in H as ([] & w3 & _ & H).
    eapply map_M_inv; [|exact H].
    intros d w4 d' w5 Hd. split; eapply add_keywords_keeps; eauto; discriminate.
  - injection H as <- _. apply Forall2_same. intros d. split; reflexivity.
Qed.

Lemma questions_same_ids (callback : option float -> string -> M unit) n docs w docs' w' :
  (if negb (n =? 0) then
     callback None "Start to generate questions for every chunk ...";;
     emit (EvLLMBundle CHAT (TaskService.llm_id row));;
     call_unit (LLMBundle o CHAT (TaskService.tenant_id row) (TaskService.llm_id row));;
     map_M (add_questions o n) docs
   else mret docs) w = (Ret docs', w') ->
  Forall2 same_ids docs docs'.
Proof.
  destruct (negb (n =? 0)); intros H.
  - apply bind_inv in H as ([] & w1 & _ & H).
    apply bind_inv in H as ([] & w2 & _ & H).
    apply bind_inv in H as ([] & w3 & _ & H).
    eapply map_M_inv; [|exact H].
    intros d w4 d' w5 Hd. split; eapply add_questions_keeps; eauto; discriminate.
  - injection H as <- _. apply Forall2_same. intros d. split; reflexivity.
Qed.

(** The ids of the chunks a [build] returns. *)
Lemma build_ids w docs w' :
  build o row w = (Ret (Some docs), w') ->
  (DOC_MAXIMUM_SIZE o < TaskService.size row /\ docs = []) \/
  (TaskService.size row <= DOC_MAXIMUM_SIZE o /\
   exists cks,
     fragments o row = Some cks /\
     Forall2 (fun ck d => d !! "_id" = Some (VStr (hashed_id o row ck)) /\
                          d !! "doc_id" = Some (doc_id_of row ck)) cks docs).
Proof.
  unfold build. destruct (Z.ltb_spec (DOC_MAXIMUM_SIZE o) (TaskService.size row)) as [Hlt|Hle];
    intros H.
  - left. split; [exact Hlt|].
    apply bind_inv in H as ([] & w1 & _ & H). injection H as <- _. reflexivity.
  - right. split; [exact Hle|].
    apply bind_inv in H as (chunker & w1 & Hch & H).
    destruct (FACTORY o (PyStr.lower (TaskService.parser_id row))) as [c|] eqn:Hf;
      [|discriminate].
    injection Hch as -> ->.
    apply bind_inv in H as (fetched & w2 & Hfetch & H).
    apply try_inv in Hfetch as [Hfetch | (e & w3 & _ & Hh)]; cycle 1.
    { destruct e; apply bind_inv in Hh as ([] & w4 & _ & Hh);
        injection Hh as <- _; discriminate. }
    apply bind_inv in Hfetch as ([] & w3 & _ & Hfetch).
    apply bind_inv in Hfetch as ([bucket name] & w4 & Haddr & Hfetch).
    destruct (get_storage_address o (TaskService.doc_id row)) as [a|] eqn:Ha;
      [|discriminate].
    injection Haddr as -> _.
    apply bind_inv in Hfetch as ([] & w5 & _ & Hfetch).
    apply bind_inv in Hfetch as (binary & w6 & Hbin & Hfetch).
    destruct (storage_get o bucket name) as [b|] eqn:Hb; [|discriminate].
    injection Hbin as -> _. injection Hfetch as <- _.
    apply bind_inv in H as (chunked & w7 & Hchunk & H).
    apply try_inv in Hchunk as [Hchunk | (e & w8 & _ & Hh)]; cycle 1.
    { apply bind_inv in Hh as ([] & w9 & _ & Hh). injection Hh as <- _. discriminate. }
    apply bind_inv in Hchunk as ([] & w8 & _ & Hchunk).
    destruct (chunker row binary) as [calls r] eqn:Hr.
    apply bind_inv in Hchunk as ([] & w9 & _ & Hchunk).
    apply bind_inv in Hchunk as (cks & w10 & Hcks & Hchunk).
    destruct r as [cks0|]; [|discriminate]. injection Hcks as -> _.
    injection Hchunk as <- _.
    apply bind_inv in H as (docs0 & w11 & Hstamp & H).
    apply bind_inv in H as (docs1 & w12 & Hkw & H).
    apply bind_inv in H as (docs2 & w13 & Hq & H). injection H as <- _.
    exists cks. split.
    + unfold fragments. rewrite Hf, Ha, Hb, Hr. reflexivity.
    + apply keywords_same_ids in Hkw. apply questions_same_ids in Hq.
      assert (H0 : Forall2 (fun ck d => d !! "_id" = Some (VStr (hashed_id o row ck)) /\
                                        d !! "doc_id" = Some (doc_id_of row ck)) cks docs0).
      { eapply map_M_inv; [|exact Hstamp]. intros ck wa d wb Hd.
        eapply stamp_id; exact Hd. }
      assert (H1 : Forall2 (fun ck d => d !! "_id" = Some (VStr (hashed_id o row ck)) /\
                                        d !! "doc_id" = Some (doc_id_of row ck)) cks docs1).
      { eapply Forall2_compose; [|exact H0|exact Hkw].
        intros ck d d' [Ha1 Ha2] [Ha3 Ha4]. split; congruence. }
      eapply Forall2_compose; [|exact H1|exact Hq].
      intros ck d d' [Ha1 Ha2] [Ha3 Ha4]. split; congruence.
Qed.
End stamping.
End ChunkIdFacts.

(** ** The index as the spec describes it *)
Module IndexFacts.
Import World Executor Spec.

Lemma upsert_ids_in idx c :
  In (chunk_id c) (index_ids idx) -> index_ids (upsert idx c) = index_ids idx.
Proof.
  induction idx as [|[k v] idx IH]; intros Hin; [destruct Hin|].
  cbn [upsert]. destruct (String.eqb_spec k (chunk_id c)) as [->|Hne]; [reflexivity|].
  cbn [index_ids map fst] in *. f_equal. apply IH.
  destruct Hin as [Hk|Hin]; [congruence | exact Hin].
Qed.

Lemma upsert_ids_notin idx c :
  ~ In (chunk_id c) (index_ids idx) ->
  index_ids (upsert idx c) = index_ids idx ++ [chunk_id c].
Proof.
  induction idx as [|[k v] idx IH]; intros Hin; [reflexivity|].
  cbn [upsert]. cbn [index_ids map fst] in Hin.
  destruct (String.eqb_spec k (chunk_id c)) as [->|Hne];
    [exfalso; apply Hin; left; reflexivity|].
  cbn [index_ids map fst app] in *. f_equal. apply IH.
  intros Hin'. apply Hin. right. exact Hin'.
Qed.

Lemma upsert_NoDup idx c :
  NoDup (index_ids idx) -> NoDup (index_ids (upsert idx c)).
Proof.
  intros Hnd. destruct (in_dec String.string_dec (chunk_id c) (index_ids idx)) as [Hin|Hin].
  - rewrite upsert_ids_in by exact Hin. exact Hnd.
  - rewrite upsert_ids_notin by exact Hin.
    apply NoDup_app. split; [exact Hnd|]. split.
    + intros x Hx Hx'. apply list_elem_of_In in Hx. apply list_elem_of_In in Hx'.
      destruct Hx' as [<-|[]]. tauto.
    + apply NoDup_singleton.
Qed.

Lemma upsert_has idx c : In (chunk_id c) (index_ids (upsert idx c)).
Proof.
  destruct (in_dec String.string_dec (chunk_id c) (index_ids idx)) as [Hin|Hin].
  - rewrite upsert_ids_in by exact Hin. exact Hin.
  - rewrite upsert_ids_notin by exact Hin. apply in_or_app. right. left. reflexivity.
Qed.

Lemma upsert_keeps idx c k :
  In k (index_ids idx) -> In k (index_ids (upsert idx c)).
Proof.
  intros Hk. destruct (in_dec String.string_dec (chunk_id c) (index_ids idx)) as [Hin|Hin].
  - rewrite upsert_ids_in by exact Hin. exact Hk.
  - rewrite upsert_ids_notin by exact Hin. apply in_or_app. left. exact Hk.
Qed.

Lemma upserts_NoDup docs : forall idx,
  NoDup (index_ids idx) -> NoDup (index_ids (foldl upsert idx docs)).
Proof.
  induction docs as [|d docs IH]; intros idx Hnd; [exact Hnd|].
  cbn [foldl]. apply IH, upsert_NoDup, Hnd.
Qed.

Lemma upserts_keep docs : forall idx k,
  In k (index_ids idx) -> In k (index_ids (foldl upsert idx docs)).
Proof.
  induction docs as [|d docs IH]; intros idx k Hk; [exact Hk|].
  cbn [foldl]. apply IH, upsert_keeps, Hk.
Qed.

Lemma upserts_have docs : forall idx d,
  In d docs -> In (chunk_id d) (index_ids (foldl upsert idx docs)).
Proof.
  induction docs as [|d0 docs IH]; intros idx d Hd; [destruct Hd|].
  cbn [foldl]. destruct Hd as [->|Hd]; [apply upserts_keep, upsert_has | apply IH, Hd].
Qed.

(** Writing chunks whose ids are all in the index adds no entry. *)
Lemma upserts_known docs : forall idx,
  (forall d, In d docs -> In (chunk_id d) (index_ids idx)) ->
  index_ids (foldl upsert idx docs) = index_ids idx.
Proof.
  induction docs as [|d docs IH]; intros idx Hk; [reflexivity|].
  cbn [foldl]. rewrite IH.
  - apply upsert_ids_in, Hk. left. reflexivity.
  - intros d' Hd'. apply upsert_keeps, Hk. right. exact Hd'.
Qed.
End IndexFacts.

Module ChunkIdClaims.
Import World Executor Spec MonadFacts ChunkIdFacts IndexFacts Examples WorkerExamples.
Local Open Scope Z_scope.

Lemma hashed_id_agrees o1 o2 row ck :
  md5_hexdigest o1 = md5_hexdigest o2 -> str_other o1 = str_other o2 ->
  hashed_id o1 row ck = hashed_id o2 row ck.
Proof.
  intros Hm Hs. unfold hashed_id, py_str. rewrite Hm, Hs. reflexivity.
Qed.

Lemma ids_of_stamped o row cks docs :
  Forall2 (fun ck (d : chunk) => d !! "_id" = Some (VStr (hashed_id o row ck)) /\
                                 d !! "doc_id" = Some (doc_id_of row ck)) cks docs ->
  map chunk_id docs = map (hashed_id o row) cks.
Proof.
  induction 1 as [|ck d cks docs [Hid _] _ IH]; [reflexivity|].
  cbn [map]. rewrite IH. unfold chunk_id at 1. rewrite Hid. reflexivity.
Qed.

(** C7, as stated, fails for the chunks [build] returns when questions are
    generated: the id is computed from the fragment the chunker returned, and
    the chunk's content is rewritten afterwards.  With one question per chunk
    the first chunk of the document no longer has the content "c0", its id is
    still the hash of "c0" followed by the document id "doc1", and that is
    not the hash of the chunk's own content followed by the document id. *)
Lemma C7_id_is_not_hash_of_rewritten_content :
  exists d rest,
    built plain_oracle questions_row world0 = d :: rest /\
    str_at d "content_with_weight" <> "c0" /\
    chunk_id d = "md5(c0doc1)" /\
    chunk_id d
    <> md5_hexdigest plain_oracle (str_at d "content_with_weight" +:+ "doc1").
Proof.
  eexists _, _. split; [vm_compute; reflexivity|].
  split; [vm_compute; discriminate|]. split; [vm_compute; reflexivity|].
  vm_compute. discriminate.
Qed.

(** C7 (amended): every chunk [build] returns carries as [_id] the hash of
    the content of the fragment the chunker returned for it (as it was before
    keywords and questions were added), followed by the string of its
    document id: the task's document id when the fragment names none, the
    fragment's own [doc_id] otherwise; nothing else enters the hash.  So two
    runs of [build] on the same fragments of the same document, whatever the
    time, the models' answers or the storage do, return the same ids, with or
    without generated questions; and writing the second run's chunks into an
    index that holds the first run's (bulk upsert) leaves the index ids
    unchanged, without duplicates: one entry per chunk id. *)
Theorem C7_chunk_ids_are_content_hashes :
  (forall o row w docs w',
      build o row w = (Ret (Some docs), w') ->
      TaskService.size row <= DOC_MAXIMUM_SIZE o ->
      exists cks,
        fragments o row = Some cks /\
        Forall2 (fun ck (d : chunk) =>
                   d !! "_id"
                   = Some (VStr (md5_hexdigest o
                                   (str_at ck "content_with_weight"
                                    +:+ py_str o (doc_id_of row ck)))) /\
                   d !! "doc_id" = Some (doc_id_of row ck) /\
                   (ck !! "doc_id" = None ->
                    d !! "_id"
                    = Some (VStr (md5_hexdigest o
                                    (str_at ck "content_with_weight"
                                     +:+ TaskService.doc_id row)))) /\
                   (forall s, ck !! "doc_id" = Some (VStr s) ->
                    d !! "_id"
                    = Some (VStr (md5_hexdigest o
                                    (str_at ck "content_with_weight" +:+ s)))))
                cks docs) /\
  (forall o1 o2 row w1 w2 docs1 docs2 w1' w2',
      build o1 row w1 = (Ret (Some docs1), w1') ->
      build o2 row w2 = (Ret (Some docs2), w2') ->
      md5_hexdigest o1 = md5_hexdigest o2 ->
      str_other o1 = str_other o2 ->
      DOC_MAXIMUM_SIZE o1 = DOC_MAXIMUM_SIZE o2 ->
      fragments o1 row = fragments o2 row ->
      map chunk_id docs1 = map chunk_id docs2) /\
  (forall idx docs1 docs2,
      NoDup (index_ids idx) ->
      map chunk_id docs1 = map chunk_id docs2 ->
      let idx1 := foldl upsert idx docs1 in
      let idx2 := foldl upsert idx1 docs2 in
      NoDup (index_ids idx2) /\
      index_ids idx2 = index_ids idx1 /\
      forall d, In d docs2 -> count_occ String.string_dec (index_ids idx2) (chunk_id d) = 1%nat) /\
  map chunk_id (built plain_oracle (row_of 1000) world0)
  = ["md5(c0doc1)"; "md5(c1doc1)"; "md5(c2doc1)"; "md5(c3doc1)"; "md5(c4doc1)"] /\
  map chunk_id (built plain_oracle questions_row world0)
  = ["md5(c0doc1)"; "md5(c1doc1)"; "md5(c2doc1)"; "md5(c3doc1)"; "md5(c4doc1)"].
Proof.
  split; [|split; [|split; [|split; vm_compute; reflexivity]]].
  - intros o row w docs w' Hb Hsize.
    destruct (build_ids o row w docs w' Hb) as [[Hlt _] | (_ & cks & Hf & Hall)]; [lia|].
    exists cks. split; [exact Hf|].
    eapply Forall2_impl; [exact Hall|]. intros ck d [Hid Hdoc].
    split; [exact Hid|]. split; [exact Hdoc|]. unfold hashed_id, doc_id_of in Hid.
    split.
    + intros Hn. rewrite Hn in Hid. exact Hid.
    + intros s Hs. rewrite Hs in Hid. exact Hid.
  - intros o1 o2 row w1 w2 docs1 docs2 w1' w2' Hb1 Hb2 Hm Hs Hmax Hfr.
    destruct (build_ids o1 row w1 docs1 w1' Hb1) as [[Hlt1 ->] | (Hle1 & cks1 & Hf1 & Hall1)];
      destruct (build_ids o2 row w2 docs2 w2' Hb2) as [[Hlt2 ->] | (Hle2 & cks2 & Hf2 & Hall2)];
      try lia; [reflexivity|].
    assert (cks1 = cks2) by congruence. subst cks2.
    rewrite (ids_of_stamped o1 row cks1 docs1 Hall1), (ids_of_stamped o2 row cks1 docs2 Hall2).
    apply map_ext. intros ck. apply hashed_id_agrees; assumption.
  - intros idx docs1 docs2 Hnd Hids idx1 idx2.
    assert (Hnd2 : NoDup (index_ids idx2)) by (apply upserts_NoDup, upserts_NoDup, Hnd).
    assert (Hknown : forall d, In d docs2 -> In (chunk_id d) (index_ids idx1)).
    { intros d Hd. apply (in_map chunk_id) in Hd. rewrite <- Hids in Hd.
      apply in_map_iff in Hd as (d1 & <- & Hd1). apply upserts_have, Hd1. }
    split; [exact Hnd2|]. split; [apply upserts_known, Hknown|].
    intros d Hd. apply NoDup_count_occ'; [apply NoDup_ListNoDup; exact Hnd2|].
    apply upserts_have, Hd.
Qed.

Lemma C7_chunk_ids_are_content_hashes_witness :
  let o := small_doc_oracle no_bulk_error in
  let o' := small_doc_oracle first_batch_fails in
  let row := row_of 1000 in
  let docs := built o row world0 in
  (exists cks,
      fragments o row = Some cks /\
      Forall2 (fun ck (d : chunk) =>
                 d !! "_id"
                 = Some (VStr (md5_hexdigest o
                                 (str_at ck "content_with_weight"
                                  +:+ py_str o (doc_id_of row ck)))) /\
                 d !! "doc_id" = Some (doc_id_of row ck) /\
                 (ck !! "doc_id" = None ->
                  d !! "_id"
                  = Some (VStr (md5_hexdigest o
                                  (str_at ck "content_with_weight" +:+ "doc1")))) /\
                 (forall s, ck !! "doc_id" = Some (VStr s) ->
                  d !! "_id"
                  = Some (VStr (md5_hexdigest o
                                  (str_at ck "content_with_weight" +:+ s)))))
              cks docs) /\
  map chunk_id docs
  = ["md5(c0doc1)"; "md5(c1doc1)"; "md5(c2doc1)"; "md5(c3doc1)"; "md5(c4doc1)"] /\
  map chunk_id docs = map chunk_id (built o' row (bound row world0)) /\
  (NoDup (index_ids (foldl upsert (foldl upsert [] docs) docs)) /\
   index_ids (foldl upsert (foldl upsert [] docs) docs) = index_ids (foldl upsert [] docs) /\
   forall d, In d docs ->
     count_occ String.string_dec (index_ids (foldl upsert (foldl upsert [] docs) docs))
               (chunk_id d) = 1%nat).
Proof.
  intros o o' row docs. split; [|split; [|split]].
  - apply (proj1 C7_chunk_ids_are_content_hashes o row world0 docs (build o row world0).2);
      [vm_compute; reflexivity | vm_compute; discriminate].
  - exact (proj1 (proj2 (proj2 (proj2 C7_chunk_ids_are_content_hashes)))).
  - apply (proj1 (proj2 C7_chunk_ids_are_content_hashes) o o' row world0 (bound row world0)
             docs (built o' row (bound row world0))
             (build o row world0).2 (build o' row (bound row world0)).2);
      vm_compute; reflexivity.
  - apply (proj1 (proj2 (proj2 C7_chunk_ids_are_content_hashes)) [] docs docs);
      [constructor | reflexivity].
Defined.
End ChunkIdClaims.

(** ** RAPTOR emission *)
Module RaptorFacts.
Import World Executor Spec MonadFacts.
Local Open Scope Z_scope.

Lemma map_M_Forall2 {A B} (f : A -> M B) l ys w :
  Forall2 (fun x y => forall w0, f x w0 = (Ret y, w0)) l ys ->
  map_M f l w = (Ret ys, w).
Proof.
  intros H. revert w. induction H as [|x y l ys Hxy _ IH]; intros w; [reflexivity|].
  cbn [map_M]. unfold mbind, M_bind, bind. rewrite Hxy, IH. reflexivity.
Qed.

Lemma map_M_total {A B} (f : A -> M B) (P : A -> B -> Prop) :
  (forall x w, exists y w', f x w = (Ret y, w') /\ P x y) ->
  forall l w, exists ys w', map_M f l w = (Ret ys, w') /\ Forall2 P l ys.
Proof.
  intros Hf. induction l as [|x l IH]; intros w.
  - exists [], w. split; [reflexivity | constructor].
  - destruct (Hf x w) as (y & w1 & Hy & HP). destruct (IH w1) as (ys & w2 & Hys & HPs).
    exists (y :: ys), w2. split; [|constructor; assumption].
    cbn [map_M]. unfold mbind, M_bind, bind. rewrite Hy, Hys. reflexivity.
Qed.

Lemma run_callbacks_returns callback calls w :
  (forall p m w0, exists w1, callback p m w0 = (Ret tt, w1)) ->
  exists w', run_callbacks callback calls w = (Ret tt, w').
Proof.
  intros Hcb. unfold run_callbacks. revert w.
  induction calls as [|c calls IH]; intros w; [exists w; reflexivity|].
  cbn [for_each]. unfold mbind, M_bind, bind.
  destruct (Hcb (cb_prog c) (cb_msg c) w) as [w1 ->]. apply IH.
Qed.

Lemma vec_field_q v : exists s, vec_field v = String "q" s.
Proof. unfold vec_field. eexists. reflexivity. Qed.

(** The chunk emitted for one synthesized pair. *)
Lemma raptor_chunk_run o row v0 (p : string * list float) w :
  exists d w',
    raptor_chunk o row (vec_field v0) p w = (Ret d, w') /\
    d !! "content_with_weight" = Some (VStr p.1) /\
    d !! vec_field v0 = Some (VVec p.2) /\
    d !! "title_tks" = Some (VStr (tokenize o (TaskService.name row))) /\
    d !! "doc_id" = Some (VStr (TaskService.doc_id row)) /\
    d !! "_id" = Some (VStr (md5_hexdigest o (p.1 +:+ TaskService.doc_id row))).
Proof.
  destruct p as [content vctr]. destruct (vec_field_q v0) as [s Hq].
  unfold raptor_chunk, mbind, M_bind, bind, next_now. cbn [mret M_ret ret fst snd].
  eexists _, _. split; [reflexivity|]. rewrite Hq.
  repeat split; repeat (rewrite lookup_insert_ne by discriminate);
    apply lookup_insert_eq.
Qed.
End RaptorFacts.

Module RaptorClaims.
Import World Executor Spec MonadFacts RaptorFacts Examples.
Local Open Scope Z_scope.

(** C9: when the model, the index and RAPTOR answer, and RAPTOR leaves the
    working set as the original pairs followed by the pairs it synthesized,
    [run_raptor] returns one chunk per synthesized pair, in order, and none
    for an original pair; each carries the pair's text and vector, the hash
    of the text with the document id, and the tokenization of the document's
    name in [title_tks]. *)
Theorem C9_raptor_emits_only_new_pairs :
  forall o row callback w v0 vs n ds chunks cfg calls new,
    encode o ["ok"] = Ok (v0 :: vs, n) ->
    chunk_list o (TaskService.doc_id row) (TaskService.tenant_id row) (vec_field v0)
    = Ok ds ->
    Forall2 (fun (d : chunk) (p : string * list float) =>
               d !! "content_with_weight" = Some (VStr p.1) /\
               d !! vec_field v0 = Some (VVec p.2)) ds chunks ->
    DB.raptor (TaskService.parser_config row) = Some cfg ->
    raptor_call o cfg chunks = (calls, Ok (chunks ++ new)) ->
    (forall p m w0, exists w1, callback p m w0 = (Ret tt, w1)) ->
    exists res w',
      run_raptor o row callback w
      = (Ret (res, foldl (fun k p => k + num_tokens_from_string o p.1) 0 new), w') /\
      length res = length new /\
      Forall2 (fun (p : string * list float) (d : chunk) =>
                 d !! "content_with_weight" = Some (VStr p.1) /\
                 d !! vec_field v0 = Some (VVec p.2) /\
                 d !! "title_tks" = Some (VStr (tokenize o (TaskService.name row))) /\
                 d !! "doc_id" = Some (VStr (TaskService.doc_id row)) /\
                 d !! "_id"
                 = Some (VStr (md5_hexdigest o (p.1 +:+ TaskService.doc_id row))))
              new res.
Proof.
  intros o row callback w v0 vs n ds chunks cfg calls new Henc Hlist Hds Hcfg Hrap Hcb.
  unfold run_raptor, mbind, M_bind, bind, emit, call.
  rewrite Henc. cbn [mret M_ret ret]. rewrite Hlist. cbn [mret M_ret ret].
  rewrite (map_M_Forall2 _ ds chunks); cycle 1.
  { eapply Forall2_impl; [exact Hds|]. intros d [c v] [Hc Hv] w0. cbn [fst snd] in *.
    unfold mbind, M_bind, bind, get_str, get_vec. rewrite Hc, Hv. reflexivity. }
  rewrite Hcfg. cbn [mret M_ret ret]. rewrite Hrap.
  match goal with
  | |- context [run_callbacks callback calls ?w0] =>
      destruct (run_callbacks_returns callback calls w0 Hcb) as [w1 Hw1]; rewrite Hw1
  end.
  unfold ret at 1. cbv beta iota. rewrite !drop_app_length.
  match goal with
  | |- context [map_M ?f new ?w0] =>
      destruct (map_M_total f _ (fun p w => raptor_chunk_run o row v0 p w) new w0)
        as (res & w2 & Hres & Hall); rewrite Hres
  end.
  cbn [mret M_ret ret].
  exists res, w2. split; [reflexivity|]. split; [|exact Hall].
  symmetry. eapply Forall2_length, Hall.
Qed.

Lemma C9_raptor_emits_only_new_pairs_witness :
  exists res w',
    run_raptor raptor_oracle raptor_row silent world0
    = (Ret (res, foldl (fun k p => k + num_tokens_from_string raptor_oracle p.1) 0
                       [summary_pair]), w') /\
    length res = length [summary_pair] /\
    Forall2 (fun (p : string * list float) (d : chunk) =>
               d !! "content_with_weight" = Some (VStr p.1) /\
               d !! vec_field (toy_vector "ok") = Some (VVec p.2) /\
               d !! "title_tks"
               = Some (VStr (tokenize raptor_oracle (TaskService.name raptor_row))) /\
               d !! "doc_id" = Some (VStr (TaskService.doc_id raptor_row)) /\
               d !! "_id"
               = Some (VStr (md5_hexdigest raptor_oracle
                               (p.1 +:+ TaskService.doc_id raptor_row))))
            [summary_pair] res.
Proof.
  apply (C9_raptor_emits_only_new_pairs raptor_oracle raptor_row silent world0
           (toy_vector "ok") [] 1 leaf_chunks leaf_pairs raptor_cfg []).
  - reflexivity.
  - reflexivity.
  - repeat constructor.
  - reflexivity.
  - reflexivity.
  - intros p m w0. exists w0. reflexivity.
Defined.
End RaptorClaims.

(** ** The worker: progress reports, claims and failures *)
Module WorkerMore.
Import World Executor Spec MonadFacts ExecutorFacts Invariant TaskServiceMore
  InvariantFacts StageFacts ChunkIdFacts Examples WorkerExamples.
Local Open Scope Z_scope.

Lemma canceled_suffix_nonempty a : String.eqb (a +:+ " [Canceled]") "" = false.
Proof. destruct a; reflexivity. Qed.

Lemma prefixed_nonempty f t a : String.eqb (page_prefix f t +:+ a) "" = false.
Proof. reflexivity. Qed.

Lemma cancel_seen_task o w id :
  cancel_seen o w id = true -> exists tk, tasks w !! id = Some tk.
Proof.
  unfold cancel_seen, TaskService.do_cancel. cbn [db_at DB.tasks].
  destruct (tasks w !! id) as [tk|]; [eauto | discriminate].
Qed.

Lemma append_nonempty a b : String.eqb b "" = false -> String.eqb (a +:+ b) "" = false.
Proof. intros Hb. destruct a; [exact Hb | reflexivity]. Qed.

(** X10: Once the document of a task is cancelled (or has failed), a progress
    report stores -1 whatever value it was given, and logs, after a line
    feed, the page prefix (when [to_page] is positive), "[ERROR]" (when the
    value given was negative), the message it was given and " [Canceled]";
    it then acknowledges the message held, if any, and leaves the process. *)
Theorem set_progress_cancelled :
  forall o w id f t prog msg,
    cancel_seen o w id = true ->
    let logged :=
      (if 0 <? t then "Page(" +:+ pretty (f + 1) +:+ "~" +:+ pretty (t + 1) +:+ "): "
       else "")
      +:+ (match prog with
           | Some p => if (p <? 0)%float then "[ERROR]" else ""
           | None => ""
           end)
      +:+ msg +:+ " [Canceled]" in
    (set_progress o id f t prog msg w).1 = Exit /\
    PAYLOAD (set_progress o id f t prog msg w).2 = None /\
    (exists tk tk',
        tasks w !! id = Some tk /\
        tasks (set_progress o id f t prog msg w).2 !! id = Some tk' /\
        DB.progress tk' = (-1)%float /\
        DB.progress_msg tk' = DB.progress_msg tk +:+ String "010" logged) /\
    trace (set_progress o id f t prog msg w).2
    = trace w
      ++ [EvDoCancel id true;
          EvUpdateProgress id {| TaskService.info_progress_msg := logged;
                                 TaskService.info_progress := Some (-1)%float |}]
      ++ match PAYLOAD w with Some _ => [EvAck; EvExit] | None => [EvExit] end.
Proof.
  intros o w id f t prog msg Hc logged.
  rewrite set_progress_run, Hc. cbn [fst snd].
  assert (Hi : progress_info f t prog msg true
               = {| TaskService.info_progress_msg := logged;
                    TaskService.info_progress := Some (-1)%float |}).
  { unfold progress_info, logged, is_neg, page_prefix. f_equal.
    destruct (0 <? t).
    - rewrite canceled_suffix_nonempty.
      destruct prog as [p|]; [destruct (p <? 0)%float|];
        rewrite ?append_assoc; reflexivity.
    - destruct prog as [p|]; [destruct (p <? 0)%float|]; reflexivity. }
  rewrite Hi.
  split; [reflexivity|]. split; [reflexivity|]. split; [|reflexivity].
  destruct (cancel_seen_task _ _ _ Hc) as (tk & Htk).
  destruct (update_tasks_lookup (tasks w) id
              {| TaskService.info_progress_msg := logged;
                 TaskService.info_progress := Some (-1)%float |} (-1)%float tk Htk)
    as (tk' & Hl & Hp & Hm); [reflexivity | |].
  { cbn [TaskService.info_progress_msg]. unfold logged.
    do 2 apply append_nonempty. apply canceled_suffix_nonempty. }
  exists tk, tk'. cbn [after_progress tasks].
  split; [exact Htk|]. split; [exact Hl|]. split; [exact Hp|]. exact Hm.
Qed.

Lemma set_progress_cancelled_witness :
  (set_progress cancelled_oracle "t1" 0 12 (Some 0.5%float) "parsing" world0).1 = Exit /\
  exists tk', tasks (set_progress cancelled_oracle "t1" 0 12 (Some 0.5%float)
                       "parsing" world0).2 !! "t1" = Some tk' /\
              DB.progress tk' = (-1)%float /\
              DB.progress_msg tk' = String "010" "Page(1~13): parsing [Canceled]".
Proof.
  destruct (set_progress_cancelled cancelled_oracle world0 "t1" 0 12
              (Some 0.5%float) "parsing" eq_refl)
    as (Hx & _ & (tk & tk' & Htk & Hl & Hp & Hm) & _).
  split; [exact Hx|]. exists tk'. split; [exact Hl|]. split; [exact Hp|].
  rewrite Hm. vm_compute in Htk. injection Htk as <-. vm_compute. reflexivity.
Defined.

(** X11: A progress tick without a message, as the encoding loop and the bulk loop
    send it, moves the progress value and nothing else: no line is added to
    the message log, also for a task with a page range, no other task is
    touched and the message stays held. *)
Theorem set_progress_tick_keeps_log :
  forall o w id f t p tk,
    cancel_seen o w id = false ->
    (p <? 0)%float = false ->
    tasks w !! id = Some tk ->
    (set_progress o id f t (Some p) "" w).1 = Ret tt /\
    PAYLOAD (set_progress o id f t (Some p) "" w).2 = PAYLOAD w /\
    tasks (set_progress o id f t (Some p) "" w).2 !! id
    = Some (TaskService.set_prog p tk) /\
    (forall id', id' <> id ->
       tasks (set_progress o id f t (Some p) "" w).2 !! id' = tasks w !! id').
Proof.
  intros o w id f t p tk Hc Hp Htk. rewrite set_progress_run, Hc. cbn [fst snd].
  split; [reflexivity|]. split; [reflexivity|].
  assert (Hi : progress_info f t (Some p) "" false
               = {| TaskService.info_progress_msg := "";
                    TaskService.info_progress := Some p |}).
  { unfold progress_info, is_neg. rewrite Hp. destruct (0 <? t); reflexivity. }
  rewrite Hi. cbn [after_progress tasks]. unfold TaskService.update_tasks.
  cbn [TaskService.info_progress_msg TaskService.info_progress String.eqb].
  split.
  - rewrite lookup_alter_eq, Htk. reflexivity.
  - intros id' Hne. apply lookup_alter_ne. congruence.
Qed.

Lemma set_progress_tick_keeps_log_witness :
  tasks (set_progress plain_oracle "t1" 0 12 (Some 0.7%float) "" world0).2 !! "t1"
  = Some (TaskService.set_prog 0.7%float (TaskServiceExamples.task_at 0)).
Proof.
  exact (proj1 (proj2 (proj2 (set_progress_tick_keeps_log plain_oracle world0 "t1" 0 12
                                0.7%float (TaskServiceExamples.task_at 0)
                                eq_refl eq_refl eq_refl)))).
Defined.

(** X12: When the queue cannot be asked for the unacknowledged message, [collect]
    logs the exception and returns the empty frame: nothing is raised, no new
    message is drawn, the store is not read and the worker does not sleep. *)
Theorem collect_survives_queue_failure :
  forall o w e,
    get_unacked_for o = Err e ->
    collect o w = (Ret [], set_trace w (trace w ++ [EvGetUnacked])).
Proof.
  intros o w e He.
  unfold collect, claim_message, fetch_rows, try_except, mbind, M_bind, bind, emit, call.
  rewrite He. reflexivity.
Qed.

Lemma collect_survives_queue_failure_witness :
  collect queue_down world0 = (Ret [], set_trace world0 (trace world0 ++ [EvGetUnacked])).
Proof.
  exact (collect_survives_queue_failure queue_down world0
           (Exception "Connection refused") eq_refl).
Defined.
(** X13: A message whose task belongs to a cancelled document is acknowledged
    without the task being claimed: the task table is left as it was (the
    retry-count is not spent), no stage runs, and the cycle returns. *)
Theorem cancelled_task_is_acknowledged_unclaimed :
  forall o w p msg,
    get_unacked_for o = Ok None ->
    queue_consumer o = Ok (Some p) ->
    get_message p = Some msg ->
    cancel_seen o w (msg_id msg) = true ->
    (cycle o w).1 = Ret tt /\
    tasks (cycle o w).2 = tasks w /\
    es (cycle o w).2 = es w /\
    PAYLOAD (cycle o w).2 = None /\
    trace (cycle o w).2
    = trace w ++ [EvGetUnacked; EvQueueConsumer; EvDoCancel (msg_id msg) true; EvAck].
Proof.
  intros o w p msg Hu Hq Hm Hc.
  unfold cycle, main, collect, claim_message, fetch_rows, do_cancel, read_db,
    ack_payload, try_except, mbind, M_bind, bind, emit, call, put_PAYLOAD,
    next_read, get_world.
  rewrite Hu, Hq. cbn. rewrite Hm. cbn.
  unfold cancel_seen in Hc. cbn in Hc |- *.
  change (TaskService.do_cancel _ (msg_id msg))
    with (TaskService.do_cancel (db_at o w (reads w)) (msg_id msg)).
  rewrite Hc. cbn. rewrite <- !app_assoc. repeat split; reflexivity.
Qed.

(** X14: A message whose task has already been claimed three times is
    acknowledged without any stage being run: the claim marks the task as
    failed (progress -1, the abandonment message, one more retry), no row is
    processed, and the cycle returns. *)
Theorem exhausted_task_is_acknowledged_unprocessed :
  forall o w p msg r,
    get_unacked_for o = Ok None ->
    queue_consumer o = Ok (Some p) ->
    get_message p = Some msg ->
    cancel_seen o w (msg_id msg) = false ->
    TaskService.select_join (db_at o w (S (reads w))) (msg_id msg) = Some r ->
    3 <= TaskService.retry_count r ->
    (cycle o w).1 = Ret tt /\
    es (cycle o w).2 = es w /\
    PAYLOAD (cycle o w).2 = None /\
    trace (cycle o w).2
    = trace w ++ [EvGetUnacked; EvQueueConsumer; EvDoCancel (msg_id msg) false;
                  EvGetTasks (msg_id msg); EvAck] /\
    exists tk tk',
      tasks w !! msg_id msg = Some tk /\
      tasks (cycle o w).2 !! msg_id msg = Some tk' /\
      DB.retry_count tk' = DB.retry_count tk + 1 /\
      DB.progress tk' = (-1)%float /\
      DB.progress_msg tk' = DB.progress_msg tk +:+ TaskService.msg_abandoned.
Proof.
  intros o w p msg r Hu Hq Hm Hc Hj Hr.
  destruct (TaskServiceFacts.select_join_task _ _ _ Hj) as (tk & Htk & _ & _).
  destruct (TaskServiceFacts.get_tasks_claim (random o (S (reads w))) _ _ _ _ Hj Htk)
    as (db' & d1 & tk' & Hg & _ & _ & Hl & Hrc & Hp & Hmsg).
  destruct (Z.leb_spec 3 (TaskService.retry_count r)) as [_|]; [|lia].
  unfold cycle, main, collect, claim_message, fetch_rows, do_cancel, read_db,
    get_tasks, ack_payload, try_except, mbind, M_bind, bind, emit, call, put_PAYLOAD,
    put_tasks, next_read, get_world.
  rewrite Hu, Hq. cbn. rewrite Hm. cbn.
  unfold cancel_seen in Hc. cbn in Hc |- *.
  change (TaskService.do_cancel _ (msg_id msg))
    with (TaskService.do_cancel (db_at o w (reads w)) (msg_id msg)).
  rewrite Hc. cbn.
  change (TaskService.get_tasks _ _ (msg_id msg))
    with (TaskService.get_tasks (random o (S (reads w))) (db_at o w (S (reads w)))
            (msg_id msg)).
  rewrite Hg. cbn. rewrite <- !app_assoc.
  split; [reflexivity|]. split; [reflexivity|]. split; [reflexivity|].
  split; [reflexivity|]. exists tk, tk'. auto.
Qed.

Lemma exhausted_task_is_acknowledged_unprocessed_witness :
  (cycle plain_oracle world_after_three_claims).1 = Ret tt /\
  PAYLOAD (cycle plain_oracle world_after_three_claims).2 = None.
Proof.
  destruct (exhausted_task_is_acknowledged_unprocessed plain_oracle
              world_after_three_claims _ _ _ eq_refl eq_refl eq_refl eq_refl eq_refl)
    as (H1 & _ & H2 & _); [vm_compute; discriminate|].
  split; [exact H1 | exact H2].
Defined.

Lemma cancelled_task_is_acknowledged_unclaimed_witness :
  (cycle cancelled_oracle world0).1 = Ret tt /\
  tasks (cycle cancelled_oracle world0).2 = tasks world0.
Proof.
  destruct (cancelled_task_is_acknowledged_unclaimed cancelled_oracle world0 _ _
              eq_refl eq_refl eq_refl eq_refl) as (H1 & H2 & _).
  split; [exact H1 | exact H2].
Defined.

(** X15: When the embedding model of a task cannot be bound, the task is reported
    as failed with the text of the exception and the row is skipped: the only
    events after the binding attempt are those of one progress report, so no
    file is fetched, no chunker or model is called and the index is not
    touched. *)
Theorem unbound_embedding_model_fails_task :
  forall o r ty w e,
    LLMBundle o EMBEDDING (TaskService.tenant_id r) (TaskService.embd_id r) = Some e ->
    exists i c,
      (process o r ty w).1 = (if c : bool then Exit else Ret tt) /\
      trace (process o r ty w).2
      = trace w ++ EvLLMBundle EMBEDDING (TaskService.embd_id r)
                :: progress_events (TaskService.id r) i c (PAYLOAD w) /\
      Forall (fun ev => ~ stage_event ev) (progress_events (TaskService.id r) i c (PAYLOAD w)) /\
      es (process o r ty w).2 = es w /\
      TaskService.info_progress i = Some (-1)%float /\
      (c = false ->
       TaskService.info_progress_msg i
       = (if 0 <? TaskService.to_page r
          then page_prefix (TaskService.from_page r) (TaskService.to_page r)
               +:+ "[ERROR]" +:+ exn_str e
          else "[ERROR]" +:+ exn_str e)).
Proof.
  intros o r ty w e He. rewrite (process_unbound o r ty w e He).
  set (c := cancel_seen o (bound r w) (TaskService.id r)).
  eexists _, c. cbn [fst snd after_progress trace es bound set_trace PAYLOAD].
  split; [reflexivity|]. split; [rewrite <- app_assoc; reflexivity|].
  split; [apply progress_events_not_stage|]. split; [reflexivity|].
  split; [unfold progress_info; destruct c; reflexivity|].
  intros ->. unfold progress_info, is_neg.
  cbn [TaskService.info_progress_msg].
  change ((-1 <? 0)%float) with true. cbn iota.
  destruct (0 <? TaskService.to_page r); reflexivity.
Qed.

Lemma unbound_embedding_model_fails_task_witness :
  exists t', tasks (process no_model (row_of 1000) None world0).2 !! "t1" = Some t' /\
             DB.progress t' = (-1)%float /\
             es (process no_model (row_of 1000) None world0).2 = ∅.
Proof.
  destruct (unbound_embedding_model_fails_task no_model (row_of 1000) None world0 _ eq_refl)
    as (i & c & _ & _ & _ & Hes & _).
  eexists. split; [vm_compute; reflexivity|]. split; [reflexivity | exact Hes].
Defined.

(** X16: A parser id with no registered chunker is a [KeyError] that neither
    [build] nor [main] catches: it escapes before any file is fetched and
    before any progress is reported, so the task keeps what its claim gave
    it, and the cycle ends without acknowledging the message. *)
Theorem unknown_parser_escapes_unreported :
  forall o w0 r ty rows w,
    TaskService.size r <= DOC_MAXIMUM_SIZE o ->
    FACTORY o (PyStr.lower (TaskService.parser_id r)) = None ->
    collect o w0 = (Ret ((r, ty) :: rows), w) ->
    from_option (String.eqb "raptor") false ty = false ->
    LLMBundle o EMBEDDING (TaskService.tenant_id r) (TaskService.embd_id r) = None ->
    (forall w1, build o r w1
       = (Raise (Exception ("'" +:+ PyStr.lower (TaskService.parser_id r) +:+ "'")), w1)) /\
    (cycle o w0).1
    = Raise (Exception ("'" +:+ PyStr.lower (TaskService.parser_id r) +:+ "'")) /\
    tasks (cycle o w0).2 = tasks w /\
    PAYLOAD (cycle o w0).2 = PAYLOAD w /\
    trace (cycle o w0).2 = trace w ++ [EvLLMBundle EMBEDDING (TaskService.embd_id r)].
Proof.
  intros o w0 r ty rows w Hs Hf Hc Hty Hl.
  assert (Hb : forall w1, build o r w1
    = (Raise (Exception ("'" +:+ PyStr.lower (TaskService.parser_id r) +:+ "'")), w1)).
  { intros w1. unfold build.
    destruct (Z.ltb_spec (DOC_MAXIMUM_SIZE o) (TaskService.size r)); [lia|].
    rewrite Hf. reflexivity. }
  split; [apply Hb|].
  assert (Hcy : cycle o w0
    = (Raise (Exception ("'" +:+ PyStr.lower (TaskService.parser_id r) +:+ "'")),
       bound r w)).
  { unfold cycle, main. unfold mbind at 1 2, M_bind, bind. rewrite Hc.
    cbn [for_each fst snd].
    unfold process, try_except, mbind, M_bind, bind, emit, call_unit.
    rewrite Hl, Hty. cbn [mret M_ret ret negb]. fold (bound r w).
    rewrite Hb. reflexivity. }
  rewrite Hcy. repeat split; reflexivity.
Qed.

Lemma unknown_parser_escapes_unreported_witness :
  (cycle hologram_oracle world0).1 = Raise (Exception "'hologram'") /\
  PAYLOAD (cycle hologram_oracle world0).2 = PAYLOAD (collect hologram_oracle world0).2.
Proof.
  destruct (unknown_parser_escapes_unreported hologram_oracle world0 unknown_parser_row
              None [] (collect hologram_oracle world0).2)
    as (_ & H1 & _ & H2 & _);
    [vm_compute; discriminate | reflexivity | vm_compute; reflexivity
    | reflexivity | reflexivity |].
  split; [exact H1 | exact H2].
Defined.

(** X17: When the blob store times out on the read of the file, [build] reports
    the task as failed with the timeout message and returns [None]: the
    chunker is not called, and the events after the two storage calls are
    those of that one progress report. *)
Theorem storage_timeout_fails_task :
  forall o r w chunker bucket name s,
    TaskService.size r <= DOC_MAXIMUM_SIZE o ->
    FACTORY o (PyStr.lower (TaskService.parser_id r)) = Some chunker ->
    get_storage_address o (TaskService.doc_id r) = Ok (bucket, name) ->
    storage_get o bucket name = Err (TimeoutError s) ->
    exists i c,
      (build o r w).1 = (if c : bool then Exit else Ret None) /\
      trace (build o r w).2
      = trace w ++ [EvGetStorageAddress (TaskService.doc_id r); EvStorageGet bucket name]
        ++ progress_events (TaskService.id r) i c (PAYLOAD w) /\
      TaskService.info_progress i = Some (-1)%float /\
      (c = false -> 0 < TaskService.to_page r ->
       TaskService.info_progress_msg i
       = page_prefix (TaskService.from_page r) (TaskService.to_page r)
         +:+ "[ERROR]Internal server error: Fetch file from minio timeout. Could you try it again.").
Proof.
  intros o r w chunker bucket name s Hs Hf Ha Hg.
  unfold build. destruct (Z.ltb_spec (DOC_MAXIMUM_SIZE o) (TaskService.size r)); [lia|].
  rewrite Hf. unfold try_except, mbind, M_bind, bind, emit, call.
  cbn [mret M_ret ret]. rewrite Ha. cbn [ret]. rewrite Hg. cbn [raise].
  rewrite set_progress_run.
  match goal with
  | |- context [cancel_seen o ?w1 ?id] => set (c := cancel_seen o w1 id)
  end.
  exists (progress_info (TaskService.from_page r) (TaskService.to_page r)
            (Some (-1)%float)
            "Internal server error: Fetch file from minio timeout. Could you try it again."
            c), c.
  destruct c; cbn [fst snd after_progress trace set_trace PAYLOAD mret M_ret ret].
  - split; [reflexivity|]. split; [rewrite <- !app_assoc; reflexivity|].
    split; [reflexivity | discriminate].
  - split; [reflexivity|]. split; [rewrite <- !app_assoc; reflexivity|].
    split; [reflexivity|]. intros _ Hp. unfold progress_info.
    cbn [TaskService.info_progress_msg].
    destruct (Z.ltb_spec 0 (TaskService.to_page r)); [reflexivity | lia].
Qed.

Lemma storage_timeout_fails_task_witness :
  (build slow_store (row_of 1000) world0).1 = Ret None /\
  exists t', tasks (build slow_store (row_of 1000) world0).2 !! "t1" = Some t' /\
             DB.progress t' = (-1)%float.
Proof.
  destruct (storage_timeout_fails_task slow_store (row_of 1000) world0 _ _ _ _
              ltac:(vm_compute; discriminate) eq_refl eq_refl eq_refl)
    as (i & c & _).
  split; [vm_compute; reflexivity|].
  eexists. split; [vm_compute; reflexivity | reflexivity].
Defined.

Lemma stamped_image row (ck : chunk) a b c :
  (<["create_timestamp_flt" := a]>
     (<["create_time" := b]>
        (<["_id" := c]>
           (ck ∪ <["doc_id" := VStr (TaskService.doc_id row)]>
                   (<["kb_id" := VStrs [TaskService.kb_id row]]> (∅ : chunk))))))
  !! "image" = ck !! "image".
Proof.
  rewrite !lookup_insert_ne by discriminate. rewrite lookup_union.
  rewrite !lookup_insert_ne by discriminate. rewrite lookup_empty.
  destruct (ck !! "image"); reflexivity.
Qed.

(** X19: A fragment that carries an image leaves [build] without it and with an
    [img_id] made of the knowledge base id and the chunk id, whether the
    image could be written to the blob store or not: an exception of the
    store is logged and the chunk is kept. *)
Theorem pictured_chunk_gets_img_id :
  forall o row (ck : chunk) content w,
    ck !! "content_with_weight" = Some (VStr content) ->
    from_option truthy false (ck !! "image") = true ->
    exists d w',
      stamp o row ck w = (Ret d, w') /\
      d !! "image" = None /\
      d !! "img_id"
      = Some (VStr (TaskService.kb_id row +:+ "-" +:+ hashed_id o row ck)) /\
      d !! "_id" = Some (VStr (hashed_id o row ck)) /\
      tasks w' = tasks w /\ es w' = es w.
Proof.
  intros o row ck content w Hc Hi.
  assert (Hid : md5_hexdigest o (content +:+ py_str o
                  (default (VStr (TaskService.doc_id row))
                     ((ck ∪ <["doc_id" := VStr (TaskService.doc_id row)]>
                         (<["kb_id" := VStrs [TaskService.kb_id row]]> (∅ : chunk)))
                        !! "doc_id")))
                = hashed_id o row ck).
  { rewrite ChunkIdFacts.stamped_doc_id. unfold hashed_id, str_at. rewrite Hc. reflexivity. }
  unfold stamp, get_str. rewrite Hc.
  unfold mbind at 1, M_bind at 1, bind at 1. cbn [mret M_ret ret].
  rewrite Hid.
  unfold mbind at 1, M_bind at 1, bind at 1, next_now at 1.
  unfold mbind at 1, M_bind at 1, bind at 1, next_now at 1.
  rewrite !stamped_image, Hi. cbn [negb].
  set (d0 := <["create_timestamp_flt" := _]> _).
  set (w2 := set_nows _ _).
  assert (Hput : exists w3,
    try_except
      (bytes ← match ck !! "image" with
               | Some (VBytes b) => mret b
               | Some (VPicture jpeg) => mret jpeg
               | _ => raise (Exception "AttributeError")
               end;
       emit (EvStoragePut (TaskService.kb_id row) (hashed_id o row ck));;
       call_unit (storage_put o (TaskService.kb_id row) (hashed_id o row ck) bytes))
      (fun _ => mret tt) w2 = (Ret tt, w3) /\ tasks w3 = tasks w /\ es w3 = es w).
  { unfold try_except, mbind, M_bind, bind, emit, call_unit.
    destruct (ck !! "image") as [[]|]; cbn;
      try (eexists; split; [reflexivity | split; reflexivity]);
      match goal with
      | |- context [storage_put ?a ?b ?c ?d] => destruct (storage_put a b c d)
      end; cbn; eexists; (split; [reflexivity | split; reflexivity]). }
  destruct Hput as (w3 & Hput & Ht & He).
  eexists _, w3. split; [rewrite (bind_ret _ _ _ _ _ Hput); reflexivity|].
  split; [apply lookup_delete_eq|].
  split; [rewrite lookup_delete_ne by discriminate; apply lookup_insert_eq|].
  split; [|split; assumption].
  rewrite lookup_delete_ne by discriminate.
  unfold d0. rewrite !lookup_insert_ne by discriminate. apply lookup_insert_eq.
Qed.

Lemma pictured_chunk_gets_img_id_witness :
  exists d w',
    stamp read_only_store (row_of 1000) pictured_fragment world0 = (Ret d, w') /\
    d !! "image" = None /\
    d !! "img_id" = Some (VStr "kb1-md5(figure 1doc1)").
Proof.
  destruct (pictured_chunk_gets_img_id read_only_store (row_of 1000) pictured_fragment
              "figure 1" world0 eq_refl eq_refl)
    as (d & w' & Hs & Hi & Hg & _).
  exists d, w'. split; [exact Hs|]. split; [exact Hi | exact Hg].
Defined.


Lemma index_confined_refl n w : index_confined n w w.
Proof. intros n' _. reflexivity. Qed.

Lemma index_confined_trans n w1 w2 w3 :
  index_confined n w1 w2 -> index_confined n w2 w3 -> index_confined n w1 w3.
Proof. intros H1 H2 n' Hn. rewrite (H2 n' Hn). apply H1, Hn. Qed.

Ltac index_leaf :=
  unfold index_confined; cbn; intros;
  first [reflexivity | apply lookup_insert_ne; congruence].
Ltac index_auto n :=
  repeat keeps_step (index_confined_refl n) (index_confined_trans n) index_leaf.

Section index.
Variable o : oracle.
Variable r : TaskService.row.
Let n := index_name o (TaskService.tenant_id r).

Lemma index_set_progress id f t prog msg :
  keeps (index_confined n) (set_progress o id f t prog msg).
Proof.
  intros w. rewrite set_progress_run. intros n' _. reflexivity.
Qed.

Lemma index_do_cancel id : keeps (index_confined n) (do_cancel o id).
Proof. unfold do_cancel, read_db, next_read, emit. index_auto n. Qed.

Lemma index_get_str d k : keeps (index_confined n) (get_str d k).
Proof. unfold get_str. index_auto n. Qed.

Lemma index_get_vec d k : keeps (index_confined n) (get_vec d k).
Proof. unfold get_vec. index_auto n. Qed.

Lemma index_build : keeps (index_confined n) (build o r).
Proof.
  unfold build, stamp, add_keywords, add_questions, run_callbacks, emit, next_now.
  pose proof index_set_progress. pose proof index_get_str. index_auto n.
Qed.

Lemma index_embedding docs cfg id f t :
  keeps (index_confined n) (embedding o docs cfg (set_progress o id f t)).
Proof.
  unfold embedding, encode_batches, encode_step, emit.
  pose proof index_set_progress. pose proof index_get_str. index_auto n.
Qed.

Lemma index_run_raptor id f t :
  keeps (index_confined n) (run_raptor o r (set_progress o id f t)).
Proof.
  unfold run_raptor, raptor_chunk, run_callbacks, emit, next_now.
  pose proof index_set_progress. pose proof index_get_str. pose proof index_get_vec.
  index_auto n.
Qed.

Lemma index_init_kb : keeps (index_confined n) (init_kb o r).
Proof.
  intros w. unfold init_kb, mbind, M_bind, bind, emit, get_world, put_es. cbn.
  fold n. destruct (es w !! n); [index_leaf|].
  unfold call_unit. destruct (load_mapping o); index_leaf.
Qed.

Lemma index_bulk batch : keeps (index_confined n) (bulk o batch n).
Proof.
  intros w. unfold bulk, mbind, M_bind, bind, emit, get_world, put_es, next_bulk.
  index_leaf.
Qed.

Lemma index_deleteByQuery d : keeps (index_confined n) (deleteByQuery d n).
Proof.
  intros w. unfold deleteByQuery, mbind, M_bind, bind, emit, get_world, put_es.
  index_leaf.
Qed.

Lemma index_index_chunks id f t cks tk :
  keeps (index_confined n) (index_chunks o r (set_progress o id f t) cks tk).
Proof.
  unfold index_chunks, emit. fold n.
  pose proof index_set_progress. pose proof index_get_str. pose proof index_do_cancel.
  pose proof index_init_kb. pose proof index_bulk. pose proof index_deleteByQuery.
  index_auto n.
Qed.

Lemma index_process ty : keeps (index_confined n) (process o r ty).
Proof.
  unfold process, emit.
  pose proof index_set_progress. pose proof index_build.
  pose proof index_embedding. pose proof index_run_raptor.
  pose proof index_index_chunks. index_auto n.
Qed.
End index.

(** X20: Whatever the collaborators answer, processing a task writes to and
    deletes from the search index of the task's tenant only: every other
    index is left exactly as it was. *)
Theorem process_touches_own_index_only :
  forall o r ty w n,
    n <> index_name o (TaskService.tenant_id r) ->
    es (process o r ty w).2 !! n = es w !! n.
Proof. intros o r ty w n Hn. exact (index_process o r ty w n Hn). Qed.

Lemma process_touches_own_index_only_witness :
  es (process plain_oracle (row_of 1000) None world_two_tenants).2 !! "ragflow_tenant2"
  = Some [("x", fragment "theirs")].
Proof.
  rewrite (process_touches_own_index_only plain_oracle (row_of 1000) None
             world_two_tenants "ragflow_tenant2" ltac:(vm_compute; discriminate)).
  reflexivity.
Defined.


Lemma chunk_increments_app a b :
  chunk_increments (a ++ b) = chunk_increments a ++ chunk_increments b.
Proof. apply omap_app. Qed.

(** Events that are neither a bulk call nor a delete-by-query. *)
Lemma bulk_answers_app a b : bulk_answers (a ++ b) = bulk_answers a ++ bulk_answers b.
Proof. apply omap_app. Qed.

Lemma deleted_docs_app a b : deleted_docs (a ++ b) = deleted_docs a ++ deleted_docs b.
Proof. apply omap_app. Qed.

Lemma set_progress_returns o id f t p m w u w' :
  set_progress o id f t p m w = (Ret u, w') ->
  exists i, trace w' = trace w ++ [EvDoCancel id false; EvUpdateProgress id i].
Proof.
  rewrite set_progress_run. destruct (cancel_seen o w id); intros H; [discriminate|].
  injection H as _ <-. eexists. reflexivity.
Qed.

Lemma map_get_str_world k (l : list chunk) : forall w ys w',
  map_M (fun c => get_str c k) l w = (Ret ys, w') -> w' = w.
Proof.
  induction l as [|x l IH]; intros w ys w' H.
  - injection H as _ <-. reflexivity.
  - cbn [map_M] in H. apply bind_inv in H as (y & w1 & Hy & H).
    apply get_str_inv in Hy as [_ ->].
    apply bind_inv in H as (ys' & w2 & Hys & H). injection H as _ <-.
    eapply IH, Hys.
Qed.

Lemma bulk_returns o batch idxnm w r w' :
  bulk o batch idxnm w = (Ret r, w') ->
  trace w' = trace w ++ [EvBulk idxnm (map chunk_id batch) r].
Proof.
  unfold bulk, mbind, M_bind, bind, next_bulk, emit, get_world, put_es. cbn.
  intros H. injection H as <- <-. reflexivity.
Qed.

Section last_answer.
Variable o : oracle.
Variable idxnm : string.
Variable cks : list chunk.
Variable callback : option float -> string -> M unit.
Hypothesis callback_returns : forall p m w u w',
  callback p m w = (Ret u, w') ->
  exists evs, trace w' = trace w ++ evs /\ bulk_answers evs = [] /\
              deleted_docs evs = [] /\ chunk_increments evs = [].

Let body := fun (_ : list string) (b : Z) =>
  es_r ← bulk o (slice cks b (b + es_bulk_size)) idxnm;
  (if (b mod 128 =? 0)
   then callback (Some (0.8 + 0.1 * PyStr.float_of_Z (b + 1)
                        / PyStr.float_of_Z (len cks))%float) ""
   else mret tt);;
  mret es_r.

Lemma bulk_turn acc b w r w' :
  body acc b w = (Ret r, w') ->
  exists evs, trace w' = trace w ++ evs /\
              bulk_answers evs = [r] /\ deleted_docs evs = [] /\
              chunk_increments evs = [].
Proof.
  unfold body. intros H.
  apply bind_inv in H as (es_r & w1 & Hb & H). apply bulk_returns in Hb.
  apply bind_inv in H as ([] & w2 & Hc & H). injection H as <- <-.
  destruct (b mod 128 =? 0).
  - apply callback_returns in Hc as (evs & Ht & Hba & Hdd & Hci).
    exists (EvBulk idxnm (map chunk_id (slice cks b (b + es_bulk_size))) es_r :: evs).
    rewrite Ht, Hb, <- app_assoc. split; [reflexivity|].
    cbn. unfold bulk_answers in Hba. unfold deleted_docs in Hdd.
    unfold chunk_increments in Hci.
    rewrite Hba, Hdd, Hci. repeat split; reflexivity.
  - injection Hc as <-. eexists. split; [exact Hb|]. repeat split; reflexivity.
Qed.

(** The list the bulk loop leaves in [es_r] is the answer of its last call. *)
Lemma bulk_loop_keeps_last_answer starts : forall acc w r w',
  fold_M body starts acc w = (Ret r, w') ->
  exists evs, trace w' = trace w ++ evs /\ deleted_docs evs = [] /\
    chunk_increments evs = [] /\
    match starts with
    | [] => r = acc /\ bulk_answers evs = []
    | _ :: _ => exists earlier, bulk_answers evs = earlier ++ [r]
    end.
Proof.
  induction starts as [|b starts IH]; intros acc w r w' H.
  - injection H as <- <-. exists []. rewrite app_nil_r. auto.
  - cbn [fold_M] in H. apply bind_inv in H as (r1 & w1 & Hb & H).
    apply bulk_turn in Hb as (e1 & Ht1 & Hb1 & Hd1 & Hi1).
    apply IH in H as (e2 & Ht2 & Hd2 & Hi2 & Hrest).
    exists (e1 ++ e2). rewrite Ht2, Ht1, <- app_assoc. split; [reflexivity|].
    rewrite deleted_docs_app, Hd1, Hd2. split; [reflexivity|].
    rewrite chunk_increments_app, Hi1, Hi2. split; [reflexivity|].
    rewrite bulk_answers_app, Hb1.
    destruct starts as [|b' starts'].
    + destruct Hrest as [-> ->]. exists []. reflexivity.
    + destruct Hrest as (earlier & ->). exists (r1 :: earlier). reflexivity.
Qed.
End last_answer.

Lemma bulk_starts_nonempty {A} (cks : list A) starts :
  cks <> [] -> Py.range 0 (len cks) es_bulk_size = Some starts -> starts <> [].
Proof.
  intros Hne H. unfold Py.range, es_bulk_size in H. cbn in H. injection H as <-.
  destruct cks as [|c cks]; [congruence|].
  unfold len. cbn [length]. rewrite Z.sub_0_r, Nat2Z.id. cbn [Py.range_up].
  destruct (Z.ltb_spec 0 (Z.of_nat (S (length cks)))); [discriminate | lia].
Qed.

Lemma set_progress_quiet o id f t p m w u w' :
  set_progress o id f t p m w = (Ret u, w') ->
  exists evs, trace w' = trace w ++ evs /\ bulk_answers evs = [] /\
              deleted_docs evs = [] /\ chunk_increments evs = [].
Proof.
  intros H. apply set_progress_returns in H as (i & H).
  eexists. split; [exact H|]. repeat split; reflexivity.
Qed.

Lemma init_kb_quiet o r w u w' :
  init_kb o r w = (Ret u, w') ->
  exists evs, trace w' = trace w ++ evs /\ bulk_answers evs = [] /\
              deleted_docs evs = [] /\ chunk_increments evs = [].
Proof.
  unfold init_kb, mbind, M_bind, bind, emit, get_world, put_es, call_unit. cbn.
  destruct (es w !! _); cbn.
  - intros H; injection H as _ <-; cbn.
    eexists. split; [reflexivity|]. repeat split; reflexivity.
  - destruct (load_mapping o); cbn; intros H; [discriminate|].
    injection H as _ <-; cbn.
    eexists. split; [rewrite <- app_assoc; reflexivity|]. repeat split; reflexivity.
Qed.

Lemma do_cancel_returns o id w c w' :
  do_cancel o id w = (Ret c, w') -> trace w' = trace w ++ [EvDoCancel id c].
Proof.
  unfold do_cancel, read_db, mbind, M_bind, bind, next_read, get_world, emit. cbn.
  intros H. injection H as <- <-. reflexivity.
Qed.

Lemma deleteByQuery_returns d idxnm w u w' :
  deleteByQuery d idxnm w = (Ret u, w') -> trace w' = trace w ++ [EvDeleteByQuery idxnm d].
Proof.
  unfold deleteByQuery, mbind, M_bind, bind, get_world, emit, put_es. cbn.
  intros H. injection H as _ <-. reflexivity.
Qed.

(** X21: Whether the chunks of a task stay in the index is decided by the answer
    of the last bulk call alone.  When the indexing of a non-empty list of
    chunks returns, the answers of the bulk calls are some earlier ones
    followed by a last one; if the last one lists errors, the document is
    deleted from the index and its chunk count is not incremented; if it
    lists none, then, unless the task is found cancelled, nothing is deleted
    and the chunk count of the document is incremented, whatever the earlier
    answers were. *)
Theorem last_bulk_answer_decides :
  forall o r id f t cks tk w u w',
    cks <> [] ->
    index_chunks o r (set_progress o id f t) cks tk w = (Ret u, w') ->
    exists evs earlier last,
      trace w' = trace w ++ evs /\
      bulk_answers evs = earlier ++ [last] /\
      match last with
      | _ :: _ =>
          deleted_docs evs = [TaskService.doc_id r] /\ chunk_increments evs = []
      | [] =>
          (deleted_docs evs = [TaskService.doc_id r] /\ chunk_increments evs = [] /\
           In (EvDoCancel (TaskService.id r) true) evs) \/
          (deleted_docs evs = [] /\
           exists n, chunk_increments evs
                     = [(TaskService.doc_id r, TaskService.kb_id r, tk, n)])
      end.
Proof.
  intros o r id f t cks tk w u w' Hne H. unfold index_chunks in H.
  apply bind_inv in H as ([] & w1 & Hkb & H).
  apply init_kb_quiet in Hkb as (e1 & Ht1 & Hb1 & Hd1 & Hi1).
  apply bind_inv in H as (ids & w2 & Hids & H).
  apply map_get_str_world in Hids as ->.
  apply bind_inv in H as (starts & w3 & Hst & H).
  destruct (Py.range 0 (len cks) es_bulk_size) as [l|] eqn:Hr; [|discriminate].
  injection Hst as <- <-.
  pose proof (bulk_starts_nonempty _ _ Hne Hr) as Hl.
  apply bind_inv in H as (es_r & w4 & Hfold & H).
  apply (bulk_loop_keeps_last_answer o) in Hfold as (e2 & Ht2 & Hd2 & Hi2 & Hb2);
    [|intros p m w0 u0 w0'; apply set_progress_quiet].
  destruct l as [|b l]; [congruence|]. destruct Hb2 as (earlier & Hb2).
  destruct es_r as [|x es_r].
  - apply bind_inv in H as (c & w5 & Hc & H). apply do_cancel_returns in Hc.
    destruct c.
    + apply deleteByQuery_returns in H.
      exists (e1 ++ e2 ++ [EvDoCancel (TaskService.id r) true;
                           EvDeleteByQuery (index_name o (TaskService.tenant_id r))
                                           (TaskService.doc_id r)]),
        earlier, [].
      split; [rewrite H, Hc, Ht2, Ht1, <- !app_assoc; reflexivity|].
      rewrite !bulk_answers_app, !deleted_docs_app, !chunk_increments_app.
      rewrite Hb1, Hb2, Hd1, Hd2, Hi1, Hi2. cbn.
      split; [rewrite app_nil_r; reflexivity|]. left.
      split; [reflexivity|]. split; [reflexivity|].
      rewrite !in_app_iff. right. right. left. reflexivity.
    + apply bind_inv in H as ([] & w6 & Hp & H).
      apply set_progress_quiet in Hp as (e3 & Ht3 & Hb3 & Hd3 & Hi3).
      unfold emit in H. injection H as _ <-. cbn [trace set_trace].
      eexists (e1 ++ e2 ++ [EvDoCancel (TaskService.id r) false] ++ e3 ++ [_]),
        earlier, [].
      split; [rewrite Ht3, Hc, Ht2, Ht1, <- !app_assoc; reflexivity|].
      rewrite !bulk_answers_app, !deleted_docs_app, !chunk_increments_app.
      rewrite Hb1, Hb2, Hb3, Hd1, Hd2, Hd3, Hi1, Hi2, Hi3. cbn.
      split; [rewrite app_nil_r; reflexivity|]. right.
      split; [reflexivity|]. eexists. reflexivity.
  - apply bind_inv in H as ([] & w5 & Hp & H).
    apply set_progress_quiet in Hp as (e3 & Ht3 & Hb3 & Hd3 & Hi3).
    apply deleteByQuery_returns in H.
    exists (e1 ++ e2 ++ e3 ++ [EvDeleteByQuery (index_name o (TaskService.tenant_id r))
                                              (TaskService.doc_id r)]),
      earlier, (x :: es_r).
    split; [rewrite H, Ht3, Ht2, Ht1, <- !app_assoc; reflexivity|].
    rewrite !bulk_answers_app, !deleted_docs_app, !chunk_increments_app.
    rewrite Hb1, Hb2, Hb3, Hd1, Hd2, Hd3, Hi1, Hi2, Hi3. cbn.
    split; [rewrite app_nil_r; reflexivity|]. split; reflexivity.
Qed.

Lemma last_bulk_answer_decides_witness :
  exists evs earlier last,
    trace (index_chunks (small_doc_oracle first_batch_fails) (row_of 1000)
             (set_progress (small_doc_oracle first_batch_fails) "t1" 0 12)
             stamped_five 5 world0).2
    = trace world0 ++ evs /\
    bulk_answers evs = earlier ++ [last] /\
    deleted_docs evs = [].
Proof.
  destruct (last_bulk_answer_decides (small_doc_oracle first_batch_fails) (row_of 1000)
              "t1" 0 12 stamped_five 5 world0 tt
              (index_chunks (small_doc_oracle first_batch_fails) (row_of 1000)
                 (set_progress (small_doc_oracle first_batch_fails) "t1" 0 12)
                 stamped_five 5 world0).2
              ltac:(vm_compute; discriminate) ltac:(vm_compute; reflexivity))
    as (evs & earlier & last & Ht & Hb & _).
  exists evs, earlier, last. split; [exact Ht|]. split; [exact Hb|].
  vm_compute in Ht. subst evs. vm_compute. reflexivity.
Defined.
End WorkerMore.

(** ** The adapters of the embedding services *)
Module EmbeddingModelFacts.
Import World Executor EmbeddingModel EmbeddingFacts.
Local Open Scope Z_scope.

Lemma np_array_uniform {A} (f : A -> list float) dim (l : list A) :
  (forall x, length (f x) = dim) -> np_array (map f l) = Ok (map f l).
Proof.
  intros Hdim. destruct l as [|x l]; [reflexivity|]. cbn [map np_array].
  replace (forallb _ _) with true; [reflexivity|]. symmetry.
  apply forallb_forall. intros r Hr. apply in_map_iff in Hr as (y & <- & _).
  rewrite !Hdim. apply Nat.eqb_refl.
Qed.

(** The slices a positive step cuts, put end to end, are the list. *)
Lemma slices_cover {A} (l : list A) bs fuel : forall i,
  0 < bs -> 0 <= i -> len l - i <= Z.of_nat fuel ->
  take (Z.to_nat i) l
  ++ concat (map (fun j => slice l j (j + bs)) (Py.range_up fuel i (len l) bs)) = l.
Proof.
  induction fuel as [|f IH]; intros i Hbs Hi Hfuel.
  - cbn. rewrite app_nil_r. apply take_ge. unfold len in *. lia.
  - cbn [Py.range_up]. destruct (Z.ltb_spec i (len l)) as [Hlt|Hge].
    + cbn [map concat]. rewrite app_assoc, slice_take_drop by lia.
      apply IH; lia.
    + cbn. rewrite app_nil_r. apply take_ge. unfold len in *. lia.
Qed.

Lemma map_slice {A B} (f : A -> B) l i j : map f (slice l i j) = slice (map f l) i j.
Proof. unfold slice. rewrite skipn_map, firstn_map. reflexivity. Qed.

Section pointwise.
Variable truncate : string -> Z -> string.
Variable num_tokens_from_string : string -> Z.
Variable enc : string -> list float.
Variable dim : nat.
Hypothesis Hdim : forall s, length (enc s) = dim.

Lemma default_loop_run model_encode texts bs starts :
  (forall batch, model_encode batch = Ok (map enc batch)) ->
  forall res,
    default_loop model_encode texts bs starts res
    = Ok (res ++ concat (map (fun j => slice (map enc texts) j (j + bs)) starts)).
Proof.
  intros Hm. induction starts as [|i starts IH]; intros res; cbn.
  - rewrite app_nil_r. reflexivity.
  - rewrite Hm, IH, map_slice, <- app_assoc. reflexivity.
Qed.

Lemma ollama_loop_run embeddings_of texts :
  (forall txt, embeddings_of txt = Ok (enc txt)) ->
  forall arr n,
    ollama_loop embeddings_of texts arr n
    = Ok (arr ++ map enc texts, n + 128 * len texts).
Proof.
  intros Hc. induction texts as [|t texts IH]; intros arr n; cbn [ollama_loop map].
  - rewrite app_nil_r. f_equal. f_equal. unfold len. cbn. lia.
  - rewrite Hc, IH, <- app_assoc. f_equal. f_equal. unfold len. cbn [length]. lia.
Qed.
End pointwise.

Lemma list_set_nat embds k v :
  (k < length embds)%nat -> list_set embds (Z.of_nat k) v = Some (<[k := v]> embds).
Proof.
  intros Hk. unfold list_set, len.
  destruct (Z.leb_spec 0 (Z.of_nat k)); [|lia].
  destruct (Z.ltb_spec (Z.of_nat k) (Z.of_nat (length embds))); [|lia].
  cbn [andb]. rewrite Nat2Z.id. reflexivity.
Qed.

(** Rows written at distinct indices in range end up where they are sent. *)
Lemma place_distinct (es : list (nat * list float)) : forall embds,
  NoDup es.*1 ->
  (forall k v, (k, v) ∈ es -> (k < length embds)%nat) ->
  exists r,
    place (prod_map Z.of_nat id <$> es) embds = Some r /\
    length r = length embds /\
    (forall k v, (k, v) ∈ es -> r !! k = Some v) /\
    (forall k, k ∉ es.*1 -> r !! k = embds !! k).
Proof.
  induction es as [|[i v] es IH]; intros embds Hnd Hb.
  - exists embds. split; [reflexivity|]. split; [reflexivity|].
    split; [intros k v Hin; inversion Hin | reflexivity].
  - cbn [fmap list_fmap prod_map fst snd id place].
    apply NoDup_cons in Hnd as [Hi Hnd].
    assert (Hlt : (i < length embds)%nat) by (apply (Hb i v); left).
    rewrite (list_set_nat _ _ _ Hlt).
    destruct (IH (<[i := v]> embds) Hnd) as (r & Hp & Hl & Hin & Hout).
    { intros k v' Hk. rewrite length_insert. apply (Hb k v'). right. exact Hk. }
    exists r. split; [exact Hp|]. rewrite length_insert in Hl. split; [exact Hl|].
    split.
    + intros k v' Hk. apply elem_of_cons in Hk as [Heq|Hk]; [|apply Hin, Hk].
      injection Heq as -> ->. rewrite (Hout i Hi). apply list_lookup_insert_eq, Hlt.
    + intros k Hk. cbn [fmap list_fmap fst] in Hk. apply not_elem_of_cons in Hk as [Hne Hk].
      rewrite (Hout k Hk). apply list_lookup_insert_ne. congruence.
Qed.

(** The embeddings of a batch, each sent with its index, in any order, are
    put back in the order of the texts. *)
Lemma place_permuted {A} (f : A -> list float) (batch : list A)
    (es : list (nat * list float)) :
  es ≡ₚ imap (fun k t => (k, f t)) batch ->
  place (prod_map Z.of_nat id <$> es) (replicate (length es) []) = Some (map f batch).
Proof.
  intros Hperm.
  assert (Hlen : length es = length batch).
  { rewrite Hperm. apply length_imap. }
  assert (Hin : forall k v, (k, v) ∈ es <-> exists t, batch !! k = Some t /\ v = f t).
  { intros k v. rewrite Hperm, elem_of_lookup_imap. split.
    - intros (i & t & Heq & Ht). injection Heq as -> ->. eauto.
    - intros (t & Ht & ->). eauto. }
  assert (Hnd : NoDup es.*1).
  { rewrite Hperm, fmap_imap. apply NoDup_alt. intros i j x.
    rewrite !list_lookup_imap. destruct (batch !! i), (batch !! j); cbn; congruence. }
  destruct (place_distinct es (replicate (length es) []) Hnd) as (r & Hp & Hl & Hr & _).
  { intros k v Hk. rewrite length_replicate, Hlen.
    apply Hin in Hk as (t & Ht & _). eapply lookup_lt_Some, Ht. }
  rewrite Hp. f_equal. apply list_eq. intros k.
  change (map f batch) with (f <$> batch). rewrite list_lookup_fmap.
  destruct (batch !! k) as [t|] eqn:Ht; cbn.
  - apply Hr, Hin. eauto.
  - apply lookup_ge_None. rewrite Hl, length_replicate, Hlen.
    apply lookup_ge_None, Ht.
Qed.

Section qwen.
Variable enc : string -> list float.
Variable call : list string -> result qwen_response.
Hypothesis call_answers : forall batch,
  (length batch <= 4)%nat ->
  exists es tk,
    call batch = Ok {| embeddings := prod_map Z.of_nat id <$> es; total_tokens := tk |} /\
    es ≡ₚ imap (fun k t => (k, enc t)) batch.

Lemma slice_length {A} (l : list A) i bs :
  0 <= bs -> (length (slice l i (i + bs)) <= Z.to_nat bs)%nat.
Proof.
  intros Hbs. unfold slice. replace (i + bs - i) with bs by lia.
  rewrite length_take. lia.
Qed.

Lemma qwen_loop_run texts bs starts :
  0 <= bs <= 4 ->
  forall res n,
  exists n',
    qwen_loop call texts bs starts res n
    = Ok (res ++ concat (map (fun j => slice (map enc texts) j (j + bs)) starts), n').
Proof.
  intros Hbs. induction starts as [|i starts IH]; intros res n; cbn [qwen_loop map concat].
  - exists n. rewrite app_nil_r. reflexivity.
  - destruct (call_answers (slice texts i (i + bs))) as (es & tk & -> & Hperm).
    { pose proof (slice_length texts i bs ltac:(lia)). lia. }
    cbn [embeddings total_tokens]. rewrite length_fmap.
    rewrite (place_permuted enc _ es Hperm).
    destruct (IH (res ++ map enc (slice texts i (i + bs))) (n + tk)) as (n' & ->).
    exists n'. rewrite map_slice, <- app_assoc. reflexivity.
Qed.
End qwen.
End EmbeddingModelFacts.

Module EmbeddingModelMore.
Import World Executor EmbeddingModel EmbeddingFacts EmbeddingModelFacts
  Examples EmbeddingModelExamples.
Local Open Scope Z_scope.

(** X22: [DefaultEmbedding.encode] hides its batching: when the local model maps
    each text to its vector, the result for any positive batch size is the
    vectors of the truncated texts, one row per text and in order, and the
    token count is that of the truncated texts. *)
Theorem default_encode_batches_are_invisible :
  forall truncate num_tokens enc dim model_encode texts batch_size,
    (forall s, length (enc s) = dim) ->
    (forall batch, model_encode batch = Ok (map enc batch)) ->
    0 < batch_size ->
    DefaultEmbedding_encode truncate num_tokens model_encode texts batch_size
    = Ok (map enc (map (fun t => truncate t 2048) texts),
          foldl (fun n t => n + num_tokens t) 0 (map (fun t => truncate t 2048) texts)).
Proof.
  intros truncate num_tokens enc dim model_encode texts bs Hdim Hm Hbs.
  unfold DefaultEmbedding_encode, Py.range.
  destruct (Z.eqb_spec bs 0); [lia|]. destruct (Z.ltb_spec 0 bs); [|lia].
  rewrite (default_loop_run enc model_encode _ bs _ Hm). cbn [app].
  set (ts := map (fun t => truncate t 2048) texts).
  pose proof (slices_cover (map enc ts) bs (Z.to_nat (len ts - 0)) 0 Hbs) as Hc.
  rewrite len_map in Hc. specialize (Hc ltac:(lia) ltac:(lia)).
  change (take (Z.to_nat 0) (map enc ts) ++ ?l) with l in Hc.
  rewrite Hc. rewrite (np_array_uniform enc dim ts Hdim). reflexivity.
Qed.

Lemma default_encode_batches_are_invisible_witness :
  DefaultEmbedding_encode toy_truncate toy_tokens toy_model six_texts 4
  = Ok (map toy_vector six_texts, 21).
Proof.
  rewrite (default_encode_batches_are_invisible toy_truncate toy_tokens toy_vector 2
             toy_model six_texts 4 (fun _ => eq_refl) (fun _ => eq_refl) eq_refl).
  reflexivity.
Defined.

(** X23: [OllamaEmbed.encode] asks the service text by text and reports 128 tokens
    for every text, whatever its length: when the service maps each text to
    its vector, the result is one row per text, in order, with a token count
    of 128 times the number of texts. *)
Theorem ollama_encode_counts_128_per_text :
  forall enc dim embeddings_of texts,
    (forall s, length (enc s) = dim) ->
    (forall txt, embeddings_of txt = Ok (enc txt)) ->
    OllamaEmbed_encode embeddings_of texts = Ok (map enc texts, 128 * len texts).
Proof.
  intros enc dim embeddings_of texts Hdim Hc. unfold OllamaEmbed_encode.
  rewrite (ollama_loop_run enc embeddings_of texts Hc). cbn [app].
  rewrite (np_array_uniform enc dim texts Hdim). reflexivity.
Qed.

Lemma ollama_encode_counts_128_per_text_witness :
  OllamaEmbed_encode toy_embeddings six_texts = Ok (map toy_vector six_texts, 768).
Proof.
  exact (ollama_encode_counts_128_per_text toy_vector 2 toy_embeddings six_texts
           (fun _ => eq_refl) (fun _ => eq_refl)).
Defined.

(** X24: [QWenEmbed.encode] never sends more than four texts per call,
    whatever batch size it is asked for, and puts the embeddings of each
    answer back in the order of the texts: when the service answers every
    batch of at most four texts with the vectors of its texts, each with its
    index and in any order - and may refuse or answer anything on larger
    batches - the result is the vectors of the truncated texts, one row per
    text and in order, for every positive batch size. *)
Theorem qwen_encode_restores_text_order :
  forall truncate enc dim model_name call texts batch_size,
    (forall s, length (enc s) = dim) ->
    (forall batch,
       (length batch <= 4)%nat ->
       exists es tk,
         call batch
         = Ok {| embeddings := prod_map Z.of_nat id <$> es; total_tokens := tk |} /\
         es ≡ₚ imap (fun k t => (k, enc t)) batch) ->
    0 < batch_size ->
    exists token_count,
      QWenEmbed_encode truncate model_name call texts batch_size
      = Ok (map enc (map (fun t => truncate t 2048) texts), token_count).
Proof.
  intros truncate enc dim model_name call texts bs Hdim Hcall Hbs.
  unfold QWenEmbed_encode, Py.range.
  destruct (Z.eqb_spec (Z.min bs 4) 0); [lia|].
  destruct (Z.ltb_spec 0 (Z.min bs 4)); [|lia].
  set (ts := map (fun t => truncate t 2048) texts).
  destruct (qwen_loop_run enc call Hcall ts (Z.min bs 4)
              (Py.range_up (Z.to_nat (len ts - 0)) 0 (len ts) (Z.min bs 4))
              ltac:(lia) [] 0)
    as (tk & ->).
  cbn [app].
  pose proof (slices_cover (map enc ts) (Z.min bs 4) (Z.to_nat (len ts - 0)) 0) as Hc.
  rewrite len_map in Hc. specialize (Hc ltac:(lia) ltac:(lia) ltac:(lia)).
  change (take (Z.to_nat 0) (map enc ts) ++ ?l) with l in Hc.
  rewrite Hc. rewrite (np_array_uniform enc dim ts Hdim). exists tk. reflexivity.
Qed.

Lemma qwen_encode_restores_text_order_witness :
  exists token_count,
    QWenEmbed_encode toy_truncate "text_embedding_v2" capped_service six_texts 10
    = Ok (map toy_vector six_texts, token_count).
Proof.
  destruct (qwen_encode_restores_text_order toy_truncate toy_vector 2
              "text_embedding_v2" capped_service six_texts 10 (fun _ => eq_refl))
    as (tk & H); [|reflexivity|].
  - intros batch Hlen. unfold capped_service.
    destruct (Nat.leb_spec (length batch) 4) as [_|Hgt]; [|lia].
    eexists _, _. split; [reflexivity|]. apply reverse_Permutation.
  - exists tk. rewrite H. reflexivity.
Defined.
End EmbeddingModelMore.
